(** * The deployment form and its server route

    A shallow embedding of the validation-and-submission pipeline:
    - [src/app/api/deploy/route.ts]: [deploymentSchema], [extractGitHubInfo],
      the [POST] handler and its error classification;
    - the deployment form component ([validateForm], [handleInputChange],
      [updateEnvVar], [handleSubmit]).

    Conventions.  A JavaScript string is modelled by a [string] whose
    characters are UTF-16 code units below 256, so [String.length] is the
    [length] property.  A number of a JSON value is kept by the text that
    the engine writes for it; the sources copy such numbers and write them
    out, and never compute with them.  The messages of the [TypeError]s of
    the engine are those of V8, on the sources as they are written.
    Logging ([console.log]) has no effect on any result and is left out. *)

From Stdlib Require Import ZArith NArith Ascii String List Bool Lia.
From stdpp Require Import base option list gmap strings fin_maps pretty.

Local Open Scope stdpp_scope.
Local Set Warnings "-register-all".

(* ===================================================================== *)
(** * Part I: the model                                                  *)
(* ===================================================================== *)

(** ** String primitives of the host language *)
Module Js.

(** [WhiteSpace] and [LineTerminator] code units below 256: TAB, LF, VT,
    FF, CR, SPACE and NO-BREAK SPACE.  They are what [trim] removes. *)
Definition isWhiteSpace (c : ascii) : bool :=
  match N_of_ascii c with
  | 9 | 10 | 11 | 12 | 13 | 32 | 160 => true
  | _ => false
  end%N.

Fixpoint trimStart (s : string) : string :=
  match s with
  | String c s' => if isWhiteSpace c then trimStart s' else s
  | EmptyString => EmptyString
  end.

Definition trimEnd (s : string) : string :=
  String.rev (trimStart (String.rev s)).

(** [s.trim()] *)
Definition trim (s : string) : string := trimEnd (trimStart s).

(** Truthiness of a string value: [if (s)], [!s], [s && ...]. *)
Definition truthy (s : string) : bool :=
  match s with
  | EmptyString => false
  | String _ _ => true
  end.

(** [s.startsWith(p)] *)
Definition startsWith (p s : string) : bool := String.prefix p s.

(** [s.includes(needle)] *)
Fixpoint includes (needle s : string) : bool :=
  String.prefix needle s ||
  match s with
  | String _ s' => includes needle s'
  | EmptyString => false
  end.

Fixpoint drop (n : nat) (s : string) : string :=
  match n, s with
  | S n', String _ s' => drop n' s'
  | _, _ => s
  end.

(** [s.replace(pat, rep)] with a string pattern: only the first
    occurrence of [pat] is replaced. *)
Fixpoint replace (pat rep s : string) : string :=
  if String.prefix pat s then rep +:+ drop (String.length pat) s
  else match s with
       | String c s' => String c (replace pat rep s')
       | EmptyString => EmptyString
       end.

(** [parts.join(sep)] *)
Fixpoint join (sep : string) (parts : list string) : string :=
  match parts with
  | [] => ""
  | [p] => p
  | p :: rest => p +:+ sep +:+ join sep rest
  end.

(** *** [Number(s) > 0] for a string

    The numeric reading of a string ([StringToNumber]): white space
    around a literal is dropped; the literal is [Infinity] or a decimal
    literal, with an optional sign, or a binary, octal or hexadecimal
    integer without sign; every other string reads as [NaN], the empty
    one as zero.  The real number of a decimal literal is rounded to the
    nearest double, so it reads as zero when it is at most [2^-1075]. *)

Definition digitValue (c : ascii) : option N :=
  let n := N_of_ascii c in
  if (48 <=? n)%N && (n <=? 57)%N then Some (n - 48)%N else None.

Definition hexValue (c : ascii) : option N :=
  let n := N_of_ascii c in
  if (48 <=? n)%N && (n <=? 57)%N then Some (n - 48)%N
  else if (65 <=? n)%N && (n <=? 70)%N then Some (n - 55)%N
  else if (97 <=? n)%N && (n <=? 102)%N then Some (n - 87)%N
  else None.

(** The digits at the start of a string, and what follows them. *)
Fixpoint spanDigits (s : string) : string * string :=
  match s with
  | String c s' =>
      match digitValue c with
      | Some _ => let r := spanDigits s' in (String c (fst r), snd r)
      | None => ("", s)
      end
  | EmptyString => ("", "")
  end.

(** The number that a string of decimal digits writes; [None] when a
    character is no digit. *)
Fixpoint decimalValue (acc : N) (s : string) : option N :=
  match s with
  | String c s' =>
      match digitValue c with
      | Some d => decimalValue (10 * acc + d)%N s'
      | None => None
      end
  | EmptyString => Some acc
  end.

(** An integer literal in a radix: at least one digit, all below the
    radix; it is greater than zero when one of them is not [0]. *)
Fixpoint radixDigits (radix : N) (s : string) : option bool :=
  match s with
  | String c s' =>
      match hexValue c with
      | Some d =>
          if (d <? radix)%N then
            match s' with
            | EmptyString => Some (negb (d =? 0)%N)
            | _ => match radixDigits radix s' with
                   | Some nonzero => Some (nonzero || negb (d =? 0)%N)
                   | None => None
                   end
            end
          else None
      | None => None
      end
  | EmptyString => None
  end.

Definition radixPositive (radix : N) (s : string) : bool :=
  match radixDigits radix s with
  | Some nonzero => nonzero
  | None => false
  end.

(** The exponent part of a decimal literal, absent or [e] or [E] with a
    signed integer; [None] when what follows the digits is no exponent
    part. *)
Definition exponentPart (s : string) : option Z :=
  match s with
  | EmptyString => Some 0%Z
  | String c rest =>
      if Ascii.eqb c "e" || Ascii.eqb c "E" then
        let (negative, ds) :=
          match rest with
          | String sign ds =>
              if Ascii.eqb sign "+" then (false, ds)
              else if Ascii.eqb sign "-" then (true, ds)
              else (false, rest)
          | EmptyString => (false, rest)
          end in
        match ds with
        | EmptyString => None
        | _ => match decimalValue 0 ds with
               | Some e => Some (if negative then - Z.of_N e else Z.of_N e)%Z
               | None => None
               end
        end
      else None
  end.

(** An unsigned decimal literal that reads as a number above zero. *)
Definition decimalPositive (s : string) : bool :=
  if String.eqb s "Infinity" then true
  else
    let (whole, afterWhole) := spanDigits s in
    let '(hasPoint, fraction, afterFraction) :=
      match afterWhole with
      | String c rest =>
          if Ascii.eqb c "."
          then let r := spanDigits rest in (true, fst r, snd r)
          else (false, "", afterWhole)
      | EmptyString => (false, "", afterWhole)
      end in
    if String.eqb whole "" && (negb hasPoint || String.eqb fraction "") then false
    else
      match exponentPart afterFraction, decimalValue 0 (whole +:+ fraction) with
      | Some e, Some mantissa =>
          let k := (e - Z.of_nat (String.length fraction))%Z in
          negb (mantissa =? 0)%N
          && ((0 <=? k)%Z || (10 ^ (- k) <? Z.of_N mantissa * 2 ^ 1075)%Z)
      | _, _ => false
      end.

(** [Number(s) > 0] *)
Definition toNumberPositive (s : string) : bool :=
  let t := trim s in
  match t with
  | String c rest =>
      if Ascii.eqb c "+" then decimalPositive rest
      else if Ascii.eqb c "-" then false
      else if String.prefix "0x" t || String.prefix "0X" t then radixPositive 16 (drop 2 t)
      else if String.prefix "0o" t || String.prefix "0O" t then radixPositive 8 (drop 2 t)
      else if String.prefix "0b" t || String.prefix "0B" t then radixPositive 2 (drop 2 t)
      else decimalPositive t
  | EmptyString => false
  end.

End Js.

(** ** Regular expressions

    The regular expressions of the sources carry no flags.  A pattern
    anchored by [^] and [$] is tested with [matches]: without the [m]
    flag [$] stands for the end of the input only.  Matching is by
    derivatives. *)
Module Regex.

Inductive re : Type :=
| RVoid
| REps
| RClass (p : ascii -> bool)
| RSeq (r1 r2 : re)
| RAlt (r1 r2 : re)
| RStar (r : re).

Fixpoint nullable (r : re) : bool :=
  match r with
  | RVoid => false
  | REps => true
  | RClass _ => false
  | RSeq r1 r2 => nullable r1 && nullable r2
  | RAlt r1 r2 => nullable r1 || nullable r2
  | RStar _ => true
  end.

Fixpoint deriv (c : ascii) (r : re) : re :=
  match r with
  | RVoid => RVoid
  | REps => RVoid
  | RClass p => if p c then REps else RVoid
  | RSeq r1 r2 =>
      if nullable r1 then RAlt (RSeq (deriv c r1) r2) (deriv c r2)
      else RSeq (deriv c r1) r2
  | RAlt r1 r2 => RAlt (deriv c r1) (deriv c r2)
  | RStar r1 => RSeq (deriv c r1) (RStar r1)
  end.

Fixpoint matches (r : re) (s : string) : bool :=
  match s with
  | EmptyString => nullable r
  | String c s' => matches (deriv c r) s'
  end.

(** Surface syntax of the patterns. *)
Definition chr (c : ascii) : re := RClass (Ascii.eqb c).

Fixpoint lit (s : string) : re :=
  match s with
  | EmptyString => REps
  | String c s' => RSeq (chr c) (lit s')
  end.

Definition plus (r : re) : re := RSeq r (RStar r).
Definition opt (r : re) : re := RAlt r REps.

Definition in_range (lo hi c : ascii) : bool :=
  (N_of_ascii lo <=? N_of_ascii c)%N && (N_of_ascii c <=? N_of_ascii hi)%N.

(** [[a-zA-Z0-9]] *)
Definition alnum (c : ascii) : bool :=
  in_range "a" "z" c || in_range "A" "Z" c || in_range "0" "9" c.

(** [[^\/]] *)
Definition not_slash (c : ascii) : bool := negb (Ascii.eqb c "/").

(** The language of an expression, for the proofs. *)
Inductive lang : re -> string -> Prop :=
| lang_eps : lang REps ""
| lang_class p c : p c = true -> lang (RClass p) (String c "")
| lang_seq r1 r2 s1 s2 :
    lang r1 s1 -> lang r2 s2 -> lang (RSeq r1 r2) (s1 +:+ s2)
| lang_alt_l r1 r2 s : lang r1 s -> lang (RAlt r1 r2) s
| lang_alt_r r1 r2 s : lang r2 s -> lang (RAlt r1 r2) s
| lang_star_nil r : lang (RStar r) ""
| lang_star_cons r s1 s2 :
    lang r s1 -> lang (RStar r) s2 -> lang (RStar r) (s1 +:+ s2).

End Regex.

(** ** JSON values *)
Module Json.

(** A value that [JSON.parse] returns.  A number is kept by the text that
    [String] and [JSON.stringify] write for it, as ["42"], ["0.5"] or
    ["1e+21"]; zero is ["0"].  An object is kept by its own properties,
    each key once. *)
Inductive json : Type :=
| JNull
| JBool (b : bool)
| JNumber (text : string)
| JString (s : string)
| JArray (items : list json)
| JObject (fields : list (string * json)).

(** [o[k]] on an object whose own keys are distinct; [None] is
    [undefined]. *)
Fixpoint lookup_field (k : string) (fields : list (string * json)) : option json :=
  match fields with
  | [] => None
  | (k', v) :: rest => if String.eqb k k' then Some v else lookup_field k rest
  end.

(** Truthiness: [if (v)], [v ? a : b], [v && ...]. *)
Definition truthy (v : json) : bool :=
  match v with
  | JNull => false
  | JBool b => b
  | JNumber text => negb (String.eqb text "0")
  | JString s => Js.truthy s
  | JArray _ => true
  | JObject _ => true
  end.

(** [v.name] on a value that is not [null], for a name that no prototype
    defines: an own property of an object, and [undefined] on every other
    value. *)
Definition property (name : string) (v : json) : option json :=
  match v with
  | JObject fields => lookup_field name fields
  | _ => None
  end.

(** *** Conversion to a string: [`${v}`], [items.join(sep)]

    An object of a JSON text is converted by the [toString] it inherits,
    unless it has an own property of that name: that one is no function,
    and neither an own [valueOf] nor the inherited one yields a primitive,
    so the conversion throws.  An array is converted by [join], which
    converts every element but [null]. *)
Fixpoint printable (v : json) : bool :=
  match v with
  | JArray items =>
      forallb printable items
  | JObject fields =>
      match lookup_field "toString" fields with
      | Some _ => false
      | None => true
      end
  | _ => true
  end.

(** [String(v)] for a value the conversion does not throw on. *)
Fixpoint toText (v : json) : string :=
  match v with
  | JNull => "null"
  | JBool true => "true"
  | JBool false => "false"
  | JNumber text => text
  | JString s => s
  | JArray items =>
      Js.join "," (map (fun item => match item with JNull => "" | _ => toText item end)
                       items)
  | JObject _ => "[object Object]"
  end.

(** [w > 0]; [None] when the conversion of [w] to a number throws.  An
    array is converted by way of its text; an object without an own
    [toString] reads as [NaN]. *)
Definition positive (w : json) : option bool :=
  match w with
  | JNull => Some false
  | JBool b => Some b
  | JNumber text => Some (negb (String.eqb text "0") && negb (String.prefix "-" text))
  | JString s => Some (Js.toNumberPositive s)
  | JArray _ => if printable w then Some (Js.toNumberPositive (toText w)) else None
  | JObject _ => if printable w then Some false else None
  end.

(** *** [JSON.stringify] *)

Definition hex_digit (n : N) : ascii :=
  ascii_of_N (if (n <? 10)%N then 48 + n else 87 + n).

Definition dquote : string := String (ascii_of_N 34) "".
Definition backslash : string := String (ascii_of_N 92) "".

(** The escape of one code unit inside a JSON string literal. *)
Definition escape_char (c : ascii) : string :=
  match N_of_ascii c with
  | 34 => backslash +:+ dquote
  | 92 => backslash +:+ backslash
  | 8 => backslash +:+ "b"
  | 12 => backslash +:+ "f"
  | 10 => backslash +:+ "n"
  | 13 => backslash +:+ "r"
  | 9 => backslash +:+ "t"
  | n => if (n <? 32)%N
         then backslash +:+ "u00" +:+
              String (hex_digit (n / 16)) (String (hex_digit (n mod 16)) "")
         else String c ""
  end%N.

Fixpoint escape (s : string) : string :=
  match s with
  | EmptyString => ""
  | String c s' => escape_char c +:+ escape s'
  end.

Definition quote (s : string) : string := dquote +:+ escape s +:+ dquote.

(** The number of a key that is an array index: the decimal text,
    without a leading zero, of an integer below [2^32 - 1]. *)
Definition arrayIndex (k : string) : option N :=
  match k with
  | EmptyString => None
  | String c rest =>
      if Ascii.eqb c "0" && negb (String.eqb rest "") then None
      else match Js.decimalValue 0 k with
           | Some n => if (n <? 4294967295)%N then Some n else None
           | None => None
           end
  end.

Fixpoint insertIndexed {A} (n : N) (x : A) (l : list (N * A)) : list (N * A) :=
  match l with
  | [] => [(n, x)]
  | (m, y) :: rest =>
      if (n <? m)%N then (n, x) :: l else (m, y) :: insertIndexed n x rest
  end.

(** The order in which the own properties of an object are enumerated:
    the array indices first, in ascending order, then the other keys in
    the order of their creation. *)
Definition ownOrder {A} (fields : list (string * A)) : list (string * A) :=
  map snd
      (foldl (fun indexed kv =>
                match arrayIndex (fst kv) with
                | Some n => insertIndexed n kv indexed
                | None => indexed
                end) [] fields)
  ++ List.filter (fun kv => match arrayIndex (fst kv) with
                            | Some _ => false
                            | None => true
                            end) fields.

(** [JSON.stringify(j)] without indentation. *)
Fixpoint stringify (j : json) : string :=
  match j with
  | JNull => "null"
  | JBool true => "true"
  | JBool false => "false"
  | JNumber text => text
  | JString s => quote s
  | JArray items => "[" +:+ Js.join "," (map stringify items) +:+ "]"
  | JObject fields =>
      "{" +:+
      Js.join ","
        (map (fun kt => quote (fst kt) +:+ ":" +:+ snd kt)
             (ownOrder (map (fun kv => (fst kv, stringify (snd kv))) fields)))
      +:+ "}"
  end.

End Json.

(** ** The schema combinators of the validation library

    A schema reads an input that may be [undefined] ([None]) and yields
    the issues it found together with the parsed value, when there is
    one.  A failed type test aborts (no value, later checks do not run);
    a failed check or refinement records its issue and keeps the value,
    so the checks after it still run.  Issues of an object come in the
    order of the keys of its shape. *)
Module Zod.
Import Json.

Record issue : Type := Issue { path : list string; message : string }.

Record outcome (A : Type) : Type :=
  Outcome { issues : list issue; value : option A }.
Arguments Outcome {A} _ _.
Arguments issues {A} _.
Arguments value {A} _.

Definition Schema (A : Type) : Type := option json -> outcome A.

Definition ok {A} (a : A) : outcome A := Outcome [] (Some a).
Definition abort {A} (msg : string) : outcome A := Outcome [Issue [] msg] None.

Definition ap {A B} (f : outcome (A -> B)) (x : outcome A) : outcome B :=
  Outcome (issues f ++ issues x)
          (match value f, value x with
           | Some g, Some a => Some (g a)
           | _, _ => None
           end).

Definition under {A} (segment : string) (o : outcome A) : outcome A :=
  Outcome (map (fun i => Issue (segment :: path i) (message i)) (issues o)) (value o).

Definition received (input : option json) : string :=
  match input with
  | None => "undefined"
  | Some JNull => "null"
  | Some (JBool _) => "boolean"
  | Some (JNumber _) => "number"
  | Some (JString _) => "string"
  | Some (JArray _) => "array"
  | Some (JObject _) => "object"
  end.

(** The default message of a type mismatch. *)
Definition invalid_type (expected : string) (input : option json) : string :=
  match input with
  | None => "Required"
  | Some _ => "Expected " +:+ expected +:+ ", received " +:+ received input
  end.

(** [z.string()] *)
Definition z_string : Schema string := fun input =>
  match input with
  | Some (JString s) => ok s
  | _ => abort (invalid_type "string" input)
  end.

(** A check on a parsed value: [.min], [.url], [.refine]. *)
Definition z_check {A} (test : A -> bool) (msg : string) (inner : Schema A) : Schema A :=
  fun input =>
    let r := inner input in
    match value r with
    | Some a => if test a then r else Outcome (issues r ++ [Issue [] msg]) (Some a)
    | None => r
    end.

(** [.min(n, msg)] on a string *)
Definition z_min (n : nat) (msg : string) : Schema string -> Schema string :=
  z_check (fun s => Nat.leb n (String.length s)) msg.

(** [.refine(test, msg)] *)
Definition z_refine {A} (test : A -> bool) (msg : string) : Schema A -> Schema A :=
  z_check test msg.

(** [.optional()] *)
Definition z_optional {A} (inner : Schema A) : Schema (option A) := fun input =>
  match input with
  | None => ok None
  | Some _ => let r := inner input in Outcome (issues r) (Some <$> value r)
  end.

(** [.default(d)] *)
Definition z_default {A} (d : json) (inner : Schema A) : Schema A := fun input =>
  match input with
  | None => inner (Some d)
  | Some _ => inner input
  end.

Definition join_values (values : list string) : string :=
  Js.join " | " (map (fun v => "'" +:+ v +:+ "'") values).

(** [z.enum(values)] *)
Definition z_enum (values : list string) : Schema string := fun input =>
  match input with
  | Some (JString s) =>
      if existsb (String.eqb s) values then ok s
      else abort ("Invalid enum value. Expected " +:+ join_values values +:+
                  ", received '" +:+ s +:+ "'")
  | _ => abort (invalid_type (join_values values) input)
  end.

Fixpoint parse_items {A} (elem : Schema A) (index : nat) (items : list json) : outcome (list A) :=
  match items with
  | [] => ok []
  | item :: rest =>
      ap (ap (ok cons) (under (pretty index) (elem (Some item))))
         (parse_items elem (S index) rest)
  end.

(** [z.array(elem)] *)
Definition z_array {A} (elem : Schema A) : Schema (list A) := fun input =>
  match input with
  | Some (JArray items) => parse_items elem 0 items
  | _ => abort (invalid_type "array" input)
  end.

(** The value of key [k] of an object, read by [schema]. *)
Definition field {A} (k : string) (schema : Schema A) (fields : list (string * json)) : outcome A :=
  under k (schema (lookup_field k fields)).

(** [z.object(shape)]: [shape] reads the keys it knows, the others are
    dropped. *)
Definition z_object {A} (shape : list (string * json) -> outcome A) : Schema A := fun input =>
  match input with
  | Some (JObject fields) => shape fields
  | _ => abort (invalid_type "object" input)
  end.

End Zod.

(** ** Handlers as programs over external calls

    A handler is a tree of the calls it awaits in sequence; it may throw.
    [run] plays it against the answers of the outside world and returns
    the calls issued, in order, with the result. *)
Module Io.

(** What a [catch] clause can receive: a validation error with its
    issues; an instance of [Error] with its [message] and, when it has
    one, its [status] property; or a value that is no object, with its
    [String(...)] rendering. *)
Inductive thrown : Type :=
| ZodError (issues : list Zod.issue)
| ErrorObject (status : option Z) (message : string)
| NonError (text : string).

Inductive io (E : Type -> Type) (A : Type) : Type :=
| Ret (a : A)
| Throw (e : thrown)
| Vis {X : Type} (c : E X) (k : X -> io E A).
Arguments Ret {E A} _.
Arguments Throw {E A} _.
Arguments Vis {E A X} _ _.

Fixpoint bind {E A B} (m : io E A) (f : A -> io E B) : io E B :=
  match m with
  | Ret a => f a
  | Throw e => Throw e
  | Vis c k => Vis c (fun x => bind (k x) f)
  end.

(** [try { m } catch (e) { h e }] *)
Fixpoint try_catch {E A} (m : io E A) (h : thrown -> io E A) : io E A :=
  match m with
  | Ret a => Ret a
  | Throw e => h e
  | Vis c k => Vis c (fun x => try_catch (k x) h)
  end.

(** [await c] for an external call [c] *)
Definition await {E X} (c : E X) : io E X := Vis c Ret.

Definition answers (E : Type -> Type) : Type := forall X, E X -> X.

Fixpoint run {E A} (world : answers E) (m : io E A) : list (sigT E) * (thrown + A) :=
  match m with
  | Ret a => ([], inr a)
  | Throw e => ([], inl e)
  | Vis c k =>
      let r := run world (k (world _ c)) in
      (existT _ c :: fst r, snd r)
  end.

Definition trace {E A} (world : answers E) (m : io E A) : list (sigT E) :=
  fst (run world m).
Definition result {E A} (world : answers E) (m : io E A) : thrown + A :=
  snd (run world m).

End Io.

#[global] Instance io_ret {E} : MRet (Io.io E) := fun A a => Io.Ret a.
#[global] Instance io_bind {E} : MBind (Io.io E) := fun A B f m => Io.bind m f.

(** ** The server route: [src/app/api/deploy/route.ts] *)
Module Route.
Import Json Io.

Notation "f <*> x" := (Zod.ap f x) (at level 61, left associativity).

Module EnvVar.
Record t : Type := mk { key : string; value : string }.
End EnvVar.

(** The type of [validatedData]. *)
Module Validated.
Record t : Type := mk {
  repositoryUrl : string;
  userName : string;
  password : option string;
  domainName : option string;
  projectName : string;
  branch : string;
  target : string;
  envVars : option (list EnvVar.t)
}.
End Validated.

Module GitSource.
Record t : Type := mk { type : string; repo : string; ref : string; org : string }.
End GitSource.

(** The body of the create-deployment request. *)
Module DeploymentRequest.
Record t : Type := mk {
  name : string;
  target : string;
  gitSource : GitSource.t;
  alias : option (list string)
}.
End DeploymentRequest.

(** One entry of the environment-variable request. *)
Module EnvEntry.
Record t : Type := mk {
  key : string;
  value : string;
  target : list string;
  type : string
}.
End EnvEntry.

(** The [deployment] object of the success response.  Five properties
    are copied from the answer of the platform as they are; [None] is
    [undefined], which [NextResponse.json] leaves out of the body.  The
    two URLs are a string or [null], here [None]. *)
Module DeploymentView.
Record t : Type := mk {
  id : option json;
  status : option json;
  url : option string;
  alias : option json;
  createdAt : option json;
  readyAt : option json;
  state : string;
  inspectorUrl : option string
}.
End DeploymentView.

Module DomainResult.
Record t : Type := mk {
  name : string;
  status : string;
  added : bool;
  error : option string
}.
End DomainResult.

Module EnvVarsResult.
Record t : Type := mk {
  added : bool;
  count : nat;
  variables : option (list string);
  error : option string
}.
End EnvVarsResult.

(** The JSON body of a response of the route. *)
Inductive Body : Type :=
| Success (deployment : DeploymentView.t)
          (domain : option DomainResult.t)
          (envVars : option EnvVarsResult.t)
          (message : string)
| ValidationFailed (error : string) (details : list (string * string))
| Failure (error : string) (message : string).

Definition success (b : Body) : bool :=
  match b with
  | Success _ _ _ _ => true
  | _ => false
  end.

Record Response : Type := mkResponse { httpStatus : Z; body : Body }.

(** What an SDK call rejects with: an [Error] with its message, or any
    other value with its [String(...)] rendering. *)
Inductive Rejection : Type :=
| RejectError (message : string)
| RejectValue (text : string).

(** How the create-deployment request ends: [fetch] itself rejects; or it
    resolves to a response whose [ok] is false, with its status and the
    result of [json()] ([inl]: the body is not JSON and [json()] rejects
    with that message); or to a response whose [ok] is true, with the
    result of [json()], which is any JSON value. *)
Inductive CreateOutcome : Type :=
| FetchRejects (message : string)
| NotOk (status : Z) (errorData : string + json)
| Ok (deployment : string + json).

(** The calls to the deployment platform. *)
Inductive call : Type -> Type :=
| CreateDeployment (request : DeploymentRequest.t) : call CreateOutcome
| AddProjectDomain (idOrName name : string) : call (Rejection + string)
| CreateProjectEnv (idOrName upsert : string) (requestBody : list EnvEntry.t) :
    call (Rejection + unit).

Definition isCreateDeployment (ev : sigT call) : bool :=
  match projT2 ev with CreateDeployment _ => true | _ => false end.
Definition isAddProjectDomain (ev : sigT call) : bool :=
  match projT2 ev with AddProjectDomain _ _ => true | _ => false end.
Definition isCreateProjectEnv (ev : sigT call) : bool :=
  match projT2 ev with CreateProjectEnv _ _ _ => true | _ => false end.

(** [schema.parse(data)] *)
Definition parse {A} (schema : Zod.Schema A) (data : json) : thrown + A :=
  let r := schema (Some data) in
  match Zod.issues r, Zod.value r with
  | [], Some a => inr a
  | issues, _ => inl (ZodError issues)
  end.

Definition lift {E A} (r : thrown + A) : io E A :=
  match r with
  | inl e => Throw e
  | inr a => Ret a
  end.

Section Schema.

(** The URL test behind [.url(...)]: the validation library asks the
    platform's URL parser, which this development does not model. *)
Variable is_url : string -> bool.

Definition envVarSchema : Zod.Schema EnvVar.t :=
  Zod.z_object (fun o =>
    Zod.ok EnvVar.mk
    <*> Zod.field "key"
          (Zod.z_min 1 "Environment variable key is required" Zod.z_string) o
    <*> Zod.field "value"
          (Zod.z_min 1 "Environment variable value is required" Zod.z_string) o).

Definition deploymentSchema : Zod.Schema Validated.t :=
  Zod.z_object (fun o =>
    Zod.ok Validated.mk
    <*> Zod.field "repositoryUrl"
          (Zod.z_refine (Js.includes "github.com")
             "Only GitHub repositories are supported"
             (Zod.z_check is_url "Invalid repository URL" Zod.z_string)) o
    <*> Zod.field "userName" (Zod.z_min 1 "Username is required" Zod.z_string) o
    <*> Zod.field "password" (Zod.z_optional Zod.z_string) o
    <*> Zod.field "domainName" (Zod.z_optional Zod.z_string) o
    <*> Zod.field "projectName"
          (Zod.z_min 1 "Project name is required" Zod.z_string) o
    <*> Zod.field "branch"
          (Zod.z_default (JString "main")
             (Zod.z_min 1 "Branch is required" Zod.z_string)) o
    <*> Zod.field "target"
          (Zod.z_default (JString "production")
             (Zod.z_enum ["production"; "preview"])) o
    <*> Zod.field "envVars"
          (Zod.z_default (JArray [])
             (Zod.z_optional (Zod.z_array envVarSchema))) o).

End Schema.

(** [/github\.com\/([^\/]+)\/([^\/]+)(?:\.git)?$/] *)
Definition githubPattern : Regex.re :=
  Regex.RSeq (Regex.lit "github.com/")
    (Regex.RSeq (Regex.plus (Regex.RClass Regex.not_slash))
       (Regex.RSeq (Regex.chr "/")
          (Regex.RSeq (Regex.plus (Regex.RClass Regex.not_slash))
             (Regex.opt (Regex.lit ".git"))))).

(** The text up to the first ["/"] and the text after it. *)
Fixpoint splitSlash (s : string) : string * option string :=
  match s with
  | EmptyString => ("", None)
  | String c s' =>
      if Ascii.eqb c "/" then ("", Some s')
      else let r := splitSlash s' in (String c (fst r), snd r)
  end.

(** A match of [githubPattern] that starts at the head of [s] and ends
    with [s], with its two groups.  The first group stops at the first
    ["/"]; the second group is greedy and runs to the end of the input, so
    the optional [.git] after it matches the empty string and a [.git]
    suffix stays inside the group. *)
Definition matchHere (s : string) : option (string * string) :=
  if String.prefix "github.com/" s then
    match splitSlash (Js.drop 11 s) with
    | (org, Some rest) =>
        if Js.truthy org && Js.truthy rest && negb (Js.includes "/" rest)
        then Some (org, rest)
        else None
    | (_, None) => None
    end
  else None.

(** [s.match(githubPattern)]: the leftmost position with a match. *)
Fixpoint matchGithub (s : string) : option (string * string) :=
  match matchHere s with
  | Some groups => Some groups
  | None =>
      match s with
      | String _ s' => matchGithub s'
      | EmptyString => None
      end
  end.

Record GitHubInfo : Type := mkInfo { org : string; repo : string }.

Definition extractGitHubInfo (repositoryUrl : string) : thrown + GitHubInfo :=
  match matchGithub repositoryUrl with
  | None => inl (ErrorObject None "Invalid GitHub repository URL")
  | Some (org, repo) => inr {| org := org; repo := Js.replace ".git" "" repo |}
  end.

(** [u ? (u.startsWith('http') ? u : `https://${u}`) : null], the
    expression applied to [deployment.url] and [deployment.inspectorUrl]. *)
Definition normalizeUrl (u : option string) : option string :=
  match u with
  | Some s =>
      if Js.truthy s
      then Some (if Js.startsWith "http" s then s else "https://" +:+ s)
      else None
  | None => None
  end.

(** [e instanceof Error ? e.message : String(e)] *)
Definition rejectionText (e : Rejection) : string :=
  match e with
  | RejectError message => message
  | RejectValue text => text
  end.

Definition statusOf (error : thrown) : option Z :=
  match error with
  | ErrorObject status _ => status
  | _ => None
  end.

Definition messageOf (error : thrown) : option string :=
  match error with
  | ErrorObject _ message => Some message
  | _ => None
  end.

Definition tokenMessage : string :=
  "Vercel token is invalid or expired. Please check your VERCEL_TOKEN environment variable.".

(** The last resort of the [catch] clause. *)
Definition errorResponse (error : thrown) : Response :=
  mkResponse 500
    (Failure (match messageOf error with
              | Some message => message
              | None => "Unknown error occurred"
              end)
             "Deployment failed. Check your Vercel token and repository permissions.").

(** The classification by the text of the message. *)
Definition classifyMessage (error : thrown) : Response :=
  match messageOf error with
  | Some errorMessage =>
      if Js.includes "forbidden" errorMessage || Js.includes "Not authorized" errorMessage
      then mkResponse 403 (Failure "Vercel authentication failed" tokenMessage)
      else if Js.includes "projectSettings" errorMessage
              || Js.includes "framework" errorMessage
      then mkResponse 400
             (Failure errorMessage
                "Project configuration error. Please check your repository setup.")
      else if Js.includes "incorrect_git_source_info" errorMessage
      then mkResponse 400
             (Failure "Repository not found or branch does not exist"
                "Please check your repository URL and branch name.")
      else errorResponse error
  | None => errorResponse error
  end.

(** The [catch] clause of [POST]. *)
Definition handleError (error : thrown) : Response :=
  match error with
  | ZodError issues =>
      mkResponse 400
        (ValidationFailed "Validation failed"
           (map (fun err => (Js.join "." (Zod.path err), Zod.message err)) issues))
  | _ =>
      match statusOf error with
      | Some 401%Z =>
          mkResponse 401
            (Failure "Authentication failed"
               "Invalid Vercel token. Check your VERCEL_TOKEN environment variable.")
      | Some 403%Z => mkResponse 403 (Failure "Access denied" tokenMessage)
      | Some 404%Z =>
          mkResponse 404
            (Failure "Repository not found"
               "Repository not found. Check the repository URL and permissions.")
      | _ => classifyMessage error
      end
  end.

(** [await request.json()]: [inl] when the body of the request is not
    JSON. *)
Definition requestJson (request : string + json) : io call json :=
  match request with
  | inl message => Throw (ErrorObject None message)
  | inr body => Ret body
  end.

(** The create-deployment [fetch], the test of [ok] after it and the
    reading of the body, which is taken as it comes. *)
Definition createDeployment (request : DeploymentRequest.t) : io call json :=
  deploymentResponse ← await (CreateDeployment request);
  match deploymentResponse with
  | FetchRejects message => Throw (ErrorObject None message)
  | NotOk _ (inl message) => Throw (ErrorObject None message)
  | NotOk _ (inr errorData) => Throw (ErrorObject None (stringify errorData))
  | Ok (inl message) => Throw (ErrorObject None message)
  | Ok (inr deployment) => Ret deployment
  end.

(** The domain step.  Of the statements under [try] only the SDK call can
    throw, so the [catch] is a case on how the call ended. *)
Definition addDomain (validatedData : Validated.t) : io call (option DomainResult.t) :=
  match Validated.domainName validatedData with
  | Some domainName =>
      if Js.truthy domainName then
        addDomainResponse ← await (AddProjectDomain (Validated.projectName validatedData) domainName);
        mret (Some
          match addDomainResponse with
          | inr name => DomainResult.mk name "added" true None
          | inl domainError =>
              DomainResult.mk domainName "error" false (Some (rejectionText domainError))
          end)
      else mret None
  | None => mret None
  end.

(** The environment-variable step, with the same reading of its [try]. *)
Definition addEnvVars (validatedData : Validated.t) : io call (option EnvVarsResult.t) :=
  match Validated.envVars validatedData with
  | Some envVars =>
      if Nat.ltb 0 (length envVars) then
        addEnvVarsResponse ← await (CreateProjectEnv (Validated.projectName validatedData) "true"
             (map (fun envVar =>
                     EnvEntry.mk (EnvVar.key envVar) (EnvVar.value envVar)
                                 ["production"] "plain") envVars));
        mret (Some
          match addEnvVarsResponse with
          | inr _ =>
              EnvVarsResult.mk true (length envVars) (Some (map EnvVar.key envVars)) None
          | inl envVarsError =>
              EnvVarsResult.mk false 0 None (Some (rejectionText envVarsError))
          end)
      else mret None
  | None => mret None
  end.

(** The body of the create-deployment request: [name], [target],
    [gitSource] and, when a domain name was given, [alias]. *)
Definition deploymentRequest (validatedData : Validated.t) (info : GitHubInfo) :
    DeploymentRequest.t :=
  DeploymentRequest.mk
    (Validated.projectName validatedData)
    (Validated.target validatedData)
    (GitSource.mk "github" (repo info) (Validated.branch validatedData) (org info))
    (match Validated.domainName validatedData with
     | Some domainName => if Js.truthy domainName then Some [domainName] else None
     | None => None
     end).

(** The [TypeError]s of the object literal of the response. *)
Definition readOfNull (name : string) : thrown :=
  ErrorObject None ("Cannot read properties of null (reading '" +:+ name +:+ "')").
Definition notAFunction (callee : string) : thrown :=
  ErrorObject None (callee +:+ " is not a function").

(** [u ? (u.startsWith('http') ? u : `https://${u}`) : null] for the value
    [u] of the property [access]: a truthy value that is no string has
    no function [startsWith]. *)
Definition urlOf (access : string) (u : option json) : thrown + option string :=
  match u with
  | Some (JString s) => inr (normalizeUrl (Some s))
  | Some v => if truthy v then inl (notAFunction (access +:+ ".startsWith")) else inr None
  | None => inr None
  end.

(** The [deployment] object of the success response.  Its first
    property reads [deployment.id], which throws on [null]. *)
Definition deploymentView (deployment : json) : thrown + DeploymentView.t :=
  match deployment with
  | JNull => inl (readOfNull "id")
  | _ =>
      match urlOf "deployment.url" (property "url" deployment) with
      | inl e => inl e
      | inr url =>
          match urlOf "deployment.inspectorUrl" (property "inspectorUrl" deployment) with
          | inl e => inl e
          | inr inspectorUrl =>
              inr (DeploymentView.mk
                     (property "id" deployment)
                     (property "status" deployment)
                     url
                     (property "alias" deployment)
                     (property "createdAt" deployment)
                     (property "ready" deployment)
                     "BUILDING"
                     inspectorUrl)
          end
      end
  end.

Section Handler.
Variable is_url : string -> bool.

Definition POST (request : string + json) : io call Response :=
  try_catch
    (body ← requestJson request;
     validatedData ← lift (parse (deploymentSchema is_url) body);
     info ← lift (extractGitHubInfo (Validated.repositoryUrl validatedData));
     deployment ← createDeployment (deploymentRequest validatedData info);
     domainResult ← addDomain validatedData;
     envVarsResult ← addEnvVars validatedData;
     deploymentObject ← lift (deploymentView deployment);
     mret (mkResponse 200
             (Success deploymentObject domainResult envVarsResult
                      "Deployment created successfully!")))
    (fun error => mret (handleError error)).

End Handler.

(** [GET]: the health check. *)
Definition GET : string * string := ("ok", "Deployment API is running").

End Route.

(** ** The deployment form (client) *)
Module Form.
Import Io.

Inductive Target : Type := production | preview.

Module EnvVar.
Record t : Type := mk { key : string; value : string }.
End EnvVar.

Module FormData.
Record t : Type := mk {
  repositoryUrl : string;
  userName : string;
  password : string;
  domainName : string;
  projectName : string;
  branch : string;
  target : Target;
  envVars : list EnvVar.t
}.
End FormData.

(** [FormErrors]: an object used as a map from field name to message. *)
Abbreviation FormErrors := (gmap string string).

Inductive SubmitStatus : Type := idle | success | error.

(** The state of the component. *)
Record State : Type := mkState {
  formData : FormData.t;
  errors : FormErrors;
  isSubmitting : bool;
  submitStatus : SubmitStatus;
  statusMessage : string;
  deploymentResult : option Route.DeploymentView.t
}.

Definition emptyForm : FormData.t :=
  FormData.mk "" "" "" "" "" "main" production [].

Definition initialState : State := mkState emptyForm ∅ false idle "" None.

Definition setFormData (f : FormData.t -> FormData.t) (st : State) : State :=
  mkState (f (formData st)) (errors st) (isSubmitting st) (submitStatus st)
          (statusMessage st) (deploymentResult st).
Definition setErrors (f : FormErrors -> FormErrors) (st : State) : State :=
  mkState (formData st) (f (errors st)) (isSubmitting st) (submitStatus st)
          (statusMessage st) (deploymentResult st).
Definition setIsSubmitting (b : bool) (st : State) : State :=
  mkState (formData st) (errors st) b (submitStatus st)
          (statusMessage st) (deploymentResult st).
Definition setSubmitStatus (s : SubmitStatus) (st : State) : State :=
  mkState (formData st) (errors st) (isSubmitting st) s
          (statusMessage st) (deploymentResult st).
Definition setStatusMessage (m : string) (st : State) : State :=
  mkState (formData st) (errors st) (isSubmitting st) (submitStatus st)
          m (deploymentResult st).
Definition setDeploymentResult (r : option Route.DeploymentView.t) (st : State) : State :=
  mkState (formData st) (errors st) (isSubmitting st) (submitStatus st)
          (statusMessage st) r.

(** *** Environment variable management *)

Definition addEnvVar (st : State) : State :=
  setFormData (fun prev =>
    FormData.mk (FormData.repositoryUrl prev) (FormData.userName prev)
      (FormData.password prev) (FormData.domainName prev)
      (FormData.projectName prev) (FormData.branch prev) (FormData.target prev)
      (FormData.envVars prev ++ [EnvVar.mk "" ""])) st.

Fixpoint filteri {A} (keep : nat -> bool) (i : nat) (l : list A) : list A :=
  match l with
  | [] => []
  | x :: rest => if keep i then x :: filteri keep (S i) rest else filteri keep (S i) rest
  end.

Definition removeEnvVar (index : nat) (st : State) : State :=
  setFormData (fun prev =>
    FormData.mk (FormData.repositoryUrl prev) (FormData.userName prev)
      (FormData.password prev) (FormData.domainName prev)
      (FormData.projectName prev) (FormData.branch prev) (FormData.target prev)
      (filteri (fun i => negb (Nat.eqb i index)) 0 (FormData.envVars prev))) st.

(** The two properties of an entry: [keyof FormData['envVars'][0]]. *)
Inductive EnvField : Type := key | value.

Definition setEnvField (field : EnvField) (v : string) (envVar : EnvVar.t) : EnvVar.t :=
  match field with
  | key => EnvVar.mk v (EnvVar.value envVar)
  | value => EnvVar.mk (EnvVar.key envVar) v
  end.

Definition updateEnvVar (index : nat) (field : EnvField) (v : string) (st : State) : State :=
  setFormData (fun prev =>
    FormData.mk (FormData.repositoryUrl prev) (FormData.userName prev)
      (FormData.password prev) (FormData.domainName prev)
      (FormData.projectName prev) (FormData.branch prev) (FormData.target prev)
      (imap (fun i envVar => if Nat.eqb i index then setEnvField field v envVar else envVar)
            (FormData.envVars prev))) st.

(** *** Validation *)

(** [/^https:\/\/github\.com\/[^\/]+\/[^\/]+(?:\.git)?$/] *)
Definition repositoryPattern : Regex.re :=
  Regex.RSeq (Regex.lit "https://github.com/")
    (Regex.RSeq (Regex.plus (Regex.RClass Regex.not_slash))
       (Regex.RSeq (Regex.chr "/")
          (Regex.RSeq (Regex.plus (Regex.RClass Regex.not_slash))
             (Regex.opt (Regex.lit ".git"))))).

(** [[a-zA-Z0-9-_]] *)
Definition projectChar (c : ascii) : bool :=
  Regex.alnum c || Ascii.eqb c "-" || Ascii.eqb c "_".

(** [/^[a-zA-Z0-9-_]+$/] *)
Definition projectPattern : Regex.re := Regex.plus (Regex.RClass projectChar).

(** [[a-zA-Z0-9-]] *)
Definition domainChar (c : ascii) : bool := Regex.alnum c || Ascii.eqb c "-".

(** [/^[a-zA-Z0-9][a-zA-Z0-9-]*[a-zA-Z0-9]*$/] *)
Definition domainPattern : Regex.re :=
  Regex.RSeq (Regex.RClass Regex.alnum)
    (Regex.RSeq (Regex.RStar (Regex.RClass domainChar))
                (Regex.RStar (Regex.RClass Regex.alnum))).

(** [!s.trim()] *)
Definition blank (s : string) : bool := negb (Js.truthy (Js.trim s)).

(** The object [newErrors] that [validateForm] builds. *)
Definition newErrors (formData : FormData.t) : FormErrors :=
  let newErrors : FormErrors := ∅ in
  (* Repository URL validation *)
  let newErrors :=
    if blank (FormData.repositoryUrl formData)
    then <["repositoryUrl" := "Repository URL is required"]> newErrors
    else if negb (Js.includes "github.com" (FormData.repositoryUrl formData))
    then <["repositoryUrl" := "Please enter a valid GitHub repository URL"]> newErrors
    else if negb (Regex.matches repositoryPattern (FormData.repositoryUrl formData))
    then <["repositoryUrl" :=
             "Invalid format. Use: https://github.com/username/repository"]> newErrors
    else newErrors in
  (* Username validation *)
  let newErrors :=
    if blank (FormData.userName formData)
    then <["userName" := "Username is required"]> newErrors
    else if Nat.ltb (String.length (FormData.userName formData)) 3
    then <["userName" := "Username must be at least 3 characters"]> newErrors
    else newErrors in
  (* Password validation *)
  let newErrors :=
    if Js.truthy (FormData.password formData)
       && Nat.ltb (String.length (FormData.password formData)) 6
    then <["password" := "Password must be at least 6 characters"]> newErrors
    else newErrors in
  (* Project name validation *)
  let newErrors :=
    if blank (FormData.projectName formData)
    then <["projectName" := "Project name is required"]> newErrors
    else if negb (Regex.matches projectPattern (FormData.projectName formData))
    then <["projectName" :=
             "Only letters, numbers, hyphens, and underscores allowed"]> newErrors
    else newErrors in
  (* Branch validation *)
  let newErrors :=
    if blank (FormData.branch formData)
    then <["branch" := "Branch is required"]> newErrors
    else newErrors in
  (* Domain validation *)
  let newErrors :=
    if Js.truthy (FormData.domainName formData)
       && negb (Regex.matches domainPattern (FormData.domainName formData))
    then <["domainName" := "Invalid domain format (e.g., mydomain.com)"]> newErrors
    else newErrors in
  (* Environment variables validation *)
  let invalidEnvVars :=
    List.filter (fun envVar => blank (EnvVar.key envVar) || blank (EnvVar.value envVar))
                (FormData.envVars formData) in
  let newErrors :=
    if Nat.ltb 0 (length invalidEnvVars)
    then <["envVars" := "All environment variables must have both key and value"]> newErrors
    else newErrors in
  newErrors.

(** [validateForm]: stores the errors and tells whether there is none. *)
Definition validateForm (st : State) : State * bool :=
  (setErrors (fun _ => newErrors (formData st)) st,
   Nat.eqb (size (newErrors (formData st))) 0).

(** *** Editing *)

(** The fields whose inputs call [handleInputChange]. *)
Inductive Field : Type :=
| repositoryUrl | userName | password | domainName | projectName | branch.

Definition fieldKey (field : Field) : string :=
  match field with
  | repositoryUrl => "repositoryUrl"
  | userName => "userName"
  | password => "password"
  | domainName => "domainName"
  | projectName => "projectName"
  | branch => "branch"
  end.

(** [{ ...prev, [field]: value }] *)
Definition setField (field : Field) (v : string) (prev : FormData.t) : FormData.t :=
  match field with
  | repositoryUrl =>
      FormData.mk v (FormData.userName prev) (FormData.password prev)
        (FormData.domainName prev) (FormData.projectName prev) (FormData.branch prev)
        (FormData.target prev) (FormData.envVars prev)
  | userName =>
      FormData.mk (FormData.repositoryUrl prev) v (FormData.password prev)
        (FormData.domainName prev) (FormData.projectName prev) (FormData.branch prev)
        (FormData.target prev) (FormData.envVars prev)
  | password =>
      FormData.mk (FormData.repositoryUrl prev) (FormData.userName prev) v
        (FormData.domainName prev) (FormData.projectName prev) (FormData.branch prev)
        (FormData.target prev) (FormData.envVars prev)
  | domainName =>
      FormData.mk (FormData.repositoryUrl prev) (FormData.userName prev)
        (FormData.password prev) v (FormData.projectName prev) (FormData.branch prev)
        (FormData.target prev) (FormData.envVars prev)
  | projectName =>
      FormData.mk (FormData.repositoryUrl prev) (FormData.userName prev)
        (FormData.password prev) (FormData.domainName prev) v (FormData.branch prev)
        (FormData.target prev) (FormData.envVars prev)
  | branch =>
      FormData.mk (FormData.repositoryUrl prev) (FormData.userName prev)
        (FormData.password prev) (FormData.domainName prev) (FormData.projectName prev) v
        (FormData.target prev) (FormData.envVars prev)
  end.

Definition handleInputChange (field : Field) (v : string) (st : State) : State :=
  let st := setFormData (setField field v) st in
  (* Clear error when user starts typing *)
  match errors st !! fieldKey field with
  | Some message =>
      if Js.truthy message
      then setErrors (fun prev => delete (fieldKey field) prev) st
      else st
  | None => st
  end.

(** *** Submission *)

(** What the component asks of its environment: the request to the
    route, a dialog, a timer.  [Fetch] answers [None] when [fetch] or
    [response.json()] throws, and else with a body of the kinds the route
    sends.  Of the markup of the success dialog the model keeps whether
    its computation throws, not its text. *)
Inductive call : Type -> Type :=
| Fetch (url method : string) (body : FormData.t) : call (option Route.Body)
| SwalFire (icon title : string) (text : option string) : call unit
| SetTimeout (delay : Z) : call unit.

Definition isFetch (ev : sigT call) : bool :=
  match projT2 ev with Fetch _ _ _ => true | _ => false end.

(** The callback of the timer set after a success. *)
Definition resetAfterSuccess (st : State) : State :=
  setDeploymentResult None
    (setStatusMessage "" (setSubmitStatus idle (setFormData (fun _ => emptyForm) st))).

Definition fieldErrors (details : list (string * string)) : FormErrors :=
  foldl (fun acc detail => <[fst detail := snd detail]> acc) ∅ details.

(** The dialog for a failure that carries no field details. *)
Definition failureDialog (err message : string) : io call unit :=
  let errorMessage :=
    if Js.truthy err then err
    else if Js.truthy message then message
    else "Deployment failed. Please check your credentials and try again." in
  if Js.includes "Vercel token" errorMessage || Js.includes "invalid" errorMessage
     || Js.includes "expired" errorMessage
  then await (SwalFire "warning" "Authentication Error" (Some errorMessage))
  else if Js.includes "Repository not found" errorMessage
  then await (SwalFire "info" "Repository Error" (Some errorMessage))
  else if Js.includes "projectSettings" errorMessage || Js.includes "framework" errorMessage
  then await (SwalFire "info" "Project Configuration Error" (Some errorMessage))
  else await (SwalFire "error" "Deployment Failed" (Some errorMessage)).

(** [alias && alias.length > 0 ? `... ${alias.join(', ')} ...` : ''] of the
    markup: whether it is computed without a throw.  A string that is not
    empty has a length above zero and no [join]; an array that is not
    empty is joined, which converts its elements; an object is asked for
    its own [length], and has no function [join]. *)
Definition aliasMarkup (alias : option Json.json) : bool :=
  match alias with
  | None => true
  | Some v =>
      if Json.truthy v then
        match v with
        | Json.JString _ => false
        | Json.JArray items => Json.printable v
        | Json.JObject fields =>
            match Json.lookup_field "length" fields with
            | Some w =>
                match Json.positive w with
                | Some false => true
                | _ => false
                end
            | None => true
            end
        | _ => true
        end
      else true
  end.

(** The computation of [successHtml]: [true] when it completes.  It
    converts [id] and [status] of the deployment to strings, computes the
    line of the aliases and, for environment variables that were added,
    joins [result.envVars.variables], which throws when there are none. *)
Definition successHtml (deployment : Route.DeploymentView.t)
    (domain : option Route.DomainResult.t)
    (envVars : option Route.EnvVarsResult.t) : bool :=
  match Route.DeploymentView.id deployment with
  | Some v => Json.printable v
  | None => true
  end
  && match Route.DeploymentView.status deployment with
     | Some v => Json.printable v
     | None => true
     end
  && aliasMarkup (Route.DeploymentView.alias deployment)
  && match envVars with
     | Some r =>
         if Route.EnvVarsResult.added r
         then match Route.EnvVarsResult.variables r with
              | Some _ => true
              | None => false
              end
         else true
     | None => true
     end.

Definition handleSubmit (st : State) : io call State :=
  let (st, valid) := validateForm st in
  if negb valid then
    mret (setStatusMessage "Please fix the errors above and try again."
            (setSubmitStatus error st))
  else
    let st := setDeploymentResult None
                (setStatusMessage "" (setSubmitStatus idle (setIsSubmitting true st))) in
    response ← await (Fetch "/api/deploy" "POST" (formData st));
    st ← match response with
         | Some (Route.Success deployment domain envVars _) =>
             let st := setDeploymentResult (Some deployment) (setSubmitStatus success st) in
             if successHtml deployment domain envVars then
               _ ← await (SwalFire "success" "Deployment Created!" None);
               _ ← await (SetTimeout 10000);
               mret st
             else
               _ ← await (SwalFire "error" "Network Error"
                            (Some "Please check your connection and try again."));
               mret (setSubmitStatus error st)
         | Some (Route.ValidationFailed _ details) =>
             mret (setStatusMessage ""
                     (setErrors (fun _ => fieldErrors details) (setSubmitStatus error st)))
         | Some (Route.Failure err message) =>
             _ ← failureDialog err message;
             mret (setSubmitStatus error st)
         | None =>
             _ ← await (SwalFire "error" "Network Error"
                          (Some "Please check your connection and try again."));
             mret (setSubmitStatus error st)
         end;
    mret (setIsSubmitting false st).

End Form.

(** ** What the form renders from its state *)
Module FormView.
Import Form.

(** [formData.repositoryUrl && formData.userName && formData.projectName
    && formData.branch], read as a condition. *)
Definition isFormValid (formData : FormData.t) : bool :=
  Js.truthy (FormData.repositoryUrl formData)
  && Js.truthy (FormData.userName formData)
  && Js.truthy (FormData.projectName formData)
  && Js.truthy (FormData.branch formData).

(** [disabled={!isFormValid || isSubmitting}] of the submit button. *)
Definition submitDisabled (st : State) : bool :=
  negb (isFormValid (formData st)) || isSubmitting st.

End FormView.

(* ===================================================================== *)
(** * Part II: vocabulary of the statements                              *)
(* ===================================================================== *)

(** ** Runs of the route *)
Module RouteSpec.
Import Json Io Route.

(** The error thrown after the create-deployment call, when it did not
    yield a deployment. *)
Definition createError (o : CreateOutcome) : option thrown :=
  match o with
  | FetchRejects message => Some (ErrorObject None message)
  | NotOk _ (inl message) => Some (ErrorObject None message)
  | NotOk _ (inr errorData) => Some (ErrorObject None (stringify errorData))
  | Ok (inl message) => Some (ErrorObject None message)
  | Ok (inr _) => None
  end.

(** The domain call a validated input asks for, if any. *)
Definition domainCalls (v : Validated.t) : list (sigT call) :=
  match Validated.domainName v with
  | Some domainName =>
      if Js.truthy domainName
      then [existT _ (AddProjectDomain (Validated.projectName v) domainName)]
      else []
  | None => []
  end.

Definition envEntries (envVars : list EnvVar.t) : list EnvEntry.t :=
  map (fun envVar => EnvEntry.mk (EnvVar.key envVar) (EnvVar.value envVar)
                                 ["production"] "plain") envVars.

(** The environment-variable call a validated input asks for, if any. *)
Definition envCalls (v : Validated.t) : list (sigT call) :=
  match Validated.envVars v with
  | Some (e :: rest) =>
      [existT _ (CreateProjectEnv (Validated.projectName v) "true" (envEntries (e :: rest)))]
  | _ => []
  end.

(** The response after the three steps: the success, or the answer of
    the [catch] clause when the object of the deployment cannot be
    built. *)
Definition finalResponse (d : json) (domainResult : option DomainResult.t)
    (envVarsResult : option EnvVarsResult.t) : Response :=
  match deploymentView d with
  | inr view =>
      mkResponse 200
        (Success view domainResult envVarsResult "Deployment created successfully!")
  | inl e => handleError e
  end.

(** A value of a URL property that the response can be built from:
    absent, falsy, or a string. *)
Definition urlValue (u : option json) : Prop :=
  forall v, u = Some v -> truthy v = true -> exists s, v = JString s.

(** An answer of the platform that the response can be built from: not
    [null], with [url] and [inspectorUrl] absent, falsy or strings. *)
Definition usable (d : json) : Prop :=
  d <> JNull /\ urlValue (property "url" d) /\ urlValue (property "inspectorUrl" d).

(** The string of a property, if it is one. *)
Definition stringOf (u : option json) : option string :=
  match u with
  | Some (JString s) => Some s
  | _ => None
  end.

(** The runs of [POST], by the step at which they end. *)
Inductive ends (is_url : string -> bool) (world : answers call) (request : string + json) :
    list (sigT call) -> Response -> Prop :=
| ends_not_json message :
    request = inl message ->
    ends is_url world request [] (handleError (ErrorObject None message))
| ends_invalid body e :
    request = inr body ->
    parse (deploymentSchema is_url) body = inl e ->
    ends is_url world request [] (handleError e)
| ends_no_repository body v e :
    request = inr body ->
    parse (deploymentSchema is_url) body = inr v ->
    extractGitHubInfo (Validated.repositoryUrl v) = inl e ->
    ends is_url world request [] (handleError e)
| ends_not_created body v info e :
    request = inr body ->
    parse (deploymentSchema is_url) body = inr v ->
    extractGitHubInfo (Validated.repositoryUrl v) = inr info ->
    createError (world _ (CreateDeployment (deploymentRequest v info))) = Some e ->
    ends is_url world request
         [existT _ (CreateDeployment (deploymentRequest v info))]
         (handleError e)
| ends_created body v info d domainResult envVarsResult :
    request = inr body ->
    parse (deploymentSchema is_url) body = inr v ->
    extractGitHubInfo (Validated.repositoryUrl v) = inr info ->
    world _ (CreateDeployment (deploymentRequest v info)) = Ok (inr d) ->
    run world (addDomain v) = (domainCalls v, inr domainResult) ->
    run world (addEnvVars v) = (envCalls v, inr envVarsResult) ->
    ends is_url world request
         (existT _ (CreateDeployment (deploymentRequest v info))
            :: domainCalls v ++ envCalls v)
         (finalResponse d domainResult envVarsResult).

(** The request of a create-deployment call, to tell calls apart. *)
Definition createArgs (ev : sigT call) : option DeploymentRequest.t :=
  match projT2 ev with
  | CreateDeployment request => Some request
  | _ => None
  end.

(** The arguments of a domain call, to tell calls apart. *)
Definition domainArgs (ev : sigT call) : option (string * string) :=
  match projT2 ev with
  | AddProjectDomain idOrName name => Some (idOrName, name)
  | _ => None
  end.

(** How the domain step reports the answer to its call. *)
Definition domainOutcome (domainName : string) (answer : Rejection + string) :
    DomainResult.t :=
  match answer with
  | inr name => DomainResult.mk name "added" true None
  | inl domainError =>
      DomainResult.mk domainName "error" false (Some (rejectionText domainError))
  end.

(** How the environment-variable step reports the answer to its call. *)
Definition envVarsOutcome (envVars : list EnvVar.t) (answer : Rejection + unit) :
    EnvVarsResult.t :=
  match answer with
  | inr _ => EnvVarsResult.mk true (length envVars) (Some (map EnvVar.key envVars)) None
  | inl envVarsError => EnvVarsResult.mk false 0 None (Some (rejectionText envVarsError))
  end.

End RouteSpec.

(** ** Data of the worked examples *)
Module Examples.
Import Json Io Route.

(** A URL test for the examples.  It accepts the strings that start with
    [https://github.com/]; a URL parser accepts each of them, whatever
    follows the host. *)
Definition urlTest (s : string) : bool := String.prefix "https://github.com/" s.

(** A platform that answers each kind of call by a function of its
    arguments. *)
Definition platform
    (create : DeploymentRequest.t -> CreateOutcome)
    (addDomain : string -> string -> Rejection + string)
    (createEnv : string -> list EnvEntry.t -> Rejection + unit) : answers call :=
  fun X c =>
    match c in call X return X with
    | CreateDeployment request => create request
    | AddProjectDomain idOrName name => addDomain idOrName name
    | CreateProjectEnv idOrName _ requestBody => createEnv idOrName requestBody
    end.

Definition widgetFields : list (string * json) :=
  [("repositoryUrl", JString "https://github.com/acme/widget");
   ("userName", JString "alice");
   ("projectName", JString "widget-prod");
   ("branch", JString "main");
   ("target", JString "production")].

(** The request of the scenarios of the specification. *)
Definition widgetRequest : json := JObject widgetFields.

Definition widgetWithDomain : json :=
  JObject (widgetFields ++ [("domainName", JString "widget.example.com")]).

Definition widgetWithEnvVars : json :=
  JObject (widgetFields ++
    [("envVars", JArray [JObject [("key", JString "API_KEY"); ("value", JString "x")];
                         JObject [("key", JString "MODE"); ("value", JString "fast")]])]).

Definition widgetDeployment : json :=
  JObject [("id", JString "dpl_1");
           ("status", JString "QUEUED");
           ("url", JString "widget-prod-acme.vercel.app");
           ("createdAt", JNumber "1700000000000");
           ("inspectorUrl", JString "vercel.com/acme/widget-prod/dpl_1");
           ("readyState", JString "QUEUED")].

(** The object of that deployment in the response. *)
Definition widgetView : DeploymentView.t :=
  DeploymentView.mk (Some (JString "dpl_1")) (Some (JString "QUEUED"))
    (Some "https://widget-prod-acme.vercel.app") None
    (Some (JNumber "1700000000000")) None "BUILDING"
    (Some "https://vercel.com/acme/widget-prod/dpl_1").

(** A platform on which everything succeeds. *)
Definition healthy : answers call :=
  platform (fun _ => Ok (inr widgetDeployment))
           (fun _ name => inr name)
           (fun _ _ => inr tt).


(** A platform whose environment-variable call is rejected. *)
Definition envRejected : answers call :=
  platform (fun _ => Ok (inr widgetDeployment))
           (fun _ name => inr name)
           (fun _ _ => inl (RejectError "Too many variables")).

(** The body of an error answer that names neither [forbidden] nor
    [Not authorized]. *)
Definition unauthorizedBody : json :=
  JObject [("error", JObject [("code", JString "unauthorized");
                              ("message", JString "Invalid token")])].

(** A platform that answers the create-deployment request with status
    401. *)
Definition unauthorized : answers call :=
  platform (fun _ => NotOk 401 (inr unauthorizedBody))
           (fun _ name => inr name)
           (fun _ _ => inr tt).

(** A platform that is down. *)
Definition unavailable : answers call :=
  platform (fun _ => NotOk 503 (inr (JObject [("error", JString "unavailable")])))
           (fun _ name => inr name)
           (fun _ _ => inr tt).

(** A project whose name, and so whose host, starts with [http]. *)
Definition httpbinRequest : json :=
  JObject [("repositoryUrl", JString "https://github.com/acme/httpbin");
           ("userName", JString "alice");
           ("projectName", JString "httpbin")].

Definition httpbinDeployment : json :=
  JObject [("id", JString "dpl_2");
           ("status", JString "QUEUED");
           ("url", JString "httpbin-acme.vercel.app");
           ("createdAt", JNumber "1700000000000");
           ("inspectorUrl", JString "vercel.com/acme/httpbin/dpl_2")].

Definition httpbinPlatform : answers call :=
  platform (fun _ => Ok (inr httpbinDeployment))
           (fun _ name => inr name)
           (fun _ _ => inr tt).

(** A URL with an owner and no repository. *)
Definition ownerOnlyRequest : json :=
  JObject [("repositoryUrl", JString "https://github.com/acme");
           ("userName", JString "alice");
           ("projectName", JString "acme-site")].

(** A GitHub Pages repository: its name holds [.git] in the middle. *)
Definition pagesRequest : json :=
  JObject [("repositoryUrl", JString "https://github.com/acme/acme.github.io");
           ("userName", JString "alice");
           ("projectName", JString "acme-pages")].

End Examples.

(** ** Properties of strings used in the statements *)
Module Chars.

(** Every character of [s] satisfies [p]. *)
Fixpoint allChars (p : ascii -> bool) (s : string) : bool :=
  match s with
  | EmptyString => true
  | String c s' => p c && allChars p s'
  end.

End Chars.

(** ** The rules of the client validator *)
Module FormSpec.
Import Form Chars.

(** The seven rules, one per field that [validateForm] can flag. *)
Inductive Rule : Type :=
| RepositoryUrl | UserName | Password | ProjectName | Branch | DomainName | EnvVars.

Definition ruleKey (r : Rule) : string :=
  match r with
  | RepositoryUrl => "repositoryUrl"
  | UserName => "userName"
  | Password => "password"
  | ProjectName => "projectName"
  | Branch => "branch"
  | DomainName => "domainName"
  | EnvVars => "envVars"
  end.

(** [https://github.com/<owner>/<repo>] with a non-empty owner and
    repository, neither holding a ["/"].  A [.git] suffix is part of
    [<repo>]. *)
Definition repositoryShape (url : string) : Prop :=
  exists owner repo,
    url = "https://github.com/" +:+ owner +:+ "/" +:+ repo /\
    owner <> "" /\ repo <> "" /\
    allChars Regex.not_slash owner = true /\ allChars Regex.not_slash repo = true.

(** Letters, digits, hyphen and underscore, at least one. *)
Definition projectNameShape (name : string) : Prop :=
  name <> "" /\ allChars projectChar name = true.

(** A letter or digit, then letters, digits and hyphens. *)
Definition domainShape (domain : string) : Prop :=
  exists c rest,
    domain = String c rest /\ Regex.alnum c = true /\ allChars domainChar rest = true.

(** What each rule asks of a form. *)
Definition holds (r : Rule) (f : FormData.t) : Prop :=
  match r with
  | RepositoryUrl => repositoryShape (FormData.repositoryUrl f)
  | UserName =>
      Js.trim (FormData.userName f) <> "" /\ 3 <= String.length (FormData.userName f)
  | Password =>
      FormData.password f = "" \/ 6 <= String.length (FormData.password f)
  | ProjectName => projectNameShape (FormData.projectName f)
  | Branch => Js.trim (FormData.branch f) <> ""
  | DomainName =>
      FormData.domainName f = "" \/ domainShape (FormData.domainName f)
  | EnvVars =>
      Forall (fun envVar => Js.trim (EnvVar.key envVar) <> "" /\
                            Js.trim (EnvVar.value envVar) <> "")
             (FormData.envVars f)
  end.

(** The message [validateForm] stores for a rule, if any: the block of
    the function that belongs to the rule. *)
Definition ruleError (r : Rule) (f : FormData.t) : option string :=
  match r with
  | RepositoryUrl =>
      if blank (FormData.repositoryUrl f) then Some "Repository URL is required"
      else if negb (Js.includes "github.com" (FormData.repositoryUrl f))
      then Some "Please enter a valid GitHub repository URL"
      else if negb (Regex.matches repositoryPattern (FormData.repositoryUrl f))
      then Some "Invalid format. Use: https://github.com/username/repository"
      else None
  | UserName =>
      if blank (FormData.userName f) then Some "Username is required"
      else if Nat.ltb (String.length (FormData.userName f)) 3
      then Some "Username must be at least 3 characters"
      else None
  | Password =>
      if Js.truthy (FormData.password f)
         && Nat.ltb (String.length (FormData.password f)) 6
      then Some "Password must be at least 6 characters"
      else None
  | ProjectName =>
      if blank (FormData.projectName f) then Some "Project name is required"
      else if negb (Regex.matches projectPattern (FormData.projectName f))
      then Some "Only letters, numbers, hyphens, and underscores allowed"
      else None
  | Branch =>
      if blank (FormData.branch f) then Some "Branch is required" else None
  | DomainName =>
      if Js.truthy (FormData.domainName f)
         && negb (Regex.matches domainPattern (FormData.domainName f))
      then Some "Invalid domain format (e.g., mydomain.com)"
      else None
  | EnvVars =>
      if Nat.ltb 0 (length (List.filter
                              (fun envVar => blank (EnvVar.key envVar)
                                             || blank (EnvVar.value envVar))
                              (FormData.envVars f)))
      then Some "All environment variables must have both key and value"
      else None
  end.

(** One block of [validateForm]: store the message of a rule, if any. *)
Definition put (r : Rule) (f : FormData.t) (e : FormErrors) : FormErrors :=
  match ruleError r f with
  | Some message => <[ruleKey r := message]> e
  | None => e
  end.

#[global] Instance Rule_eq_dec : EqDecision Rule.
Proof. solve_decision. Defined.

(** An environment of the component: the route answers every request
    with [answer], dialogs and timers answer nothing. *)
Definition browser (answer : option Route.Body) : Io.answers call :=
  fun X c =>
    match c in call X return X with
    | Fetch _ _ _ => answer
    | SwalFire _ _ _ => tt
    | SetTimeout _ => tt
    end.

(** Forms of the worked examples. *)
Definition widgetForm : FormData.t :=
  FormData.mk "https://github.com/acme/widget" "alice" "" "" "widget-prod" "main"
              production [].


(** Only the branch is missing. *)
Definition noBranchForm : FormData.t :=
  FormData.mk "https://github.com/acme/widget" "alice" "" "" "widget-prod" ""
              production [].

(** The second entry of the list has no key. *)
Definition missingKeyForm : FormData.t :=
  FormData.mk "https://github.com/acme/widget" "alice" "" "" "widget-prod" "main"
              production [EnvVar.mk "API_KEY" "x"; EnvVar.mk "" "y"].

(** The state after a submission attempt on [missingKeyForm]. *)
Definition flaggedState : State :=
  fst (validateForm (mkState missingKeyForm ∅ false idle "" None)).

(** The state after a submission attempt on [noBranchForm]. *)
Definition noBranchState : State :=
  fst (validateForm (mkState noBranchForm ∅ false idle "" None)).

End FormSpec.

(** ** The contract of the request schema *)
Module SchemaSpec.
Import Json Route.

(** An outcome without issues, with its value. *)
Definition clean {A} (o : Zod.outcome A) (a : A) : Prop :=
  Zod.issues o = [] /\ Zod.value o = Some a.

(** An optional string property: absent, or a string. *)
Definition optionalString (input : option json) (parsed : option string) : Prop :=
  (input = None /\ parsed = None) \/
  (exists s, input = Some (JString s) /\ parsed = Some s).

(** An entry of [envVars]: an object whose [key] and [value] are
    non-empty strings. *)
Definition envVarItem (item : json) (envVar : EnvVar.t) : Prop :=
  exists fields,
    item = JObject fields /\
    lookup_field "key" fields = Some (JString (EnvVar.key envVar)) /\
    EnvVar.key envVar <> "" /\
    lookup_field "value" fields = Some (JString (EnvVar.value envVar)) /\
    EnvVar.value envVar <> "".

(** What the schema asks of a request body, and the validated data it
    yields. *)
Definition accepted (is_url : string -> bool) (body : json) (v : Validated.t) : Prop :=
  exists fields,
    body = JObject fields /\
    (lookup_field "repositoryUrl" fields = Some (JString (Validated.repositoryUrl v)) /\
     is_url (Validated.repositoryUrl v) = true /\
     Js.includes "github.com" (Validated.repositoryUrl v) = true) /\
    (lookup_field "userName" fields = Some (JString (Validated.userName v)) /\
     Validated.userName v <> "") /\
    optionalString (lookup_field "password" fields) (Validated.password v) /\
    optionalString (lookup_field "domainName" fields) (Validated.domainName v) /\
    (lookup_field "projectName" fields = Some (JString (Validated.projectName v)) /\
     Validated.projectName v <> "") /\
    ((lookup_field "branch" fields = None /\ Validated.branch v = "main") \/
     (lookup_field "branch" fields = Some (JString (Validated.branch v)) /\
      Validated.branch v <> "")) /\
    ((lookup_field "target" fields = None /\ Validated.target v = "production") \/
     (lookup_field "target" fields = Some (JString (Validated.target v)) /\
      (Validated.target v = "production" \/ Validated.target v = "preview"))) /\
    ((lookup_field "envVars" fields = None /\ Validated.envVars v = Some []) \/
     (exists items envVars,
         lookup_field "envVars" fields = Some (JArray items) /\
         Validated.envVars v = Some envVars /\
         Forall2 envVarItem items envVars)).

Definition targetName (t : Form.Target) : string :=
  match t with
  | Form.production => "production"
  | Form.preview => "preview"
  end.

(** [JSON.stringify(formData)], as the route reads it back. *)
Definition requestBody (f : Form.FormData.t) : json :=
  JObject
    [("repositoryUrl", JString (Form.FormData.repositoryUrl f));
     ("userName", JString (Form.FormData.userName f));
     ("password", JString (Form.FormData.password f));
     ("domainName", JString (Form.FormData.domainName f));
     ("projectName", JString (Form.FormData.projectName f));
     ("branch", JString (Form.FormData.branch f));
     ("target", JString (targetName (Form.FormData.target f)));
     ("envVars",
      JArray (map (fun e => JObject [("key", JString (Form.EnvVar.key e));
                                     ("value", JString (Form.EnvVar.value e))])
                  (Form.FormData.envVars f)))].

(** The validated data of a form. *)
Definition validatedForm (f : Form.FormData.t) : Validated.t :=
  Validated.mk
    (Form.FormData.repositoryUrl f)
    (Form.FormData.userName f)
    (Some (Form.FormData.password f))
    (Some (Form.FormData.domainName f))
    (Form.FormData.projectName f)
    (Form.FormData.branch f)
    (targetName (Form.FormData.target f))
    (Some (map (fun e => EnvVar.mk (Form.EnvVar.key e) (Form.EnvVar.value e))
               (Form.FormData.envVars f))).

(** A form with a user name of two characters. *)
Definition shortNameForm : Form.FormData.t :=
  Form.FormData.mk "https://github.com/acme/widget" "al" "" "" "widget-prod" "main"
                   Form.production [].

End SchemaSpec.

(** ** Vocabulary of the further statements *)
Module MoreSpec.
Import Json Route.

(** Two validated inputs that differ at most in the user name and the
    password. *)
Definition sameButCredentials (v v' : Validated.t) : Prop :=
  Validated.repositoryUrl v = Validated.repositoryUrl v' /\
  Validated.domainName v = Validated.domainName v' /\
  Validated.projectName v = Validated.projectName v' /\
  Validated.branch v = Validated.branch v' /\
  Validated.target v = Validated.target v' /\
  Validated.envVars v = Validated.envVars v'.

(** The answer of the platform to an invalid token. *)
Definition forbiddenBody : json :=
  JObject [("error", JObject [("code", JString "forbidden");
                              ("message", JString "Not authorized")])].

Definition forbidden : Io.answers call :=
  Examples.platform (fun _ => NotOk 403 (inr forbiddenBody))
                    (fun _ name => inr name)
                    (fun _ _ => inr tt).


(** The request of the examples under another user name and password. *)
Definition widgetOfBob : json :=
  JObject [("repositoryUrl", JString "https://github.com/acme/widget");
           ("userName", JString "bob");
           ("password", JString "hunter22");
           ("projectName", JString "widget-prod");
           ("branch", JString "main");
           ("target", JString "production")].

(** A form with the domain of the message of its own error. *)
Definition dottedDomainForm : Form.FormData.t :=
  Form.FormData.mk "https://github.com/acme/widget" "alice" "" "mydomain.com"
                   "widget-prod" "main" Form.production [].

(** The form of the examples in its initial surroundings. *)
Definition widgetState : Form.State :=
  Form.mkState FormSpec.widgetForm ∅ false Form.idle "" None.

(** The form with another list of environment variables. *)
Definition withEnvVars (f : Form.FormData.t) (envVars : list Form.EnvVar.t) :
    Form.FormData.t :=
  Form.FormData.mk (Form.FormData.repositoryUrl f) (Form.FormData.userName f)
    (Form.FormData.password f) (Form.FormData.domainName f)
    (Form.FormData.projectName f) (Form.FormData.branch f) (Form.FormData.target f)
    envVars.

(** The text of the failure dialog: [result.error || result.message ||
    "Deployment failed. ..."]. *)
Definition failureText (err message : string) : string :=
  if Js.truthy err then err
  else if Js.truthy message then message
  else "Deployment failed. Please check your credentials and try again.".

(** The last detail of a field, if any: what a sequence of assignments
    to [fieldErrors[detail.field]] leaves there. *)
Definition lastDetail (k : string) (details : list (string * string)) : option string :=
  snd <$> List.find (fun detail => String.eqb (fst detail) k) (rev details).


(** The create-deployment request of a form whose URL names [owner] and
    ends with [segment]. *)
Definition formRequest (f : Form.FormData.t) (owner segment : string) :
    DeploymentRequest.t :=
  DeploymentRequest.mk
    (Form.FormData.projectName f)
    (SchemaSpec.targetName (Form.FormData.target f))
    (GitSource.mk "github" (Js.replace ".git" "" segment) (Form.FormData.branch f) owner)
    (if Js.truthy (Form.FormData.domainName f)
     then Some [Form.FormData.domainName f] else None).

End MoreSpec.

(* ===================================================================== *)
(** * Part III: lemmas and theorems                                      *)
(* ===================================================================== *)

(** ** Strings *)
Module JsFacts.
Import Chars.

Lemma app_cons (c : ascii) (s1 s2 : string) :
  String c s1 +:+ s2 = String c (s1 +:+ s2).
Proof. done. Qed.

Lemma app_nil_l (s : string) : "" +:+ s = s.
Proof. done. Qed.

Lemma app_nil_r (s : string) : s +:+ "" = s.
Proof. induction s as [|c s IH]; [done|]. by rewrite app_cons, IH. Qed.

Lemma app_assoc (s1 s2 s3 : string) : (s1 +:+ s2) +:+ s3 = s1 +:+ (s2 +:+ s3).
Proof. induction s1 as [|c s1 IH]; [done|]. by rewrite !app_cons, IH. Qed.

Lemma app_eq_nil (s1 s2 : string) : s1 +:+ s2 = "" -> s1 = "" /\ s2 = "".
Proof. by destruct s1. Qed.

Lemma app_eq_cons (s1 s2 : string) c s :
  s1 +:+ s2 = String c s ->
  (s1 = "" /\ s2 = String c s) \/ (exists s1', s1 = String c s1' /\ s = s1' +:+ s2).
Proof.
  destruct s1 as [|c1 s1]; [by left|].
  rewrite app_cons. intros [= -> <-]. right. by exists s1.
Qed.

Lemma allChars_app p s1 s2 :
  allChars p (s1 +:+ s2) = allChars p s1 && allChars p s2.
Proof.
  induction s1 as [|c s1 IH]; [done|]. rewrite app_cons. simpl. by rewrite IH, andb_assoc.
Qed.

Lemma allChars_weaken (p q : ascii -> bool) s :
  (forall c, p c = true -> q c = true) -> allChars p s = true -> allChars q s = true.
Proof.
  intros Hpq. induction s as [|c s IH]; [done|]. simpl.
  intros [Hc Hs]%andb_true_iff. by rewrite (Hpq c Hc), IH.
Qed.

Lemma prefix_app (p s : string) : String.prefix p (p +:+ s) = true.
Proof.
  induction p as [|c p IH]; [by destruct s|].
  rewrite app_cons. simpl. by destruct (ascii_dec c c).
Qed.

Lemma includes_prefix needle s : String.prefix needle s = true -> Js.includes needle s = true.
Proof. intros H. destruct s; cbn [Js.includes]; by rewrite H. Qed.

(** A string includes what stands in its middle. *)
Lemma includes_app needle before after :
  Js.includes needle (before +:+ needle +:+ after) = true.
Proof.
  induction before as [|c b IH].
  - rewrite app_nil_l. apply includes_prefix, prefix_app.
  - rewrite app_cons. cbn [Js.includes]. rewrite IH. apply orb_true_r.
Qed.

Lemma prefix_char (c a : ascii) (s : string) :
  String.prefix (String c "") (String a s) = Ascii.eqb a c.
Proof.
  simpl. destruct (ascii_dec c a) as [<-|Hne].
  - rewrite Ascii.eqb_refl. by destruct s.
  - symmetry. apply Ascii.eqb_neq. congruence.
Qed.

Lemma prefix_cons_ne (a c : ascii) (p s : string) :
  a <> c -> String.prefix (String a p) (String c s) = false.
Proof. intros Hne. simpl. by destruct (ascii_dec a c). Qed.

Lemma includes_slash s :
  Js.includes "/" s = negb (allChars Regex.not_slash s).
Proof.
  induction s as [|c s IH]; [done|].
  cbn [Js.includes allChars]. rewrite IH, prefix_char. unfold Regex.not_slash.
  by destruct (Ascii.eqb c "/").
Qed.

Lemma trimStart_nil_iff s : Js.trimStart s = "" <-> allChars Js.isWhiteSpace s = true.
Proof.
  induction s as [|c s IH]; [done|]. simpl.
  destruct (Js.isWhiteSpace c); [done|]. split; done.
Qed.

Lemma trimStart_blank s :
  allChars Js.isWhiteSpace (Js.trimStart s) = allChars Js.isWhiteSpace s.
Proof.
  induction s as [|c s IH]; [done|]. simpl.
  destruct (Js.isWhiteSpace c) eqn:Hc; [done|]. simpl. by rewrite Hc.
Qed.

Lemma rev_app_nil_iff s acc : String.rev_app s acc = "" <-> s = "" /\ acc = "".
Proof.
  revert acc. induction s as [|c s IH]; intros acc; simpl.
  - split; [by intros ->|by intros [_ ->]].
  - rewrite IH. split; [by intros [_ ?]|by intros [? _]].
Qed.

Lemma allChars_rev_app p s acc :
  allChars p (String.rev_app s acc) = allChars p s && allChars p acc.
Proof.
  revert acc. induction s as [|c s IH]; intros acc; simpl; [done|].
  rewrite IH. simpl. destruct (p c), (allChars p s); simpl; done.
Qed.

Lemma trimEnd_nil_iff s : Js.trimEnd s = "" <-> allChars Js.isWhiteSpace s = true.
Proof.
  unfold Js.trimEnd, String.rev.
  rewrite rev_app_nil_iff, trimStart_nil_iff, allChars_rev_app. simpl.
  rewrite andb_true_r. split; [by intros [? _]|done].
Qed.

(** [trim] leaves nothing exactly when every character is white space. *)
Lemma trim_nil_iff s : Js.trim s = "" <-> allChars Js.isWhiteSpace s = true.
Proof. unfold Js.trim. by rewrite trimEnd_nil_iff, trimStart_blank. Qed.

Lemma truthy_iff s : Js.truthy s = true <-> s <> "".
Proof. by destruct s. Qed.

Lemma truthy_false_iff s : Js.truthy s = false <-> s = "".
Proof. by destruct s. Qed.

End JsFacts.

(** ** Regular expressions: matching by derivatives decides the language *)
Module RegexFacts.
Import Regex Chars JsFacts.

Lemma lang_void_iff s : lang RVoid s <-> False.
Proof. split; [inversion 1|done]. Qed.

Lemma lang_eps_iff s : lang REps s <-> s = "".
Proof. split; [by inversion 1|intros ->; constructor]. Qed.

Lemma lang_class_iff p s : lang (RClass p) s <-> exists c, s = String c "" /\ p c = true.
Proof.
  split.
  - inversion 1; subst. eauto.
  - intros (c & -> & Hc). by constructor.
Qed.

Lemma lang_seq_iff r1 r2 s :
  lang (RSeq r1 r2) s <-> exists s1 s2, s = s1 +:+ s2 /\ lang r1 s1 /\ lang r2 s2.
Proof.
  split.
  - inversion 1; subst. eauto.
  - intros (s1 & s2 & -> & H1 & H2). by constructor.
Qed.

Lemma lang_alt_iff r1 r2 s : lang (RAlt r1 r2) s <-> lang r1 s \/ lang r2 s.
Proof.
  split.
  - inversion 1; subst; auto.
  - intros [H|H]; [by apply lang_alt_l|by apply lang_alt_r].
Qed.

Lemma nullable_lang r : nullable r = true <-> lang r "".
Proof.
  induction r as [| |p|r1 IH1 r2 IH2|r1 IH1 r2 IH2|r IH]; simpl.
  - by rewrite lang_void_iff.
  - by rewrite lang_eps_iff.
  - rewrite lang_class_iff. split; [done|by intros (c & ? & _)].
  - rewrite andb_true_iff, IH1, IH2, lang_seq_iff. split.
    + intros [H1 H2]. by exists "", "".
    + intros (s1 & s2 & Heq & H1 & H2).
      symmetry in Heq. apply app_eq_nil in Heq as [-> ->]. done.
  - by rewrite orb_true_iff, IH1, IH2, lang_alt_iff.
  - split; [constructor|done].
Qed.

(** A non-empty word of a star starts with a non-empty word of its body. *)
Lemma lang_star_cons_inv r t :
  lang (RStar r) t ->
  forall c s, t = String c s ->
  exists s1 s2, s = s1 +:+ s2 /\ lang r (String c s1) /\ lang (RStar r) s2.
Proof.
  intros H. remember (RStar r) as r' eqn:Hr.
  induction H as [|? ?|? ? ? ? ? ? ? ?|? ? ? ? ?|? ? ? ? ?|?|r0 s1 s2 H1 _ H2 IH2];
    try discriminate Hr.
  - done.
  - injection Hr as ->. intros c s Heq.
    apply app_eq_cons in Heq as [[-> ->]|(s1' & -> & ->)].
    + by apply IH2.
    + by exists s1', s2.
Qed.

Lemma deriv_lang c r s : lang (deriv c r) s <-> lang r (String c s).
Proof.
  revert s.
  induction r as [| |p|r1 IH1 r2 IH2|r1 IH1 r2 IH2|r IH]; intros s; simpl.
  - by rewrite !lang_void_iff.
  - rewrite lang_void_iff, lang_eps_iff. done.
  - rewrite lang_class_iff. destruct (p c) eqn:Hc.
    + rewrite lang_eps_iff. split.
      * intros ->. by exists c.
      * by intros (c' & [= <- ->] & _).
    + rewrite lang_void_iff. split; [done|].
      intros (c' & [= <- ->] & Hc'). congruence.
  - assert (lang (RSeq (deriv c r1) r2) s <->
            exists s1 s2, s = s1 +:+ s2 /\ lang r1 (String c s1) /\ lang r2 s2) as Hleft.
    { rewrite lang_seq_iff. by setoid_rewrite IH1. }
    rewrite (lang_seq_iff r1 r2). destruct (nullable r1) eqn:Hn.
    + rewrite lang_alt_iff, Hleft, IH2. split.
      * intros [(s1 & s2 & -> & H1 & H2)|H2].
        -- by exists (String c s1), s2.
        -- apply nullable_lang in Hn. by exists "", (String c s).
      * intros (s1 & s2 & Heq & H1 & H2). symmetry in Heq.
        apply app_eq_cons in Heq as [[-> ->]|(s1' & -> & ->)]; [by right|].
        left. by exists s1', s2.
    + rewrite Hleft. split.
      * intros (s1 & s2 & -> & H1 & H2). by exists (String c s1), s2.
      * intros (s1 & s2 & Heq & H1 & H2). symmetry in Heq.
        apply app_eq_cons in Heq as [[-> ->]|(s1' & -> & ->)].
        -- apply nullable_lang in H1. congruence.
        -- by exists s1', s2.
  - by rewrite !lang_alt_iff, IH1, IH2.
  - rewrite lang_seq_iff. setoid_rewrite IH. split.
    + intros (s1 & s2 & -> & H1 & H2).
      rewrite <- app_cons. by constructor.
    + intros H. by eapply lang_star_cons_inv.
Qed.

(** [matches] decides the language. *)
Theorem matches_lang r s : matches r s = true <-> lang r s.
Proof.
  revert r. induction s as [|c s IH]; intros r; simpl.
  - apply nullable_lang.
  - by rewrite IH, deriv_lang.
Qed.

Lemma lang_lit_iff l s : lang (lit l) s <-> s = l.
Proof.
  revert s. induction l as [|c l IH]; intros s; simpl.
  - apply lang_eps_iff.
  - rewrite lang_seq_iff. unfold chr. setoid_rewrite lang_class_iff.
    setoid_rewrite IH. split.
    + intros (s1 & s2 & -> & (c' & -> & Hc) & ->).
      apply Ascii.eqb_eq in Hc as ->. done.
    + intros ->. exists (String c ""), l. split; [done|]. split; [|done].
      exists c. by rewrite Ascii.eqb_refl.
Qed.

Lemma lang_star_class p s : lang (RStar (RClass p)) s <-> allChars p s = true.
Proof.
  split.
  - intros H. remember (RStar (RClass p)) as r eqn:Hr.
    induction H as [|? ?|? ? ? ? ? ? ? ?|? ? ? ? ?|? ? ? ? ?|?|r0 s1 s2 H1 _ H2 IH2];
      try discriminate Hr; [done|].
    injection Hr as ->. apply lang_class_iff in H1 as (c & -> & Hc).
    rewrite app_cons, app_nil_l. simpl. by rewrite Hc, IH2.
  - induction s as [|c s IH]; [constructor|]. simpl.
    intros [Hc Hs]%andb_true_iff.
    change (String c s) with (String c "" +:+ s).
    constructor; [by constructor|by apply IH].
Qed.

Lemma lang_plus_class p s :
  lang (plus (RClass p)) s <-> s <> "" /\ allChars p s = true.
Proof.
  unfold plus. rewrite lang_seq_iff.
  setoid_rewrite lang_class_iff. setoid_rewrite lang_star_class. split.
  - intros (s1 & s2 & -> & (c & -> & Hc) & Hs). rewrite app_cons, app_nil_l.
    split; [done|]. simpl. by rewrite Hc, Hs.
  - intros [Hne Hs]. destruct s as [|c s]; [done|]. simpl in Hs.
    apply andb_true_iff in Hs as [Hc Hs].
    exists (String c ""), s. split; [done|]. split; [by exists c|done].
Qed.

Lemma lang_opt_iff r s : lang (opt r) s <-> lang r s \/ s = "".
Proof. unfold opt. by rewrite lang_alt_iff, lang_eps_iff. Qed.

Lemma lang_chr_iff c s : lang (chr c) s <-> s = String c "".
Proof.
  unfold chr. rewrite lang_class_iff. split.
  - by intros (c' & -> & ->%Ascii.eqb_eq).
  - intros ->. exists c. by rewrite Ascii.eqb_refl.
Qed.

(** [[^\/]+\/[^\/]+(?:\.git)?], the tail of both repository patterns:
    two non-empty segments without ["/"], the second to the end of the
    input. *)
Lemma lang_two_segments t :
  lang (RSeq (plus (RClass not_slash))
          (RSeq (chr "/")
             (RSeq (plus (RClass not_slash)) (opt (lit ".git"))))) t <->
  exists owner repo,
    t = owner +:+ "/" +:+ repo /\ owner <> "" /\ repo <> "" /\
    allChars not_slash owner = true /\ allChars not_slash repo = true.
Proof.
  split.
  - intros Ht.
    apply lang_seq_iff in Ht as (owner & t1 & -> & [Ho1 Ho2]%lang_plus_class & Ht).
    apply lang_seq_iff in Ht as (sl & t2 & -> & ->%lang_chr_iff & Ht).
    apply lang_seq_iff in Ht as (r & g & -> & [Hr1 Hr2]%lang_plus_class & Hg).
    exists owner, (r +:+ g). split; [done|]. split; [done|].
    split; [by destruct r|]. split; [done|].
    rewrite allChars_app, Hr2.
    apply lang_opt_iff in Hg as [->%lang_lit_iff| ->]; done.
  - intros (owner & repo & -> & Ho & Hr & Hos & Hrs).
    apply lang_seq_iff. exists owner, ("/" +:+ repo).
    split; [done|]. split; [by apply lang_plus_class|].
    apply lang_seq_iff. exists "/", repo.
    split; [done|]. split; [by apply lang_chr_iff|].
    apply lang_seq_iff. exists repo, "".
    split; [by rewrite app_nil_r|]. split; [by apply lang_plus_class|].
    apply lang_opt_iff. by right.
Qed.

End RegexFacts.

(** ** Runs *)
Module IoFacts.
Import Io.

Lemma run_bind {E A B} (world : answers E) (m : io E A) (f : A -> io E B) :
  run world (bind m f) =
  match snd (run world m) with
  | inr a => (fst (run world m) ++ fst (run world (f a)), snd (run world (f a)))
  | inl e => (fst (run world m), inl e)
  end.
Proof.
  induction m as [a|e|X c k IH]; simpl.
  - by destruct (run world (f a)).
  - done.
  - rewrite IH. by destruct (snd (run world (k (world X c)))).
Qed.

Lemma run_try_catch {E A} (world : answers E) (m : io E A) (h : thrown -> io E A) :
  run world (try_catch m h) =
  match snd (run world m) with
  | inr a => (fst (run world m), inr a)
  | inl e => (fst (run world m) ++ fst (run world (h e)), snd (run world (h e)))
  end.
Proof.
  induction m as [a|e|X c k IH]; simpl.
  - done.
  - by destruct (run world (h e)).
  - rewrite IH. by destruct (snd (run world (k (world X c)))).
Qed.

End IoFacts.

Module RouteFacts.
Import Json Io Route RouteSpec.

#[local] Arguments handleError : simpl never.
#[local] Arguments deploymentRequest : simpl never.
#[local] Arguments deploymentView : simpl never.

Lemma run_addDomain world v :
  exists domainResult, run world (addDomain v) = (domainCalls v, inr domainResult).
Proof.
  unfold addDomain, domainCalls, mbind, io_bind, mret, io_ret.
  destruct (Validated.domainName v) as [d|]; [|by eexists].
  destruct (Js.truthy d); by eexists.
Qed.

Lemma run_addEnvVars world v :
  exists envVarsResult, run world (addEnvVars v) = (envCalls v, inr envVarsResult).
Proof.
  unfold addEnvVars, envCalls, mbind, io_bind, mret, io_ret.
  destruct (Validated.envVars v) as [[|e rest]|]; by eexists.
Qed.

Lemma urlOf_inr access u r :
  urlOf access u = inr r <-> urlValue u /\ r = normalizeUrl (stringOf u).
Proof.
  unfold urlOf, urlValue, stringOf. split.
  - destruct u as [v|].
    + destruct v as [|b|t|s|items|fields]; cbn [truthy].
      * intros [= <-]. split; [|done]. by intros v [= <-].
      * destruct b; [done|]. intros [= <-]. split; [|done]. by intros v [= <-].
      * destruct (negb (String.eqb t "0")) eqn:Ht; [done|].
        intros [= <-]. split; [|done]. intros v [= <-]. cbn [truthy]. by rewrite Ht.
      * intros [= <-]. split; [|done]. intros v [= <-] _. by eauto.
      * done.
      * done.
    + intros [= <-]. split; [|done]. by intros v [=].
  - intros [Hu ->]. destruct u as [v|]; [|done].
    destruct v as [|b|t|s|items|fields]; cbn [truthy]; try done.
    + destruct b; [|done]. by destruct (Hu _ eq_refl eq_refl) as [s Hs].
    + destruct (negb (String.eqb t "0")) eqn:Ht; [|done].
      by destruct (Hu _ eq_refl Ht) as [s Hs].
    + by destruct (Hu _ eq_refl eq_refl) as [s Hs].
    + by destruct (Hu _ eq_refl eq_refl) as [s Hs].
Qed.

(** The object of the deployment is built exactly from the usable
    answers, property by property. *)
Lemma deploymentView_inr d view :
  deploymentView d = inr view <->
  usable d /\
  view = DeploymentView.mk
           (property "id" d) (property "status" d)
           (normalizeUrl (stringOf (property "url" d)))
           (property "alias" d) (property "createdAt" d) (property "ready" d)
           "BUILDING"
           (normalizeUrl (stringOf (property "inspectorUrl" d))).
Proof.
  unfold usable.
  assert (forall access u, (exists e, urlOf access u = inl e) \/
                           (urlValue u /\ urlOf access u = inr (normalizeUrl (stringOf u))))
    as Hcases.
  { intros access u. destruct (urlOf access u) as [e|r] eqn:Hu; [by eauto|].
    right. apply urlOf_inr in Hu as [? ->]. by split. }
  assert (forall access u e, urlOf access u = inl e -> ~ urlValue u) as Hno.
  { intros access u e Hu Hv.
    assert (urlOf access u = inr (normalizeUrl (stringOf u))) as Hr
      by (by apply urlOf_inr).
    congruence. }
  assert (d = JNull \/
          (d <> JNull /\
           deploymentView d =
             match urlOf "deployment.url" (property "url" d) with
             | inl e => inl e
             | inr url =>
                 match urlOf "deployment.inspectorUrl" (property "inspectorUrl" d) with
                 | inl e => inl e
                 | inr inspectorUrl =>
                     inr (DeploymentView.mk (property "id" d) (property "status" d) url
                            (property "alias" d) (property "createdAt" d)
                            (property "ready" d) "BUILDING" inspectorUrl)
                 end
             end)) as [-> | [Hnn ->]].
  { destruct d; [by left|right; by split..]. }
  { split; [done|by intros [[? _] _]]. }
  destruct (Hcases "deployment.url" (property "url" d)) as [[e He]|[Hv He]]; rewrite He.
  { split; [done|]. intros [(_ & Hv & _) _]. by apply Hno in He. }
  destruct (Hcases "deployment.inspectorUrl" (property "inspectorUrl" d))
    as [[e' He']|[Hv' He']]; rewrite He'.
  { split; [done|]. intros [(_ & _ & Hv') _]. by apply Hno in He'. }
  split; [intros [= <-]; by repeat split|by intros [_ ->]].
Qed.

Lemma deploymentView_state d view :
  deploymentView d = inr view -> DeploymentView.state view = "BUILDING".
Proof. by intros [_ ->]%deploymentView_inr. Qed.

(** When the object cannot be built, the [catch] clause answers with
    status 500 and the message of the [TypeError]. *)
Lemma deploymentView_inl d e :
  deploymentView d = inl e ->
  exists message,
    e = ErrorObject None message /\
    handleError e =
      mkResponse 500
        (Failure message
           "Deployment failed. Check your Vercel token and repository permissions.").
Proof.
  assert (forall access u e', urlOf access u = inl e' ->
                              e' = notAFunction (access +:+ ".startsWith")) as Hurl.
  { intros access u e'. unfold urlOf. destruct u as [v|]; [|done].
    destruct v; try done; destruct (truthy _); try done; by intros [= <-]. }
  intros Hd.
  assert (e = readOfNull "id" \/ e = notAFunction "deployment.url.startsWith" \/
          e = notAFunction "deployment.inspectorUrl.startsWith") as He.
  { assert (d = JNull \/
            deploymentView d =
              match urlOf "deployment.url" (property "url" d) with
              | inl e => inl e
              | inr url =>
                  match urlOf "deployment.inspectorUrl" (property "inspectorUrl" d) with
                  | inl e => inl e
                  | inr inspectorUrl =>
                      inr (DeploymentView.mk (property "id" d) (property "status" d) url
                             (property "alias" d) (property "createdAt" d)
                             (property "ready" d) "BUILDING" inspectorUrl)
                  end
              end) as [-> | Heq].
    { destruct d; [by left|by right..]. }
    { injection Hd as <-. by left. }
    rewrite Heq in Hd.
    destruct (urlOf "deployment.url" _) as [e1|r1] eqn:H1.
    { injection Hd as <-. right. left. exact (Hurl _ _ _ H1). }
    destruct (urlOf "deployment.inspectorUrl" _) as [e2|r2] eqn:H2; [|done].
    injection Hd as <-. right. right. exact (Hurl _ _ _ H2). }
  destruct He as [-> | [-> | ->]]; eexists; (split; [reflexivity|]);
    vm_compute; reflexivity.
Qed.

(** Every run of [POST] returns a response, and ends in one of the five
    ways of [ends]. *)
Lemma POST_ends is_url world request :
  exists calls response,
    run world (POST is_url request) = (calls, inr response) /\
    ends is_url world request calls response.
Proof.
  unfold POST, mbind, io_bind, mret, io_ret. rewrite IoFacts.run_try_catch.
  destruct request as [message|body]; simpl.
  { eexists _, _. split; [done|]. by apply ends_not_json. }
  rewrite IoFacts.run_bind.
  destruct (parse (deploymentSchema is_url) body) as [e|v] eqn:Hparse; simpl.
  { eexists _, _. split; [done|]. by eapply ends_invalid. }
  rewrite IoFacts.run_bind.
  destruct (extractGitHubInfo (Validated.repositoryUrl v)) as [e|info] eqn:Hinfo; simpl.
  { eexists _, _. split; [done|]. by eapply ends_no_repository. }
  rewrite IoFacts.run_bind. simpl.
  destruct (world _ (CreateDeployment (deploymentRequest v info)))
    as [m|st [m|j]|[m|d]] eqn:Hcreate; simpl;
    try (eexists _, _; split; [done|];
         eapply ends_not_created; [done..|by rewrite Hcreate]).
  destruct (run_addDomain world v) as [dr Hdr].
  destruct (run_addEnvVars world v) as [er Her].
  rewrite !IoFacts.run_bind, Hdr. simpl. rewrite IoFacts.run_bind, Her. simpl.
  rewrite IoFacts.run_bind.
  pose proof (ends_created is_url world (inr body) body v info d dr er
                eq_refl Hparse Hinfo Hcreate Hdr Her) as Hends.
  unfold finalResponse in Hends.
  destruct (deploymentView d) as [e|view]; simpl; rewrite ?app_nil_r;
    eexists _, _; (split; [done|]); exact Hends.
Qed.

End RouteFacts.

(** ** The decomposition of the repository URL *)
Module ExtractFacts.
Import Route Chars Regex JsFacts RegexFacts.

Lemma prefix_iff p s : String.prefix p s = true <-> exists t, s = p +:+ t.
Proof.
  split.
  - revert s. induction p as [|c p IH]; intros s H; [by exists s|].
    destruct s as [|a s]; [done|]. simpl in H.
    destruct (ascii_dec c a) as [->|]; [|done].
    destruct (IH s H) as [t ->]. by exists t.
  - intros [t ->]. apply prefix_app.
Qed.

Lemma drop_app p t : Js.drop (String.length p) (p +:+ t) = t.
Proof. induction p as [|c p IH]; [by destruct t|]. by rewrite app_cons. Qed.

Lemma splitSlash_Some s a b :
  splitSlash s = (a, Some b) <->
  s = a +:+ "/" +:+ b /\ allChars not_slash a = true.
Proof.
  revert a. induction s as [|c s IH]; intros a; simpl.
  - split; [done|]. intros [H _]. by destruct a.
  - destruct (Ascii.eqb c "/") eqn:Hc.
    + apply Ascii.eqb_eq in Hc as ->. split.
      * by intros [= <- <-].
      * intros [H Ha]. destruct a as [|c' a].
        -- rewrite app_nil_l, app_cons in H. by injection H as ->.
        -- rewrite app_cons in H. injection H as <- _. done.
    + destruct (splitSlash s) as [a' o] eqn:Hs. simpl. split.
      * intros [= <- ->].
        destruct (proj1 (IH a') eq_refl) as [-> Ha].
        split; [done|]. simpl. unfold not_slash at 1. by rewrite Hc.
      * intros [H Ha]. destruct a as [|c' a].
        -- rewrite app_nil_l, app_cons in H. injection H as -> _.
           by rewrite Ascii.eqb_refl in Hc.
        -- rewrite app_cons in H. injection H as <- ->. simpl in Ha.
           apply andb_true_iff in Ha as [_ Ha].
           pose proof (proj2 (IH a) (conj eq_refl Ha)) as Heq. congruence.
Qed.

(** A match of the pattern that starts at the head of the input: the
    groups are the two segments after [github.com/]. *)
Lemma matchHere_Some s org repo :
  matchHere s = Some (org, repo) <->
  s = "github.com/" +:+ org +:+ "/" +:+ repo /\ org <> "" /\ repo <> "" /\
  allChars not_slash org = true /\ allChars not_slash repo = true.
Proof.
  unfold matchHere. split.
  - destruct (String.prefix "github.com/" s) eqn:Hp; [|done].
    apply prefix_iff in Hp as [t ->].
    change 11 with (String.length "github.com/"). rewrite drop_app.
    destruct (splitSlash t) as [a [b|]] eqn:Hs; [|done].
    apply splitSlash_Some in Hs as [-> Ha].
    rewrite includes_slash, negb_involutive.
    destruct (Js.truthy a) eqn:Hta; [|done]. destruct (Js.truthy b) eqn:Htb; [|done].
    destruct (allChars not_slash b) eqn:Hb; [|done]. simpl.
    intros [= -> ->]. by rewrite <- !truthy_iff.
  - intros (-> & Ho & Hr & Hos & Hrs).
    rewrite prefix_app. change 11 with (String.length "github.com/").
    rewrite drop_app.
    rewrite (proj2 (splitSlash_Some _ org repo) (conj eq_refl Hos)).
    rewrite includes_slash, Hrs.
    apply truthy_iff in Ho, Hr. by rewrite Ho, Hr.
Qed.

(** [matchHere] finds a match exactly when the pattern accepts the
    input. *)
Lemma matchHere_githubPattern s :
  is_Some (matchHere s) <-> matches githubPattern s = true.
Proof.
  rewrite matches_lang. unfold githubPattern.
  rewrite lang_seq_iff. setoid_rewrite lang_lit_iff. setoid_rewrite lang_two_segments.
  split.
  - intros [[org repo] (-> & H)%matchHere_Some].
    exists "github.com/", (org +:+ "/" +:+ repo).
    split; [done|]. split; [done|]. by exists org, repo.
  - intros (p & t & -> & -> & org & repo & -> & H).
    exists (org, repo). by apply matchHere_Some.
Qed.

(** [matchGithub] answers with the groups of a match that ends the
    input. *)
Lemma matchGithub_Some s org repo :
  matchGithub s = Some (org, repo) ->
  exists before,
    s = before +:+ "github.com/" +:+ org +:+ "/" +:+ repo /\
    org <> "" /\ repo <> "" /\
    allChars not_slash org = true /\ allChars not_slash repo = true.
Proof.
  induction s as [|c s IH]; cbn [matchGithub].
  - done.
  - destruct (matchHere (String c s)) as [g|] eqn:Hm.
    + intros [= ->]. apply matchHere_Some in Hm as (? & ?). by exists "".
    + intros (before & -> & H)%IH. by exists (String c before).
Qed.

(** [matchGithub] finds nothing exactly when the pattern accepts no
    suffix of the input. *)
Lemma matchGithub_None s :
  matchGithub s = None <->
  forall before after, s = before +:+ after -> matches githubPattern after = false.
Proof.
  induction s as [|c s IH]; cbn [matchGithub].
  - split; [|done]. intros _ before after Heq.
    symmetry in Heq. apply app_eq_nil in Heq as [_ ->]. done.
  - destruct (matchHere (String c s)) as [g|] eqn:Hm.
    + split; [done|]. intros H. specialize (H "" (String c s) eq_refl).
      assert (is_Some (matchHere (String c s))) as Hs by (by rewrite Hm).
      apply matchHere_githubPattern in Hs. congruence.
    + rewrite IH. split.
      * intros H before after Heq. symmetry in Heq.
        apply app_eq_cons in Heq as [[-> ->]|(b' & -> & ->)].
        -- apply not_true_is_false. rewrite <- matchHere_githubPattern, Hm.
           by intros [? ?].
        -- by apply (H b').
      * intros H before after ->. by apply (H (String c before)).
Qed.

(** A trailing [.git] is removed from a name without a dot. *)
Lemma replace_git_suffix name :
  allChars (fun c => negb (Ascii.eqb c ".")) name = true ->
  Js.replace ".git" "" (name +:+ ".git") = name.
Proof.
  induction name as [|c name IH]; [done|]. rewrite app_cons.
  cbn [allChars Js.replace].
  intros [Hc Hn]%andb_true_iff. apply negb_true_iff, Ascii.eqb_neq in Hc.
  rewrite prefix_cons_ne by congruence. by rewrite IH.
Qed.

(** A name without [.git] is left as it is. *)
Lemma replace_absent pat rep s :
  Js.includes pat s = false -> Js.replace pat rep s = s.
Proof.
  induction s as [|c s IH]; cbn [Js.includes Js.replace].
  - intros H. apply orb_false_iff in H as [-> _]. done.
  - intros H. apply orb_false_iff in H as [-> H]. by rewrite IH.
Qed.

(** On a URL of the shape the form asks for, the pattern finds the owner
    and the last segment. *)
Lemma matchGithub_https owner repo :
  owner <> "" -> repo <> "" ->
  Chars.allChars Regex.not_slash owner = true ->
  Chars.allChars Regex.not_slash repo = true ->
  matchGithub ("https://github.com/" +:+ owner +:+ "/" +:+ repo) = Some (owner, repo).
Proof.
  intros Ho Hr Hos Hrs.
  change ("https://github.com/" +:+ owner +:+ "/" +:+ repo)
    with ("https://" +:+ ("github.com/" +:+ owner +:+ "/" +:+ repo)).
  assert (matchHere ("github.com/" +:+ owner +:+ "/" +:+ repo) = Some (owner, repo))
    as Hhere by (by apply matchHere_Some).
  generalize dependent ("github.com/" +:+ owner +:+ "/" +:+ repo).
  intros s Hs.
  repeat (rewrite JsFacts.app_cons; cbn [matchGithub];
          unfold matchHere at 1;
          rewrite JsFacts.prefix_cons_ne by discriminate).
  rewrite JsFacts.app_nil_l. destruct s; cbn [matchGithub]; by rewrite Hs.
Qed.

End ExtractFacts.

(** ** The route's responses *)
Module RouteTheorems.
Import Json Io Route RouteSpec RouteFacts.

#[local] Arguments handleError : simpl never.
#[local] Arguments deploymentRequest : simpl never.
#[local] Arguments deploymentView : simpl never.

Lemma errorResponse_fails error : success (body (errorResponse error)) = false.
Proof. done. Qed.

Lemma classifyMessage_fails error : success (body (classifyMessage error)) = false.
Proof.
  unfold classifyMessage.
  destruct (messageOf error) as [m|]; [|done].
  repeat (match goal with |- context [if ?b then _ else _] => destruct b end; try done).
Qed.

(** The [catch] clause never answers with a success. *)
Lemma handleError_fails error : success (body (handleError error)) = false.
Proof.
  unfold handleError.
  destruct error as [issues|status message|text]; try done;
    try apply classifyMessage_fails.
  simpl. destruct status as [[|[p|p|]|]|]; try apply classifyMessage_fails.
  all: repeat (destruct p as [p|p|]; try apply classifyMessage_fails); done.
Qed.

Lemma handleError_not_Success error status deployment domain envVars message :
  handleError error <> mkResponse status (Success deployment domain envVars message).
Proof.
  intros H. pose proof (handleError_fails error) as Hf. by rewrite H in Hf.
Qed.

(** Every run of [POST] answers with a response: nothing escapes its
    [catch] clause. *)
Lemma POST_returns is_url world request :
  exists response, result world (POST is_url request) = inr response.
Proof.
  destruct (POST_ends is_url world request) as (calls & response & Hrun & _).
  exists response. unfold result. by rewrite Hrun.
Qed.

Lemma In_domainCalls ev v :
  In ev (domainCalls v) ->
  exists domainName,
    Validated.domainName v = Some domainName /\ Js.truthy domainName = true /\
    ev = existT _ (AddProjectDomain (Validated.projectName v) domainName).
Proof.
  unfold domainCalls. destruct (Validated.domainName v) as [d|]; [|done].
  destruct (Js.truthy d) eqn:Ht; [|done].
  intros [<-|[]]. by exists d.
Qed.

Lemma In_envCalls ev v : In ev (envCalls v) -> isCreateProjectEnv ev = true.
Proof.
  unfold envCalls. destruct (Validated.envVars v) as [[|e rest]|]; try done.
  by intros [<-|[]].
Qed.

Lemma domainCalls_kind v :
  List.filter isCreateProjectEnv (domainCalls v) = [].
Proof.
  unfold domainCalls. destruct (Validated.domainName v) as [d|]; [|done].
  by destruct (Js.truthy d).
Qed.

(** The result of the domain step is the report of the answer to its
    call. *)
Lemma run_addDomain_called world v domainName :
  Validated.domainName v = Some domainName -> Js.truthy domainName = true ->
  run world (addDomain v) =
  (domainCalls v,
   inr (Some (domainOutcome domainName
                (world _ (AddProjectDomain (Validated.projectName v) domainName))))).
Proof.
  intros Hd Ht. unfold addDomain, domainCalls, domainOutcome. rewrite Hd, Ht. simpl.
  by destruct (world _ _).
Qed.

(** The result of the environment-variable step is the report of the
    answer to its one call, which carries an entry for every pair. *)
Lemma run_addEnvVars_called world v envVars :
  Validated.envVars v = Some envVars -> envVars <> [] ->
  run world (addEnvVars v) =
  ([existT _ (CreateProjectEnv (Validated.projectName v) "true" (envEntries envVars))],
   inr (Some (envVarsOutcome envVars
                (world _ (CreateProjectEnv (Validated.projectName v) "true"
                                           (envEntries envVars)))))).
Proof.
  intros He Hne. unfold addEnvVars, envVarsOutcome, envEntries. rewrite He.
  destruct envVars as [|e rest]; [done|]. simpl.
  by destruct (world _ _).
Qed.

Lemma envCalls_called v envVars :
  Validated.envVars v = Some envVars -> envVars <> [] ->
  envCalls v =
  [existT _ (CreateProjectEnv (Validated.projectName v) "true" (envEntries envVars))].
Proof.
  intros He Hne. unfold envCalls. rewrite He. by destruct envVars.
Qed.

Lemma envEntries_pairs envVars :
  map (fun e => (EnvEntry.key e, EnvEntry.value e)) (envEntries envVars) =
  map (fun e => (EnvVar.key e, EnvVar.value e)) envVars.
Proof. unfold envEntries. induction envVars; simpl; congruence. Qed.

Lemma envEntries_tagged envVars :
  Forall (fun e => EnvEntry.target e = ["production"] /\ EnvEntry.type e = "plain")
         (envEntries envVars).
Proof. unfold envEntries. induction envVars; simpl; constructor; auto. Qed.

(** A body that the schema rejects is answered with status 400 and one
    detail per issue; nothing is called. *)
Lemma invalid_body_answers_400 is_url (world : answers call) body issues :
  parse (deploymentSchema is_url) body = inl (ZodError issues) ->
  run world (POST is_url (inr body)) =
  ([], inr (mkResponse 400
              (ValidationFailed "Validation failed"
                 (map (fun err => (Js.join "." (Zod.path err), Zod.message err))
                      issues)))).
Proof.
  intros Hp.
  destruct (POST_ends is_url world (inr body)) as (calls & response & Hrun & Hends).
  rewrite Hrun.
  destruct Hends as [m Hr|b e Hr Hp'|b v' e Hr Hp' _|b v' i e Hr Hp' _ _
                     |b v' i d dr er Hr Hp' _ _ _ _];
    try discriminate Hr; injection Hr as <-; rewrite Hp in Hp';
    try discriminate Hp'.
  by injection Hp' as <-.
Qed.

Lemma invalid_body_answers_400_witness :
  run Examples.healthy (POST Examples.urlTest (inr (JObject []))) =
  ([], inr (mkResponse 400
              (ValidationFailed "Validation failed"
                 [("repositoryUrl", "Required"); ("userName", "Required");
                  ("projectName", "Required")]))).
Proof.
  apply (invalid_body_answers_400 Examples.urlTest Examples.healthy (JObject [])
           [Zod.Issue ["repositoryUrl"] "Required"; Zod.Issue ["userName"] "Required";
            Zod.Issue ["projectName"] "Required"]).
  vm_compute. reflexivity.
Defined.

(** A run whose create-deployment call yields no deployment issues no
    other call and ends in the [catch] clause. *)
Lemma failed_create_ends_run is_url (world : answers call) request req e :
  In (existT _ (CreateDeployment req)) (trace world (POST is_url request)) ->
  createError (world _ (CreateDeployment req)) = Some e ->
  run world (POST is_url request) =
  ([existT _ (CreateDeployment req)], inr (handleError e)).
Proof.
  intros Hin He.
  destruct (POST_ends is_url world request) as (calls & response & Hrun & Hends).
  unfold trace in Hin. rewrite Hrun in *. simpl in Hin.
  destruct Hends as [| | |b v i e' _ _ _ Hc|b v i d dr er _ _ _ Hok _ _]; try done.
  - destruct Hin as [Heq|[]].
    apply (f_equal createArgs) in Heq. injection Heq as <-. congruence.
  - destruct Hin as [Heq|Hin].
    + apply (f_equal createArgs) in Heq. injection Heq as <-.
      rewrite Hok in He. done.
    + apply in_app_or in Hin as [Hin|Hin].
      * apply In_domainCalls in Hin as (? & _ & _ & Heq).
        by apply (f_equal createArgs) in Heq.
      * apply In_envCalls in Hin. done.
Qed.

(** The scenario of the specification: one create-deployment call with
    the git source of the repository, and no other call. *)
Example widget_scenario :
  trace Examples.healthy (POST Examples.urlTest (inr Examples.widgetRequest)) =
  [existT _ (CreateDeployment
               (DeploymentRequest.mk "widget-prod" "production"
                  (GitSource.mk "github" "widget" "main" "acme") None))].
Proof. by vm_compute. Qed.

(** What the [catch] clause does read is the text of the error body:
    a body that names [forbidden] or [Not authorized] is answered with
    status 403 and the message about the token. *)
Lemma forbidden_text_answers_403 message :
  Js.includes "forbidden" message || Js.includes "Not authorized" message = true ->
  handleError (ErrorObject None message) =
  mkResponse 403 (Failure "Vercel authentication failed" tokenMessage).
Proof. intros H. unfold handleError, classifyMessage. simpl. by rewrite H. Qed.

(** The status of the platform's answer has no part in the response. *)
Lemma upstream_status_is_ignored status status' errorData :
  createError (NotOk status errorData) = createError (NotOk status' errorData).
Proof. done. Qed.

(** C2, the failing run.  The platform answers the create-deployment
    request with status 401 and an error body that names neither
    [forbidden] nor [Not authorized]; the status is never read, and the
    response is the generic failure with status 500. *)
Theorem unauthorized_status_answers_500 :
  run Examples.unauthorized (POST Examples.urlTest (inr Examples.widgetRequest)) =
  ([existT _ (CreateDeployment
                (DeploymentRequest.mk "widget-prod" "production"
                   (GitSource.mk "github" "widget" "main" "acme") None))],
   inr (mkResponse 500
          (Failure (stringify Examples.unauthorizedBody)
             "Deployment failed. Check your Vercel token and repository permissions."))).
Proof. vm_compute. reflexivity. Qed.

(** A URL in which the pattern finds no match is answered with status
    500 and the message of [extractGitHubInfo], not with the status 400
    of a validation failure; nothing is called. *)
Lemma unmatched_repository_answers_500 is_url (world : answers call) body v :
  parse (deploymentSchema is_url) body = inr v ->
  matchGithub (Validated.repositoryUrl v) = None ->
  run world (POST is_url (inr body)) =
  ([], inr (mkResponse 500
              (Failure "Invalid GitHub repository URL"
                 "Deployment failed. Check your Vercel token and repository permissions."))).
Proof.
  intros Hp Hm.
  assert (extractGitHubInfo (Validated.repositoryUrl v) =
          inl (ErrorObject None "Invalid GitHub repository URL")) as Hi
    by (unfold extractGitHubInfo; by rewrite Hm).
  destruct (POST_ends is_url world (inr body)) as (calls & response & Hrun & Hends).
  rewrite Hrun.
  destruct Hends as [m Hr|b e Hr Hp'|b v' e Hr Hp' Hi'|b v' i e Hr Hp' Hi' _
                     |b v' i d dr er Hr Hp' Hi' _ _ _];
    try discriminate Hr; injection Hr as <-; rewrite Hp in Hp';
    try discriminate Hp'; injection Hp' as <-; rewrite Hi in Hi';
    try discriminate Hi'.
  by injection Hi' as <-.
Qed.

Lemma unmatched_repository_answers_500_witness :
  run Examples.healthy (POST Examples.urlTest (inr Examples.ownerOnlyRequest)) =
  ([], inr (mkResponse 500
              (Failure "Invalid GitHub repository URL"
                 "Deployment failed. Check your Vercel token and repository permissions."))).
Proof.
  apply (unmatched_repository_answers_500 Examples.urlTest Examples.healthy
           Examples.ownerOnlyRequest
           (Validated.mk "https://github.com/acme" "alice" None None "acme-site"
                         "main" "production" (Some []))).
  - vm_compute. reflexivity.
  - vm_compute. reflexivity.
Defined.

(** On the URLs of the client pattern whose repository name has no dot,
    the decomposition is the expected one, with or without [.git]. *)
Lemma extractGitHubInfo_plain owner name :
  owner <> "" -> name <> "" ->
  Chars.allChars Regex.not_slash owner = true ->
  Chars.allChars Regex.not_slash name = true ->
  Chars.allChars (fun c => negb (Ascii.eqb c ".")) name = true ->
  extractGitHubInfo ("https://github.com/" +:+ owner +:+ "/" +:+ name) =
    inr (mkInfo owner name) /\
  extractGitHubInfo ("https://github.com/" +:+ owner +:+ "/" +:+ name +:+ ".git") =
    inr (mkInfo owner name).
Proof.
  intros Ho Hn Hos Hns Hdot.
  pose proof (ExtractFacts.matchGithub_https owner) as Hmatch.
  unfold extractGitHubInfo. split.
  - rewrite (Hmatch name Ho Hn Hos Hns).
    rewrite ExtractFacts.replace_absent; [done|].
    clear -Hdot. induction name as [|c name IH]; [done|].
    cbn [Chars.allChars Js.includes] in *.
    apply andb_true_iff in Hdot as [Hc Hdot].
    apply negb_true_iff, Ascii.eqb_neq in Hc.
    rewrite JsFacts.prefix_cons_ne by congruence. by apply IH.
  - rewrite (Hmatch (name +:+ ".git") Ho).
    + by rewrite ExtractFacts.replace_git_suffix.
    + by destruct name.
    + done.
    + by rewrite JsFacts.allChars_app, Hns.
Qed.

Lemma extractGitHubInfo_plain_witness :
  extractGitHubInfo ("https://github.com/" +:+ "acme" +:+ "/" +:+ "widget") =
    inr (mkInfo "acme" "widget") /\
  extractGitHubInfo ("https://github.com/" +:+ "acme" +:+ "/" +:+ "widget" +:+ ".git") =
    inr (mkInfo "acme" "widget").
Proof. apply (extractGitHubInfo_plain "acme" "widget"); done. Defined.

(** C3, the failing input.  The schema accepts the URL of a repository
    named [acme.github.io]; the decomposition removes the [.git] in the
    middle of the name. *)
Theorem inner_git_is_removed :
  exists v,
    parse (deploymentSchema Examples.urlTest) Examples.pagesRequest = inr v /\
    Validated.repositoryUrl v = "https://github.com/acme/acme.github.io" /\
    extractGitHubInfo (Validated.repositoryUrl v) = inr (mkInfo "acme" "acmehub.io").
Proof. eexists. split; [vm_compute; reflexivity|]. split; vm_compute; reflexivity. Qed.

(** A host that does not start with [http] gets the scheme, and a URL
    that starts with [https://] is left as it is. *)
Lemma normalizeUrl_bare_host host :
  Js.truthy host = true -> Js.startsWith "http" host = false ->
  normalizeUrl (Some host) = Some ("https://" +:+ host).
Proof. intros Ht Hs. unfold normalizeUrl. by rewrite Ht, Hs. Qed.

Lemma normalizeUrl_https rest :
  normalizeUrl (Some ("https://" +:+ rest)) = Some ("https://" +:+ rest).
Proof. done. Qed.

Example normalizeUrl_my_app :
  normalizeUrl (Some "my-app.vercel.app") = Some "https://my-app.vercel.app" /\
  normalizeUrl (Some "https://my-app.vercel.app") = Some "https://my-app.vercel.app".
Proof. done. Qed.

(** C4, the failing run.  The platform names the deployment by a bare
    host that starts with [http]; the response carries it as it came,
    without a scheme. *)
Theorem host_starting_with_http_stays_bare :
  result Examples.httpbinPlatform (POST Examples.urlTest (inr Examples.httpbinRequest)) =
  inr (mkResponse 200
         (Success
            (DeploymentView.mk (Some (JString "dpl_2")) (Some (JString "QUEUED"))
               (Some "httpbin-acme.vercel.app") None
               (Some (JNumber "1700000000000")) None "BUILDING"
               (Some "https://vercel.com/acme/httpbin/dpl_2"))
            None None "Deployment created successfully!")).
Proof. vm_compute. reflexivity. Qed.



(** C9, as amended.  For a validated input with a non-empty list of
    environment variables whose repository URL decomposes and whose
    create-deployment call answers with a deployment, [POST] issues
    exactly one environment-variable call; it upserts one entry per pair,
    in order, each with target [["production"]] and type ["plain"].  The
    response, with the object built from the deployment, is a success
    either way: when the call is accepted its [envVars] has [added] true,
    the length of the list as [count] and the keys as [variables]; when
    it is rejected it has [added] false and the text of the rejection. *)
Theorem env_vars_one_batch is_url (world : answers call) body v envVars info d :
  parse (deploymentSchema is_url) body = inr v ->
  Validated.envVars v = Some envVars -> envVars <> [] ->
  extractGitHubInfo (Validated.repositoryUrl v) = inr info ->
  world _ (CreateDeployment (deploymentRequest v info)) = Ok (inr d) ->
  exists entries domainResult envVarsResult,
    List.filter isCreateProjectEnv (trace world (POST is_url (inr body))) =
      [existT _ (CreateProjectEnv (Validated.projectName v) "true" entries)] /\
    map (fun e => (EnvEntry.key e, EnvEntry.value e)) entries =
      map (fun e => (EnvVar.key e, EnvVar.value e)) envVars /\
    Forall (fun e => EnvEntry.target e = ["production"] /\ EnvEntry.type e = "plain")
           entries /\
    (forall view,
        deploymentView d = inr view ->
        result world (POST is_url (inr body)) =
          inr (mkResponse 200
                 (Success view domainResult (Some envVarsResult)
                          "Deployment created successfully!"))) /\
    (forall u,
        world _ (CreateProjectEnv (Validated.projectName v) "true" entries) = inr u ->
        envVarsResult =
          EnvVarsResult.mk true (length envVars) (Some (map EnvVar.key envVars)) None) /\
    (forall e,
        world _ (CreateProjectEnv (Validated.projectName v) "true" entries) = inl e ->
        envVarsResult = EnvVarsResult.mk false 0 None (Some (rejectionText e))).
Proof.
  intros Hparse Henv Hne Hinfo Hok.
  destruct (POST_ends is_url world (inr body)) as (calls & response & Hrun & Hends).
  unfold trace, result. rewrite Hrun. simpl.
  destruct Hends as [m Hr|b e Hr Hp|b v' e Hr Hp Hi|b v' i e Hr Hp Hi Hc
                     |b v' i d' dr er Hr Hp Hi Hc Hdom Henvs];
    try discriminate Hr; injection Hr as <-;
    rewrite Hparse in Hp; try discriminate Hp; injection Hp as <-;
    rewrite Hinfo in Hi; try discriminate Hi; injection Hi as <-;
    rewrite Hok in Hc; try discriminate Hc; injection Hc as <-.
  rewrite (run_addEnvVars_called world v envVars Henv Hne) in Henvs.
  injection Henvs as Hcalls <-.
  eexists (envEntries envVars), dr, _.
  split.
  { simpl. rewrite List.filter_app, domainCalls_kind, <- Hcalls. done. }
  split; [apply envEntries_pairs|].
  split; [apply envEntries_tagged|].
  split; [intros view Hview; unfold finalResponse; by rewrite Hview|].
  split; intros ? ->; done.
Qed.

Lemma env_vars_one_batch_witness :
  exists entries domainResult envVarsResult,
    List.filter isCreateProjectEnv
      (trace Examples.envRejected (POST Examples.urlTest (inr Examples.widgetWithEnvVars))) =
      [existT _ (CreateProjectEnv "widget-prod" "true" entries)] /\
    map (fun e => (EnvEntry.key e, EnvEntry.value e)) entries =
      [("API_KEY", "x"); ("MODE", "fast")] /\
    Forall (fun e => EnvEntry.target e = ["production"] /\ EnvEntry.type e = "plain")
           entries /\
    (forall view,
        deploymentView Examples.widgetDeployment = inr view ->
        result Examples.envRejected
               (POST Examples.urlTest (inr Examples.widgetWithEnvVars)) =
          inr (mkResponse 200
                 (Success view domainResult (Some envVarsResult)
                          "Deployment created successfully!"))) /\
    (forall u,
        Examples.envRejected _ (CreateProjectEnv "widget-prod" "true" entries) = inr u ->
        envVarsResult = EnvVarsResult.mk true 2 (Some ["API_KEY"; "MODE"]) None) /\
    (forall e,
        Examples.envRejected _ (CreateProjectEnv "widget-prod" "true" entries) = inl e ->
        envVarsResult = EnvVarsResult.mk false 0 None (Some (rejectionText e))).
Proof.
  apply (env_vars_one_batch Examples.urlTest Examples.envRejected
           Examples.widgetWithEnvVars
           (Validated.mk "https://github.com/acme/widget" "alice" None None
              "widget-prod" "main" "production"
              (Some [EnvVar.mk "API_KEY" "x"; EnvVar.mk "MODE" "fast"]))
           [EnvVar.mk "API_KEY" "x"; EnvVar.mk "MODE" "fast"]
           (mkInfo "acme" "widget") Examples.widgetDeployment).
  - vm_compute. reflexivity.
  - reflexivity.
  - discriminate.
  - vm_compute. reflexivity.
  - reflexivity.
Defined.

(** C9, a run against the claim as stated: the input is validated and
    lists two environment variables, the platform is down, and no
    environment-variable call is issued. *)
Lemma no_batch_when_create_fails :
  (exists v e rest,
      parse (deploymentSchema Examples.urlTest) Examples.widgetWithEnvVars = inr v /\
      Validated.envVars v = Some (e :: rest)) /\
  List.filter isCreateProjectEnv
    (trace Examples.unavailable (POST Examples.urlTest (inr Examples.widgetWithEnvVars)))
  = [].
Proof.
  split; [|by vm_compute].
  eexists _, _, _. split; vm_compute; reflexivity.
Qed.

(** C10.  Whenever [POST] answers with a success, the [state] of its
    [deployment] is the constant ["BUILDING"], whatever the platform put
    in its own answer. *)
Theorem success_state_is_BUILDING is_url (world : answers call) request
    status deployment domain envVars message :
  result world (POST is_url request) =
    inr (mkResponse status (Success deployment domain envVars message)) ->
  DeploymentView.state deployment = "BUILDING".
Proof.
  intros Hres.
  destruct (POST_ends is_url world request) as (calls & response & Hrun & Hends).
  unfold result in Hres. rewrite Hrun in Hres. simpl in Hres.
  injection Hres as Hres.
  destruct Hends as [| | | |b v i d dr er _ _ _ _ _ _];
    try (by apply handleError_not_Success in Hres).
  unfold finalResponse in Hres.
  destruct (deploymentView d) as [e|view] eqn:Hview;
    [by apply handleError_not_Success in Hres|].
  injection Hres as _ <- _ _ _. by apply (deploymentView_state d).
Qed.

Lemma success_state_is_BUILDING_witness :
  DeploymentView.state Examples.widgetView = "BUILDING".
Proof.
  apply (success_state_is_BUILDING Examples.urlTest Examples.healthy
           (inr Examples.widgetRequest) 200 Examples.widgetView None None
           "Deployment created successfully!").
  vm_compute. reflexivity.
Defined.

End RouteTheorems.

(** ** The client validator *)
Module FormFacts.
Import Form FormSpec Chars Regex JsFacts RegexFacts.

(** The pattern of the repository URL accepts the shape
    [https://github.com/<owner>/<repo>], no more and no less. *)
Lemma repositoryPattern_shape url :
  matches repositoryPattern url = true <-> repositoryShape url.
Proof.
  rewrite matches_lang. unfold repositoryPattern, repositoryShape.
  rewrite lang_seq_iff. setoid_rewrite lang_lit_iff. setoid_rewrite lang_two_segments.
  split.
  - intros (p & t & -> & -> & owner & repo & -> & H). by exists owner, repo.
  - intros (owner & repo & -> & H).
    exists "https://github.com/", (owner +:+ "/" +:+ repo).
    split; [done|]. split; [done|]. by exists owner, repo.
Qed.

Lemma projectPattern_shape name :
  matches projectPattern name = true <-> projectNameShape name.
Proof. rewrite matches_lang. unfold projectPattern. apply lang_plus_class. Qed.

Lemma alnum_domainChar c : alnum c = true -> domainChar c = true.
Proof. unfold domainChar. by intros ->. Qed.

(** The pattern of the domain name asks for a first letter or digit and
    then accepts letters, digits and hyphens: no dot, and a hyphen may
    come last. *)
Lemma domainPattern_shape domain :
  matches domainPattern domain = true <-> domainShape domain.
Proof.
  rewrite matches_lang. unfold domainPattern, domainShape.
  rewrite lang_seq_iff. split.
  - intros (s1 & t & -> & (c & -> & Hc)%lang_class_iff & Ht).
    apply lang_seq_iff in Ht as (m & l & -> & Hm%lang_star_class & Hl%lang_star_class).
    exists c, (m +:+ l). split; [done|]. split; [done|].
    rewrite allChars_app, Hm. simpl.
    eapply allChars_weaken; [apply alnum_domainChar|done].
  - intros (c & rest & -> & Hc & Hrest).
    exists (String c ""), rest. split; [done|].
    split; [apply lang_class_iff; by exists c|].
    apply lang_seq_iff. exists rest, "".
    split; [by rewrite app_nil_r|]. split; by apply lang_star_class.
Qed.

Lemma blank_iff s : blank s = true <-> Js.trim s = "".
Proof. unfold blank. by destruct (Js.trim s). Qed.

Lemma blank_false_iff s : blank s = false <-> Js.trim s <> "".
Proof. unfold blank. by destruct (Js.trim s). Qed.

Lemma blank_allChars s : blank s = allChars Js.isWhiteSpace s.
Proof.
  destruct (allChars Js.isWhiteSpace s) eqn:Hs.
  - by apply blank_iff, trim_nil_iff.
  - apply blank_false_iff. rewrite trim_nil_iff. congruence.
Qed.

Lemma projectChar_not_space c : projectChar c = true -> Js.isWhiteSpace c = false.
Proof. destruct c as [[] [] [] [] [] [] [] []]; by vm_compute. Qed.

Lemma repositoryShape_not_blank url : repositoryShape url -> blank url = false.
Proof. intros (owner & repo & -> & _). by rewrite blank_allChars. Qed.

Lemma repositoryShape_github url :
  repositoryShape url -> Js.includes "github.com" url = true.
Proof.
  intros (owner & repo & -> & _).
  change ("https://github.com/" +:+ owner +:+ "/" +:+ repo)
    with ("https://" +:+ "github.com" +:+ ("/" +:+ owner +:+ "/" +:+ repo)).
  apply includes_app.
Qed.

Lemma projectNameShape_not_blank name : projectNameShape name -> blank name = false.
Proof.
  intros [Hne Hall]. rewrite blank_allChars.
  destruct name as [|c name]; [done|]. simpl in *.
  apply andb_true_iff in Hall as [Hc _]. by rewrite (projectChar_not_space c Hc).
Qed.

(** Each block of [validateForm] stores the message of its rule. *)
Lemma block_repositoryUrl f (e : FormErrors) :
  (if blank (FormData.repositoryUrl f)
   then <["repositoryUrl" := "Repository URL is required"]> e
   else if negb (Js.includes "github.com" (FormData.repositoryUrl f))
   then <["repositoryUrl" := "Please enter a valid GitHub repository URL"]> e
   else if negb (matches repositoryPattern (FormData.repositoryUrl f))
   then <["repositoryUrl" :=
            "Invalid format. Use: https://github.com/username/repository"]> e
   else e) = put RepositoryUrl f e.
Proof. unfold put, ruleError, ruleKey. by repeat case_match. Qed.

Lemma block_userName f (e : FormErrors) :
  (if blank (FormData.userName f)
   then <["userName" := "Username is required"]> e
   else if Nat.ltb (String.length (FormData.userName f)) 3
   then <["userName" := "Username must be at least 3 characters"]> e
   else e) = put UserName f e.
Proof. unfold put, ruleError, ruleKey. by repeat case_match. Qed.

Lemma block_password f (e : FormErrors) :
  (if Js.truthy (FormData.password f)
      && Nat.ltb (String.length (FormData.password f)) 6
   then <["password" := "Password must be at least 6 characters"]> e
   else e) = put Password f e.
Proof. unfold put, ruleError, ruleKey. by repeat case_match. Qed.

Lemma block_projectName f (e : FormErrors) :
  (if blank (FormData.projectName f)
   then <["projectName" := "Project name is required"]> e
   else if negb (matches projectPattern (FormData.projectName f))
   then <["projectName" :=
            "Only letters, numbers, hyphens, and underscores allowed"]> e
   else e) = put ProjectName f e.
Proof. unfold put, ruleError, ruleKey. by repeat case_match. Qed.

Lemma block_branch f (e : FormErrors) :
  (if blank (FormData.branch f)
   then <["branch" := "Branch is required"]> e
   else e) = put Branch f e.
Proof. unfold put, ruleError, ruleKey. by repeat case_match. Qed.

Lemma block_domainName f (e : FormErrors) :
  (if Js.truthy (FormData.domainName f)
      && negb (matches domainPattern (FormData.domainName f))
   then <["domainName" := "Invalid domain format (e.g., mydomain.com)"]> e
   else e) = put DomainName f e.
Proof. unfold put, ruleError, ruleKey. by repeat case_match. Qed.

Lemma block_envVars f (e : FormErrors) :
  (if Nat.ltb 0 (length (List.filter
                           (fun envVar => blank (EnvVar.key envVar)
                                          || blank (EnvVar.value envVar))
                           (FormData.envVars f)))
   then <["envVars" := "All environment variables must have both key and value"]> e
   else e) = put EnvVars f e.
Proof. unfold put, ruleError, ruleKey. by repeat case_match. Qed.

(** [validateForm] runs the seven blocks one after the other, each on
    the errors that the blocks before it left. *)
Lemma newErrors_blocks f :
  newErrors f =
  put EnvVars f (put DomainName f (put Branch f (put ProjectName f
    (put Password f (put UserName f (put RepositoryUrl f ∅)))))).
Proof.
  rewrite <- block_envVars, <- block_domainName, <- block_branch,
    <- block_projectName, <- block_password, <- block_userName,
    <- block_repositoryUrl.
  reflexivity.
Qed.

Lemma ruleKey_inj r r' : ruleKey r = ruleKey r' -> r = r'.
Proof. by destruct r, r'. Qed.

Lemma lookup_put_eq r f (e : FormErrors) :
  put r f e !! ruleKey r =
  match ruleError r f with Some m => Some m | None => e !! ruleKey r end.
Proof.
  unfold put. destruct (ruleError r f) as [m|]; [|done]. apply lookup_insert_eq.
Qed.

Lemma lookup_put_ne r f (e : FormErrors) k :
  k <> ruleKey r -> put r f e !! k = e !! k.
Proof.
  intros Hk. unfold put. destruct (ruleError r f) as [m|]; [|done].
  by apply lookup_insert_ne.
Qed.

(** The entry of a rule's key is the message of that rule's block. *)
Lemma lookup_newErrors f r : newErrors f !! ruleKey r = ruleError r f.
Proof.
  rewrite newErrors_blocks.
  destruct r;
    repeat (rewrite lookup_put_ne by done);
    rewrite lookup_put_eq;
    repeat (rewrite lookup_put_ne by done);
    rewrite lookup_empty;
    match goal with |- context [ruleError ?r f] => by destruct (ruleError r f) end.
Qed.

(** No other key is ever set. *)
Lemma newErrors_keys f k :
  is_Some (newErrors f !! k) -> exists r, k = ruleKey r.
Proof.
  intros Hk.
  destruct (decide (k = ruleKey RepositoryUrl)); [eauto|].
  destruct (decide (k = ruleKey UserName)); [eauto|].
  destruct (decide (k = ruleKey Password)); [eauto|].
  destruct (decide (k = ruleKey ProjectName)); [eauto|].
  destruct (decide (k = ruleKey Branch)); [eauto|].
  destruct (decide (k = ruleKey DomainName)); [eauto|].
  destruct (decide (k = ruleKey EnvVars)); [eauto|].
  rewrite newErrors_blocks in Hk.
  rewrite !lookup_put_ne, lookup_empty in Hk by done.
  by destruct Hk.
Qed.

Lemma envVars_filter_nil (l : list EnvVar.t) :
  Nat.ltb 0 (length (List.filter
                       (fun envVar => blank (EnvVar.key envVar)
                                      || blank (EnvVar.value envVar)) l)) = false <->
  Forall (fun envVar => Js.trim (EnvVar.key envVar) <> "" /\
                        Js.trim (EnvVar.value envVar) <> "") l.
Proof.
  induction l as [|e l IH]; simpl.
  - split; [constructor|done].
  - rewrite Forall_cons, <- IH, <- !blank_false_iff.
    destruct (blank (EnvVar.key e)), (blank (EnvVar.value e)); simpl;
      split; try done; by intros [[? ?] ?].
Qed.

(** A block stores no message exactly when its rule holds. *)
Lemma ruleError_None_iff r f : ruleError r f = None <-> holds r f.
Proof.
  destruct r; simpl.
  - rewrite <- repositoryPattern_shape. split.
    + repeat case_match; try done. intros _. by apply negb_false_iff.
    + intros H. pose proof H as Hs%repositoryPattern_shape.
      by rewrite (repositoryShape_not_blank _ Hs), (repositoryShape_github _ Hs), H.
  - rewrite <- blank_false_iff. destruct (blank (FormData.userName f)).
    { split; [done|by intros [? _]]. }
    destruct (Nat.ltb_spec (String.length (FormData.userName f)) 3) as [Hlt|Hge].
    + split; [done|]. intros [_ ?]. lia.
    + split; [|done]. intros _. split; [done|lia].
  - destruct (FormData.password f) as [|c p] eqn:Hp; simpl.
    { split; [by left|done]. }
    destruct (Nat.ltb_spec (S (String.length p)) 6) as [Hlt|Hge].
    + split; [done|]. intros [?|?]; [done|lia].
    + split; [|done]. intros _. by right.
  - rewrite <- projectPattern_shape. split.
    + repeat case_match; try done. intros _. by apply negb_false_iff.
    + intros H. pose proof H as Hs%projectPattern_shape.
      by rewrite (projectNameShape_not_blank _ Hs), H.
  - rewrite <- blank_false_iff. by destruct (blank (FormData.branch f)).
  - rewrite <- domainPattern_shape.
    destruct (FormData.domainName f) as [|c d] eqn:Hd; simpl.
    { split; [by left|done]. }
    destruct (matches _ _); simpl.
    + split; [|done]. intros _. by right.
    + split; [done|]. by intros [?|?].
  - rewrite <- envVars_filter_nil. by case_match.
Qed.

Lemma ruleError_Some_iff r f : is_Some (ruleError r f) <-> ~ holds r f.
Proof.
  rewrite <- ruleError_None_iff. destruct (ruleError r f) as [m|].
  - split; [done|]. intros _. by exists m.
  - split; [by intros [? ?]|]. intros H. by destruct H.
Qed.

(** A key is flagged exactly when it is the key of a violated rule. *)
Lemma newErrors_flagged_iff f k :
  is_Some (newErrors f !! k) <-> exists r, k = ruleKey r /\ ~ holds r f.
Proof.
  split.
  - intros Hk. destruct (newErrors_keys f k Hk) as [r ->].
    exists r. split; [done|]. by rewrite <- ruleError_Some_iff, <- lookup_newErrors.
  - intros (r & -> & Hr). by rewrite lookup_newErrors, ruleError_Some_iff.
Qed.

Lemma newErrors_empty f : (forall r, holds r f) -> newErrors f = ∅.
Proof.
  intros Hall. apply map_empty. intros k. apply eq_None_not_Some.
  rewrite newErrors_flagged_iff. intros (r & _ & Hr). by apply Hr.
Qed.

Lemma newErrors_single f r :
  ~ holds r f -> (forall r', r' <> r -> holds r' f) ->
  dom (newErrors f) = {[ruleKey r]}.
Proof.
  intros Hr Hothers. apply set_eq. intros k.
  rewrite elem_of_dom, newErrors_flagged_iff, elem_of_singleton. split.
  - intros (r0 & -> & Hr0). destruct (decide (r0 = r)) as [->|Hne]; [done|].
    destruct Hr0. by apply Hothers.
  - intros ->. by exists r.
Qed.

(** [validateForm] answers [true] exactly when it stored no error. *)
Lemma validateForm_true_iff st :
  snd (validateForm st) = true <-> newErrors (formData st) = ∅.
Proof. unfold validateForm. simpl. rewrite Nat.eqb_eq. apply map_size_empty_iff. Qed.

Lemma validateForm_errors st :
  errors (fst (validateForm st)) = newErrors (formData st).
Proof. done. Qed.

End FormFacts.

(** ** The form: validation, editing, submission *)
Module FormTheorems.
Import Io Form FormSpec FormFacts.




(** C6.  When the validator stores at least one error, [handleSubmit]
    ends at once: it issues no call at all, so no request to the route,
    and leaves the errors, the status [error] and the message that asks
    to fix them. *)
Theorem invalid_form_is_not_submitted (world : answers call) st :
  newErrors (formData st) <> ∅ ->
  run world (handleSubmit st) =
  ([], inr (mkState (formData st) (newErrors (formData st)) (isSubmitting st) error
                    "Please fix the errors above and try again."
                    (deploymentResult st))).
Proof.
  intros Hne. unfold handleSubmit.
  pose proof (validateForm_true_iff st) as Hv.
  destruct (validateForm st) as [st' valid] eqn:Hvf.
  unfold validateForm in Hvf. injection Hvf as <- <-.
  simpl in Hv. destruct (Nat.eqb _ 0) eqn:Hsz.
  - destruct Hne. by apply Hv.
  - done.
Qed.

Lemma invalid_form_is_not_submitted_witness :
  run (browser None) (handleSubmit (mkState missingKeyForm ∅ false idle "" None)) =
  ([], inr (mkState missingKeyForm (newErrors missingKeyForm) false error
                    "Please fix the errors above and try again." None)).
Proof.
  apply (invalid_form_is_not_submitted (browser None)
           (mkState missingKeyForm ∅ false idle "" None)).
  vm_compute. discriminate.
Defined.

(** The round trip of the specification: with a second entry that has
    no key, the only error is the aggregate one of [envVars], and the
    submission issues no call. *)
Example env_var_round_trip :
  dom (newErrors missingKeyForm) = {["envVars"]} /\
  newErrors missingKeyForm !! "envVars" =
    Some "All environment variables must have both key and value" /\
  trace (browser None) (handleSubmit (mkState missingKeyForm ∅ false idle "" None)) = [].
Proof.
  split; [|split; by vm_compute].
  apply (newErrors_single missingKeyForm EnvVars).
  - apply ruleError_Some_iff. vm_compute. by eexists.
  - intros r Hr. apply ruleError_None_iff.
    destruct r; try (vm_compute; reflexivity). by destruct Hr.
Qed.

(** A form without errors is sent: the first call is the one request to
    the route, with the form as its body. *)
Lemma valid_form_is_submitted (world : answers call) st :
  newErrors (formData st) = ∅ ->
  exists rest,
    trace world (handleSubmit st) =
      existT _ (Fetch "/api/deploy" "POST" (formData st)) :: rest /\
    List.filter isFetch rest = [].
Proof.
  intros He. unfold trace, handleSubmit.
  pose proof (validateForm_true_iff st) as Hv.
  destruct (validateForm st) as [st' valid] eqn:Hvf.
  unfold validateForm in Hvf. injection Hvf as <- <-.
  simpl in Hv. apply Hv in He. rewrite He. simpl.
  destruct (world _ _) as [[d dom ev m|e details|e m]|]; simpl;
    try (destruct (successHtml d dom ev); simpl);
    try (eexists; split; [reflexivity|done]).
  unfold failureDialog.
  repeat match goal with |- context [if ?b then _ else _] => destruct b end;
    simpl; eexists; split; try reflexivity; done.
Qed.

(** Editing a field whose error is set removes the entry of that field
    and no other. *)
Lemma handleInputChange_clears field v st message :
  errors st !! fieldKey field = Some message -> Js.truthy message = true ->
  errors (handleInputChange field v st) = delete (fieldKey field) (errors st).
Proof.
  intros Hm Ht. unfold handleInputChange. simpl. by rewrite Hm, Ht.
Qed.

Lemma handleInputChange_frame field v st k :
  k <> fieldKey field ->
  errors (handleInputChange field v st) !! k = errors st !! k.
Proof.
  intros Hk. unfold handleInputChange. simpl.
  destruct (errors st !! fieldKey field) as [m|]; [|done].
  destruct (Js.truthy m); [|done]. simpl. by apply lookup_delete_ne.
Qed.

Lemma handleInputChange_removes field v st message :
  errors st !! fieldKey field = Some message -> Js.truthy message = true ->
  errors (handleInputChange field v st) !! fieldKey field = None.
Proof.
  intros Hm Ht. rewrite (handleInputChange_clears _ _ _ _ Hm Ht).
  apply lookup_delete_eq.
Qed.

(** Editing one of the six text fields whose error is set stores the new
    value, removes the entry of that field from the errors and leaves
    every other entry as it was. *)
Theorem edit_clears_exactly_its_error field v st message :
  errors st !! fieldKey field = Some message -> Js.truthy message = true ->
  formData (handleInputChange field v st) = setField field v (formData st) /\
  errors (handleInputChange field v st) !! fieldKey field = None /\
  (forall k, k <> fieldKey field ->
             errors (handleInputChange field v st) !! k = errors st !! k).
Proof.
  intros Hm Ht. split; [|split].
  - unfold handleInputChange. simpl. by rewrite Hm, Ht.
  - by eapply handleInputChange_removes.
  - intros k Hk. by apply handleInputChange_frame.
Qed.

Lemma edit_clears_exactly_its_error_witness :
  formData (handleInputChange branch "main" noBranchState) =
    setField branch "main" noBranchForm /\
  errors (handleInputChange branch "main" noBranchState) !! "branch" = None /\
  (forall k, k <> "branch" ->
             errors (handleInputChange branch "main" noBranchState) !! k =
             errors noBranchState !! k).
Proof.
  apply (edit_clears_exactly_its_error branch "main" noBranchState "Branch is required").
  - vm_compute. reflexivity.
  - reflexivity.
Defined.

(** No handler of the environment-variable list touches the errors. *)
Lemma updateEnvVar_errors index field v st :
  errors (updateEnvVar index field v st) = errors st.
Proof. done. Qed.

Lemma addEnvVar_errors st : errors (addEnvVar st) = errors st.
Proof. done. Qed.

Lemma removeEnvVar_errors index st : errors (removeEnvVar index st) = errors st.
Proof. done. Qed.

(** C8, the failing edit.  Validation has flagged [envVars] because the
    second entry has no key; the user types the key; the form is now
    free of violations and the entry of [envVars] is still there. *)
Theorem env_var_edit_keeps_error :
  errors flaggedState !! "envVars" =
    Some "All environment variables must have both key and value" /\
  newErrors (formData (updateEnvVar 1 key "MODE" flaggedState)) = ∅ /\
  errors (updateEnvVar 1 key "MODE" flaggedState) !! "envVars" =
    Some "All environment variables must have both key and value".
Proof.
  assert (errors flaggedState !! "envVars" =
          Some "All environment variables must have both key and value") as H.
  { exact (lookup_newErrors missingKeyForm EnvVars). }
  split; [done|]. split; [|by rewrite updateEnvVar_errors].
  apply newErrors_empty.
  intros r. apply ruleError_None_iff. destruct r; vm_compute; reflexivity.
Qed.

End FormTheorems.

(** ** The request schema *)
Module SchemaFacts.
Import Json Route SchemaSpec.

Lemma clean_ok {A} (a b : A) : clean (Zod.ok a) b <-> b = a.
Proof. unfold clean, Zod.ok. simpl. split; [by intros [_ [= ->]]|by intros ->]. Qed.

Lemma clean_abort {A} msg (a : A) : clean (Zod.abort msg) a <-> False.
Proof. unfold clean, Zod.abort. simpl. split; [by intros [? _]|done]. Qed.

Lemma clean_ap {A B} (f : Zod.outcome (A -> B)) (x : Zod.outcome A) (b : B) :
  clean (Zod.ap f x) b <-> exists g a, clean f g /\ clean x a /\ b = g a.
Proof.
  unfold clean, Zod.ap. simpl. split.
  - intros [[Hf Hx]%app_eq_nil Hv].
    destruct (Zod.value f) as [g|]; [|done]. destruct (Zod.value x) as [a|]; [|done].
    injection Hv as <-. by exists g, a.
  - intros (g & a & [-> ->] & [-> ->] & ->). done.
Qed.

Lemma clean_under {A} k (o : Zod.outcome A) a : clean (Zod.under k o) a <-> clean o a.
Proof.
  unfold clean, Zod.under. simpl. split; intros [Hi Hv]; split; try done.
  - by destruct (Zod.issues o).
  - by rewrite Hi.
Qed.

Lemma clean_string input s : clean (Zod.z_string input) s <-> input = Some (JString s).
Proof.
  unfold Zod.z_string.
  destruct input as [[]|]; rewrite ?clean_abort, ?clean_ok; split; try done; congruence.
Qed.

Lemma clean_check {A} (test : A -> bool) msg (inner : Zod.Schema A) input a :
  clean (Zod.z_check test msg inner input) a <-> clean (inner input) a /\ test a = true.
Proof.
  unfold Zod.z_check, clean.
  destruct (Zod.value (inner input)) as [a'|] eqn:Hv.
  - destruct (test a') eqn:Ht; simpl.
    + rewrite Hv. split; [intros [? [= <-]]; done|by intros [[? ?] _]].
    + split.
      * intros [Hi _]. by apply app_eq_nil in Hi as [_ ?].
      * intros [[_ [= <-]] ?]. congruence.
  - rewrite Hv. split; [by intros [_ ?]|by intros [[_ ?] _]].
Qed.

Lemma clean_optional {A} (inner : Zod.Schema A) input o :
  clean (Zod.z_optional inner input) o <->
  (input = None /\ o = None) \/
  (exists a, input <> None /\ clean (inner input) a /\ o = Some a).
Proof.
  unfold Zod.z_optional. destruct input as [j|].
  - unfold clean. simpl. split.
    + intros [Hi Hv]. right.
      destruct (Zod.value (inner (Some j))) as [a|]; [|done].
      injection Hv as <-. by exists a.
    + intros [[? _]|(a & _ & [Hi Hv] & ->)]; [done|]. by rewrite Hi, Hv.
  - rewrite clean_ok. split.
    + intros ->. by left.
    + intros [[_ ->]|(a & ? & _)]; done.
Qed.

Lemma clean_default {A} d (inner : Zod.Schema A) input a :
  clean (Zod.z_default d inner input) a <->
  (input = None /\ clean (inner (Some d)) a) \/
  (input <> None /\ clean (inner input) a).
Proof.
  unfold Zod.z_default. destruct input as [j|]; split.
  - by right.
  - by intros [[? _]|[_ ?]].
  - by left.
  - by intros [[_ ?]|[? _]].
Qed.

Lemma clean_enum values input s :
  clean (Zod.z_enum values input) s <->
  input = Some (JString s) /\ In s values.
Proof.
  unfold Zod.z_enum.
  destruct input as [[| | |s'| |]|]; rewrite ?clean_abort;
    try (split; [done|by intros [? _]]).
  destruct (existsb (String.eqb s') values) eqn:He.
  - rewrite clean_ok. apply existsb_exists in He as (x & Hx & ->%String.eqb_eq).
    split; [by intros ->|by intros [[= ->] _]].
  - rewrite clean_abort. split; [done|]. intros [[= ->] Hin].
    assert (existsb (String.eqb s) values = true) as Ht; [|congruence].
    apply existsb_exists. exists s. split; [done|apply String.eqb_refl].
Qed.

Lemma clean_parse_items {A} (elem : Zod.Schema A) index items l :
  clean (Zod.parse_items elem index items) l <->
  Forall2 (fun item a => clean (elem (Some item)) a) items l.
Proof.
  revert index l. induction items as [|item items IH]; intros index l; simpl.
  - rewrite clean_ok. split; [intros ->; constructor|by inversion 1].
  - rewrite clean_ap. split.
    + intros (g & tl & (h & a & ->%clean_ok & Ha%clean_under & ->)%clean_ap
                & Htl%IH & ->).
      by constructor.
    + inversion 1 as [|? a ? tl Ha Htl]; subst.
      exists (cons a), tl. split; [|split; [by apply IH|done]].
      apply clean_ap. exists cons, a. split; [by apply clean_ok|].
      split; [by apply clean_under|done].
Qed.

Lemma clean_array {A} (elem : Zod.Schema A) input l :
  clean (Zod.z_array elem input) l <->
  exists items, input = Some (JArray items) /\
                Forall2 (fun item a => clean (elem (Some item)) a) items l.
Proof.
  unfold Zod.z_array.
  destruct input as [[| | | |items|]|]; rewrite ?clean_abort;
    try (split; [done|by intros (? & ? & _)]).
  rewrite clean_parse_items. split; [by exists items|by intros (? & [= <-] & ?)].
Qed.

Lemma clean_object {A} (shape : list (string * json) -> Zod.outcome A) input a :
  clean (Zod.z_object shape input) a <->
  exists fields, input = Some (JObject fields) /\ clean (shape fields) a.
Proof.
  unfold Zod.z_object.
  destruct input as [[| | | | |fields]|]; rewrite ?clean_abort;
    try (split; [done|by intros (? & ? & _)]).
  split; [by exists fields|by intros (? & [= <-] & ?)].
Qed.

Lemma clean_field {A} k (schema : Zod.Schema A) fields a :
  clean (Zod.field k schema fields) a <-> clean (schema (lookup_field k fields)) a.
Proof. unfold Zod.field. apply clean_under. Qed.

Lemma clean_min n msg input s :
  clean (Zod.z_min n msg Zod.z_string input) s <->
  input = Some (JString s) /\ n <= String.length s.
Proof.
  unfold Zod.z_min. rewrite clean_check, clean_string, Nat.leb_le. done.
Qed.

(** [parse] returns the value exactly when the schema leaves no issue. *)
Lemma parse_clean {A} (schema : Zod.Schema A) data a :
  parse schema data = inr a <-> clean (schema (Some data)) a.
Proof.
  unfold parse, clean.
  destruct (Zod.issues (schema (Some data))) as [|i rest].
  - destruct (Zod.value (schema (Some data))) as [a'|].
    + split; [by intros [= ->]|by intros [_ [= ->]]].
    + split; [done|by intros [_ ?]].
  - split; [done|by intros [? _]].
Qed.

(** [parse] throws nothing but a validation error. *)
Lemma parse_throws {A} (schema : Zod.Schema A) data e :
  parse schema data = inl e -> exists issues, e = Io.ZodError issues.
Proof.
  unfold parse.
  destruct (Zod.issues (schema (Some data))) as [|i rest].
  - destruct (Zod.value (schema (Some data))); [done|]. intros [= <-]. eauto.
  - intros [= <-]. eauto.
Qed.

Lemma length_pos_iff (s : string) : 1 <= String.length s <-> s <> "".
Proof. destruct s; simpl; split; try done; lia. Qed.

Lemma clean_envVar item e :
  clean (envVarSchema (Some item)) e <-> envVarItem item e.
Proof.
  unfold envVarSchema, envVarItem.
  rewrite clean_object. split.
  - intros (fields & [= ->] & H). exists fields. split; [done|].
    apply clean_ap in H as (g & v & H & Hv & ->).
    apply clean_ap in H as (h & k & ->%clean_ok & Hk & ->).
    apply clean_field, clean_min in Hk as [Hk Hkn%length_pos_iff].
    apply clean_field, clean_min in Hv as [Hv Hvn%length_pos_iff].
    done.
  - intros (fields & -> & Hk & Hk' & Hv & Hv'). exists fields. split; [done|].
    destruct e as [k v]. simpl in *.
    apply clean_ap. exists (EnvVar.mk k), v. split; [|split; [|done]].
    + apply clean_ap. exists EnvVar.mk, k. split; [by apply clean_ok|].
      split; [|done]. apply clean_field, clean_min. by rewrite length_pos_iff.
    + apply clean_field, clean_min. by rewrite length_pos_iff.
Qed.

Lemma clean_repositoryUrl is_url input s :
  clean (Zod.z_refine (Js.includes "github.com") "Only GitHub repositories are supported"
           (Zod.z_check is_url "Invalid repository URL" Zod.z_string) input) s <->
  input = Some (JString s) /\ is_url s = true /\ Js.includes "github.com" s = true.
Proof.
  unfold Zod.z_refine. rewrite !clean_check, clean_string.
  split; [by intros [[? ?] ?]|by intros (? & ? & ?)].
Qed.

Lemma clean_required msg input s :
  clean (Zod.z_min 1 msg Zod.z_string input) s <-> input = Some (JString s) /\ s <> "".
Proof. by rewrite clean_min, length_pos_iff. Qed.

Lemma clean_optionalString input o :
  clean (Zod.z_optional Zod.z_string input) o <-> optionalString input o.
Proof.
  rewrite clean_optional. unfold optionalString. split.
  - intros [?|(s & _ & ->%clean_string & ->)]; [by left|]. right. by exists s.
  - intros [?|(s & -> & ->)]; [by left|]. right. exists s.
    split; [done|]. split; [by apply clean_string|done].
Qed.

Lemma clean_branch input b :
  clean (Zod.z_default (JString "main")
           (Zod.z_min 1 "Branch is required" Zod.z_string) input) b <->
  (input = None /\ b = "main") \/ (input = Some (JString b) /\ b <> "").
Proof.
  rewrite clean_default, !clean_required. split.
  - intros [[-> [[= <-] _]]|[_ ?]]; [by left|by right].
  - intros [[-> ->]|[-> ?]]; [by left|by right].
Qed.

Lemma clean_target input t :
  clean (Zod.z_default (JString "production")
           (Zod.z_enum ["production"; "preview"]) input) t <->
  (input = None /\ t = "production") \/
  (input = Some (JString t) /\ (t = "production" \/ t = "preview")).
Proof.
  rewrite clean_default, !clean_enum. simpl. split.
  - intros [[-> [[= <-] _]] | [_ [-> [<- | [<- | []]]]]]; [by left|right..]; auto.
  - intros [[-> ->] | [-> [-> | ->]]]; [left|right..]; auto.
Qed.

Lemma clean_envVars input o :
  clean (Zod.z_default (JArray []) (Zod.z_optional (Zod.z_array envVarSchema)) input) o <->
  (input = None /\ o = Some []) \/
  (exists items envVars,
      input = Some (JArray items) /\ o = Some envVars /\
      Forall2 envVarItem items envVars).
Proof.
  assert (forall i l, clean (Zod.z_array envVarSchema i) l <->
                      exists items, i = Some (JArray items) /\
                                    Forall2 envVarItem items l) as Harr.
  { intros i l. rewrite clean_array. split; intros (items & -> & H); exists items;
      (split; [done|]); eapply Forall2_impl; try apply H;
      intros item e; by rewrite clean_envVar. }
  rewrite clean_default, !clean_optional. setoid_rewrite Harr. split.
  - intros [[-> [[? _]|(l & _ & (items & [= <-] & H) & ->)]]
           |[Hin [[? _]|(l & _ & (items & -> & H) & ->)]]]; try done.
    + left. by inversion H.
    + right. by exists items, l.
  - intros [[-> ->]|(items & l & -> & -> & H)].
    + left. split; [done|]. right. exists []. split; [done|].
      split; [|done]. exists []. split; [done|constructor].
    + right. split; [done|]. right. exists l. split; [done|].
      split; [|done]. by exists items.
Qed.

(** The schema accepts a body exactly when the body meets [accepted],
    and then yields the validated data that [accepted] describes. *)
Lemma parse_accepted is_url body v :
  parse (deploymentSchema is_url) body = inr v <-> accepted is_url body v.
Proof.
  rewrite parse_clean. unfold deploymentSchema, accepted.
  rewrite clean_object. split.
  - intros (fields & [= ->] & H). exists fields. split; [done|].
    apply clean_ap in H as (g8 & envVars & H & He & ->).
    apply clean_ap in H as (g7 & target & H & Ht & ->).
    apply clean_ap in H as (g6 & branch & H & Hb & ->).
    apply clean_ap in H as (g5 & projectName & H & Hp & ->).
    apply clean_ap in H as (g4 & domainName & H & Hd & ->).
    apply clean_ap in H as (g3 & password & H & Hw & ->).
    apply clean_ap in H as (g2 & userName & H & Hu & ->).
    apply clean_ap in H as (g1 & url & ->%clean_ok & Hr & ->).
    apply clean_field, clean_repositoryUrl in Hr.
    apply clean_field, clean_required in Hu, Hp.
    apply clean_field, clean_optionalString in Hw, Hd.
    apply clean_field, clean_branch in Hb.
    apply clean_field, clean_target in Ht.
    apply clean_field, clean_envVars in He.
    simpl. done.
  - intros (fields & -> & Hr & Hu & Hw & Hd & Hp & Hb & Ht & He).
    exists fields. split; [done|]. destruct v; simpl in *.
    repeat (apply clean_ap; eexists _, _; split; [|split; [|reflexivity]]).
    + by apply clean_ok.
    + by apply clean_field, clean_repositoryUrl.
    + by apply clean_field, clean_required.
    + by apply clean_field, clean_optionalString.
    + by apply clean_field, clean_optionalString.
    + by apply clean_field, clean_required.
    + by apply clean_field, clean_branch.
    + by apply clean_field, clean_target.
    + by apply clean_field, clean_envVars.
Qed.

End SchemaFacts.

Module SchemaTheorems.
Import Json Route SchemaSpec SchemaFacts.

Lemma trim_nonempty s : Js.trim s <> "" -> s <> "".
Proof. by intros H ->. Qed.

(** A form without client errors satisfies every rule. *)
Lemma no_errors_holds f r : Form.newErrors f = ∅ -> FormSpec.holds r f.
Proof.
  intros He. apply FormFacts.ruleError_None_iff.
  by rewrite <- FormFacts.lookup_newErrors, He.
Qed.

Lemma envVarItems_of_form (l : list Form.EnvVar.t) :
  Forall (fun e => Js.trim (Form.EnvVar.key e) <> "" /\ Js.trim (Form.EnvVar.value e) <> "") l ->
  Forall2 envVarItem
    (map (fun e => JObject [("key", JString (Form.EnvVar.key e));
                            ("value", JString (Form.EnvVar.value e))]) l)
    (map (fun e => EnvVar.mk (Form.EnvVar.key e) (Form.EnvVar.value e)) l).
Proof.
  induction 1 as [|e l [Hk Hv] _ IH]; simpl; constructor; [|done].
  eexists. split; [reflexivity|]. simpl.
  repeat split; try done; by apply trim_nonempty.
Qed.

(** What the client validator passes, the schema accepts, provided the
    URL passes the URL test. *)
Lemma client_valid_accepted is_url f :
  Form.newErrors f = ∅ ->
  is_url (Form.FormData.repositoryUrl f) = true ->
  accepted is_url (requestBody f) (validatedForm f).
Proof.
  intros He Hu.
  pose proof (no_errors_holds f FormSpec.RepositoryUrl He) as Hurl.
  pose proof (no_errors_holds f FormSpec.UserName He) as [Hn1 Hn2].
  pose proof (no_errors_holds f FormSpec.ProjectName He) as [Hp _].
  pose proof (no_errors_holds f FormSpec.Branch He) as Hb.
  pose proof (no_errors_holds f FormSpec.EnvVars He) as Henv.
  simpl in *.
  eexists. split; [reflexivity|]. simpl.
  split; [by split; [|split; [|apply FormFacts.repositoryShape_github]]|].
  split; [split; [done|by apply trim_nonempty]|].
  split; [right; by eexists|]. split; [right; by eexists|].
  split; [done|].
  split; [right; split; [done|by apply trim_nonempty]|].
  split; [right; split; [done|destruct (Form.FormData.target f); auto]|].
  right. eexists _, _. split; [done|]. split; [done|].
  by apply envVarItems_of_form.
Qed.

(** C1, as amended.  The schema accepts a request body exactly when it
    is an object whose [repositoryUrl] is a string that passes the URL
    test and includes [github.com], whose [userName] and [projectName]
    are non-empty strings, whose [password] and [domainName] are absent
    or strings, whose [branch] is absent or a non-empty string, whose
    [target] is absent or one of [production] and [preview], and whose
    [envVars] is absent or an array of objects with non-empty string
    [key] and [value]; an absent [branch] reads ["main"], an absent
    [target] ["production"], an absent [envVars] the empty list.  It
    accepts every form the client validator passes, when the URL of the
    form passes the URL test. *)
Theorem schema_contract is_url :
  (forall body v,
      parse (deploymentSchema is_url) body = inr v <-> accepted is_url body v) /\
  (forall fields v,
      parse (deploymentSchema is_url) (JObject fields) = inr v ->
      (lookup_field "branch" fields = None -> Validated.branch v = "main") /\
      (lookup_field "target" fields = None -> Validated.target v = "production") /\
      (lookup_field "envVars" fields = None -> Validated.envVars v = Some [])) /\
  (forall f,
      Form.newErrors f = ∅ ->
      is_url (Form.FormData.repositoryUrl f) = true ->
      parse (deploymentSchema is_url) (requestBody f) = inr (validatedForm f)).
Proof.
  split; [apply parse_accepted|]. split.
  - intros fields v (fs & [= <-] & _ & _ & _ & _ & _ & Hb & Ht & He)%parse_accepted.
    split; [|split]; intros Hnone.
    + destruct Hb as [[_ ?]|[Hb _]]; [done|congruence].
    + destruct Ht as [[_ ?]|[Ht _]]; [done|congruence].
    + destruct He as [[_ ?]|(? & ? & He & _)]; [done|congruence].
  - intros f He Hu. by apply parse_accepted, client_valid_accepted.
Qed.

Lemma schema_contract_witness :
  parse (deploymentSchema Examples.urlTest) (requestBody FormSpec.widgetForm) =
  inr (validatedForm FormSpec.widgetForm).
Proof.
  apply (proj2 (proj2 (schema_contract Examples.urlTest)) FormSpec.widgetForm).
  - apply FormFacts.newErrors_empty.
    intros r. apply FormFacts.ruleError_None_iff. destruct r; vm_compute; reflexivity.
  - reflexivity.
Defined.

(** C1, a body against the claim as stated.  Its user name has two
    characters: the client validator flags it, and the schema accepts
    the body, whatever the URL test, as long as it passes the URL of the
    example. *)
Lemma short_user_name_is_accepted :
  String.length (Form.FormData.userName shortNameForm) = 2 /\
  Form.newErrors shortNameForm !! "userName" =
    Some "Username must be at least 3 characters" /\
  (forall is_url,
      is_url "https://github.com/acme/widget" = true ->
      parse (deploymentSchema is_url) (requestBody shortNameForm) =
        inr (validatedForm shortNameForm)).
Proof.
  split; [done|].
  split; [exact (FormFacts.lookup_newErrors shortNameForm FormSpec.UserName)|].
  intros is_url Hu. apply parse_accepted.
  eexists. split; [reflexivity|]. simpl.
  split; [by split; [|split]|].
  split; [done|].
  split; [right; by eexists|]. split; [right; by eexists|].
  split; [done|]. split; [by right|]. split; [right; auto|].
  right. eexists _, _. split; [done|]. split; [done|]. constructor.
Qed.

End SchemaTheorems.

(** ** More on the route: what every run does and never does *)
Module RouteExtras.
Import Json Io Route RouteSpec RouteFacts.

#[local] Arguments handleError : simpl never.
#[local] Arguments deploymentRequest : simpl never.
#[local] Arguments deploymentView : simpl never.

Lemma classifyMessage_status error :
  In (httpStatus (classifyMessage error)) [400; 403; 500]%Z.
Proof.
  unfold classifyMessage, errorResponse.
  destruct (messageOf error) as [m|]; simpl; [|tauto].
  repeat match goal with |- context [if ?b then _ else _] => destruct b end;
    simpl; tauto.
Qed.

Lemma handleError_no_status error :
  statusOf error = None -> In (httpStatus (handleError error)) [400; 403; 500]%Z.
Proof.
  unfold handleError. destruct error as [issues|status message|text].
  - simpl. tauto.
  - simpl statusOf. intros ->. apply classifyMessage_status.
  - intros _. apply classifyMessage_status.
Qed.

Lemma createError_no_status answer e : createError answer = Some e -> statusOf e = None.
Proof. destruct answer as [m|s [m|j]|[m|d]]; simpl; intros [= <-]; done. Qed.

Lemma extractGitHubInfo_no_status url e :
  extractGitHubInfo url = inl e -> statusOf e = None.
Proof.
  unfold extractGitHubInfo. destruct (matchGithub url) as [[o r]|]; [done|].
  by intros [= <-].
Qed.

(** No error that reaches the [catch] clause of [POST] carries a status:
    the branches on [status] never fire. *)
Lemma ends_status is_url world request calls response :
  ends is_url world request calls response ->
  In (httpStatus response) [200; 400; 403; 500]%Z /\
  (success (body response) = true <-> httpStatus response = 200%Z).
Proof.
  assert (forall e, statusOf e = None ->
            In (httpStatus (handleError e)) [200; 400; 403; 500]%Z /\
            (success (body (handleError e)) = true <->
             httpStatus (handleError e) = 200%Z)) as Herr.
  { intros e He. pose proof (handleError_no_status e He) as Hs.
    pose proof (RouteTheorems.handleError_fails e) as Hf.
    split; [by right|]. rewrite Hf. split; [done|].
    intros H200. rewrite H200 in Hs. simpl in Hs.
    destruct Hs as [?|[?|[?|[]]]]; done. }
  intros [m _|b e _ Hp|b v e _ _ Hi|b v i e _ _ _ Hc|b v i d dr er _ _ _ _ _ _].
  - by apply Herr.
  - apply Herr. destruct (SchemaFacts.parse_throws _ _ _ Hp) as [issues ->]. done.
  - apply Herr. by eapply extractGitHubInfo_no_status.
  - apply Herr. by eapply createError_no_status.
  - unfold finalResponse. destruct (deploymentView d) as [e|view] eqn:Hview.
    + apply Herr. by destruct (deploymentView_inl d e Hview) as (m & -> & _).
    + simpl. split; [by left|done].
Qed.

(** Every run of [POST] answers with a response; its status is 200, 400,
    403 or 500, never 401 or 404, and it is 200 exactly when the body
    reports a success. *)
Theorem POST_answers is_url (world : answers call) request :
  exists response,
    result world (POST is_url request) = inr response /\
    In (httpStatus response) [200; 400; 403; 500]%Z /\
    (success (body response) = true <-> httpStatus response = 200%Z).
Proof.
  destruct (POST_ends is_url world request) as (calls & response & Hrun & Hends).
  exists response. unfold result. rewrite Hrun. split; [done|].
  by eapply ends_status.
Qed.

Lemma domainCalls_shape v :
  length (domainCalls v) <= 1 /\ forallb isAddProjectDomain (domainCalls v) = true.
Proof.
  unfold domainCalls. destruct (Validated.domainName v) as [d|]; simpl; [|lia].
  destruct (Js.truthy d); simpl; split; done || lia.
Qed.

Lemma envCalls_shape v :
  length (envCalls v) <= 1 /\ forallb isCreateProjectEnv (envCalls v) = true.
Proof.
  unfold envCalls. destruct (Validated.envVars v) as [[|e rest]|]; simpl; split;
    done || lia.
Qed.

(** The calls of a run follow the pipeline: nothing; or one
    create-deployment call alone, when it did not answer with a status
    of success and a JSON body; or, when it did, whatever the value of
    that body, the create-deployment call, then at most one domain call,
    then at most one environment-variable call. *)
Theorem calls_follow_the_pipeline is_url (world : answers call) request :
  trace world (POST is_url request) = [] \/
  exists req,
    (trace world (POST is_url request) = [existT _ (CreateDeployment req)] /\
     forall d, world _ (CreateDeployment req) <> Ok (inr d)) \/
    (exists d domainCalls envCalls,
        world _ (CreateDeployment req) = Ok (inr d) /\
        trace world (POST is_url request) =
          existT _ (CreateDeployment req) :: domainCalls ++ envCalls /\
        length domainCalls <= 1 /\ forallb isAddProjectDomain domainCalls = true /\
        length envCalls <= 1 /\ forallb isCreateProjectEnv envCalls = true).
Proof.
  destruct (POST_ends is_url world request) as (calls & response & Hrun & Hends).
  unfold trace. rewrite Hrun. simpl.
  destruct Hends as [| | |b v i e _ _ _ Hc|b v i d dr er _ _ _ Hok _ _];
    try by left.
  - right. exists (deploymentRequest v i). left. split; [done|].
    intros d Hd. by rewrite Hd in Hc.
  - right. exists (deploymentRequest v i). right.
    exists d, (RouteSpec.domainCalls v), (RouteSpec.envCalls v).
    destruct (domainCalls_shape v), (envCalls_shape v). done.
Qed.

(** In a run whose create-deployment call answered with a deployment,
    the domain that is attached is the alias that the create-deployment
    request asked for, on the project of that request. *)
Theorem domain_call_matches_alias is_url (world : answers call) request req d name :
  In (existT _ (CreateDeployment req)) (trace world (POST is_url request)) ->
  world _ (CreateDeployment req) = Ok (inr d) ->
  (DeploymentRequest.alias req = Some [name] <->
   In (existT _ (AddProjectDomain (DeploymentRequest.name req) name))
      (trace world (POST is_url request))).
Proof.
  intros Hin Hok.
  destruct (POST_ends is_url world request) as (calls & response & Hrun & Hends).
  unfold trace in *. rewrite Hrun in *. simpl in *.
  destruct Hends as [| | |b v i e _ _ _ Hc|b v i d' dr er _ _ _ Hok' _ _]; try done.
  { destruct Hin as [Heq|[]]. apply (f_equal createArgs) in Heq.
    injection Heq as <-. by rewrite Hok in Hc. }
  assert (req = deploymentRequest v i) as ->.
  { destruct Hin as [Heq|Hin].
    - apply (f_equal createArgs) in Heq. by injection Heq.
    - apply in_app_or in Hin as [Hin|Hin].
      + apply RouteTheorems.In_domainCalls in Hin as (? & _ & _ & Heq).
        by apply (f_equal createArgs) in Heq.
      + by apply RouteTheorems.In_envCalls in Hin. }
  unfold deploymentRequest, domainCalls, envCalls. simpl.
  destruct (Validated.domainName v) as [dn|]; simpl.
  - destruct (Js.truthy dn) eqn:Ht; simpl.
    + split.
      * intros [= ->]. right. by left.
      * intros [Heq|[Heq|Hin']].
        -- by apply (f_equal domainArgs) in Heq.
        -- apply (f_equal domainArgs) in Heq. simpl in Heq. by injection Heq as ->.
        -- destruct (Validated.envVars v) as [[|? ?]|]; try done.
           destruct Hin' as [Heq|[]]. by apply (f_equal domainArgs) in Heq.
    + split; [done|]. intros [Heq|Hin'].
      * by apply (f_equal domainArgs) in Heq.
      * destruct (Validated.envVars v) as [[|? ?]|]; try done.
        destruct Hin' as [Heq|[]]. by apply (f_equal domainArgs) in Heq.
  - split; [done|]. intros [Heq|Hin'].
    + by apply (f_equal domainArgs) in Heq.
    + destruct (Validated.envVars v) as [[|? ?]|]; try done.
      destruct Hin' as [Heq|[]]. by apply (f_equal domainArgs) in Heq.
Qed.

Lemma domain_call_matches_alias_witness :
  Some ["widget.example.com"] = Some ["widget.example.com"] <->
  In (existT _ (AddProjectDomain "widget-prod" "widget.example.com"))
     (trace Examples.healthy (POST Examples.urlTest (inr Examples.widgetWithDomain))).
Proof.
  apply (domain_call_matches_alias Examples.urlTest Examples.healthy
           (inr Examples.widgetWithDomain)
           (DeploymentRequest.mk "widget-prod" "production"
              (GitSource.mk "github" "widget" "main" "acme")
              (Some ["widget.example.com"]))
           Examples.widgetDeployment "widget.example.com").
  - vm_compute. left. reflexivity.
  - reflexivity.
Defined.

Lemma normalizeUrl_http u s :
  normalizeUrl u = Some s -> Js.startsWith "http" s = true.
Proof.
  unfold normalizeUrl. destruct u as [t|]; [|done].
  destruct (Js.truthy t); [|done].
  destruct (Js.startsWith "http" t) eqn:Hs; intros [= <-]; [done|].
  apply JsFacts.prefix_app with (p := "http") (s := "s://" +:+ t).
Qed.

Lemma normalizeUrl_None_iff u : normalizeUrl u = None <-> u = None \/ u = Some "".
Proof.
  unfold normalizeUrl. destruct u as [[|c t]|]; simpl.
  - split; [by right|done].
  - split; [done|]. by intros [?|?].
  - split; [by left|done].
Qed.

(** Applying the expression twice changes nothing more. *)
Lemma normalizeUrl_idempotent u : normalizeUrl (normalizeUrl u) = normalizeUrl u.
Proof.
  destruct (normalizeUrl u) as [s|] eqn:Hu; [|done].
  pose proof (normalizeUrl_http u s Hu) as Hs.
  unfold normalizeUrl. rewrite Hs.
  destruct s; [done|]. done.
Qed.

Lemma normalizeUrl_null_iff u :
  urlValue u ->
  (normalizeUrl (stringOf u) = None <-> forall v, u = Some v -> truthy v = false).
Proof.
  intros Hu. rewrite normalizeUrl_None_iff. unfold stringOf. split.
  - intros Hs v ->. destruct (truthy v) eqn:Ht; [|done].
    destruct (Hu v eq_refl Ht) as [s ->]. destruct Hs as [Hs|Hs]; [done|].
    injection Hs as ->. done.
  - intros Hf. destruct u as [v|]; [|by left].
    specialize (Hf v eq_refl). destruct v as [|b|t|s|items|fields]; try (by left).
    right. by destruct s.
Qed.

(** In every success response, a deployment URL and an inspector URL
    that are present start with [http]; each is [null] exactly when the
    platform sent none or a falsy one, as [null] or the empty string. *)
Theorem returned_urls_start_with_http is_url (world : answers call) request
    status view domain envVars message :
  result world (POST is_url request) =
    inr (mkResponse status (Success view domain envVars message)) ->
  (forall u, DeploymentView.url view = Some u -> Js.startsWith "http" u = true) /\
  (forall u, DeploymentView.inspectorUrl view = Some u ->
             Js.startsWith "http" u = true) /\
  exists req d,
    world _ (CreateDeployment req) = Ok (inr d) /\
    (DeploymentView.url view = None <->
     forall v, property "url" d = Some v -> truthy v = false) /\
    (DeploymentView.inspectorUrl view = None <->
     forall v, property "inspectorUrl" d = Some v -> truthy v = false).
Proof.
  intros Hres.
  destruct (POST_ends is_url world request) as (calls & response & Hrun & Hends).
  unfold result in Hres. rewrite Hrun in Hres. simpl in Hres.
  injection Hres as Hres.
  destruct Hends as [| | | |b v i d dr er _ _ _ Hok _ _];
    try (by apply RouteTheorems.handleError_not_Success in Hres).
  unfold finalResponse in Hres.
  destruct (deploymentView d) as [e|view'] eqn:Hview;
    [by apply RouteTheorems.handleError_not_Success in Hres|].
  injection Hres as _ <- _ _ _.
  apply deploymentView_inr in Hview as [(_ & Hu & Hi) ->]. simpl.
  split; [apply normalizeUrl_http|]. split; [apply normalizeUrl_http|].
  exists (deploymentRequest v i), d. split; [done|].
  split; by apply normalizeUrl_null_iff.
Qed.

Lemma returned_urls_start_with_http_witness :
  (forall u, DeploymentView.url Examples.widgetView = Some u ->
             Js.startsWith "http" u = true) /\
  (forall u, DeploymentView.inspectorUrl Examples.widgetView = Some u ->
             Js.startsWith "http" u = true) /\
  exists req d,
    Examples.healthy _ (CreateDeployment req) = Ok (inr d) /\
    (DeploymentView.url Examples.widgetView = None <->
     forall v, property "url" d = Some v -> truthy v = false) /\
    (DeploymentView.inspectorUrl Examples.widgetView = None <->
     forall v, property "inspectorUrl" d = Some v -> truthy v = false).
Proof.
  apply (returned_urls_start_with_http Examples.urlTest Examples.healthy
           (inr Examples.widgetRequest) 200 Examples.widgetView None None
           "Deployment created successfully!").
  vm_compute. reflexivity.
Defined.

(** The user name and the password have no part in what the handler
    does: two valid bodies that differ only there lead to the same calls
    and the same response. *)
Theorem credentials_are_not_used is_url (world : answers call) body body' v v' :
  parse (deploymentSchema is_url) body = inr v ->
  parse (deploymentSchema is_url) body' = inr v' ->
  MoreSpec.sameButCredentials v v' ->
  run world (POST is_url (inr body)) = run world (POST is_url (inr body')).
Proof.
  intros Hp Hp' (Hu & Hd & Hn & Hb & Ht & He).
  unfold POST, mbind, io_bind, mret, io_ret.
  rewrite !IoFacts.run_try_catch. simpl. rewrite !IoFacts.run_bind, Hp, Hp'.
  destruct v, v'. simpl in *. subst. reflexivity.
Qed.

Lemma credentials_are_not_used_witness :
  run Examples.healthy (POST Examples.urlTest (inr Examples.widgetRequest)) =
  run Examples.healthy (POST Examples.urlTest (inr MoreSpec.widgetOfBob)).
Proof.
  apply (credentials_are_not_used Examples.urlTest Examples.healthy
           Examples.widgetRequest MoreSpec.widgetOfBob
           (Validated.mk "https://github.com/acme/widget" "alice" None None
              "widget-prod" "main" "production" (Some []))
           (Validated.mk "https://github.com/acme/widget" "bob" (Some "hunter22") None
              "widget-prod" "main" "production" (Some []))).
  - vm_compute. reflexivity.
  - vm_compute. reflexivity.
  - repeat split.
Defined.

Lemma run_addDomain_result world v dr :
  run world (addDomain v) = (domainCalls v, inr dr) ->
  (dr = None <-> Validated.domainName v = None \/ Validated.domainName v = Some "").
Proof.
  unfold addDomain, domainCalls.
  destruct (Validated.domainName v) as [[|c dn]|]; simpl.
  - intros [= <-]. split; [by right|done].
  - intros [= <-]. split; [done|]. by intros [?|?].
  - intros [= <-]. split; [by left|done].
Qed.

Lemma run_addEnvVars_result world v er :
  run world (addEnvVars v) = (envCalls v, inr er) ->
  (er = None <-> Validated.envVars v = None \/ Validated.envVars v = Some []).
Proof.
  unfold addEnvVars, envCalls.
  destruct (Validated.envVars v) as [[|e rest]|]; simpl.
  - intros [= <-]. split; [by right|done].
  - intros [= <-]. split; [done|]. by intros [?|?].
  - intros [= <-]. split; [by left|done].
Qed.

(** A success response reports on the domain exactly when a non-empty
    domain name was given, and on the environment variables exactly when
    the list is not empty. *)
Theorem optional_steps_reported_iff_requested is_url (world : answers call) body v
    status view domain envVars message :
  parse (deploymentSchema is_url) body = inr v ->
  result world (POST is_url (inr body)) =
    inr (mkResponse status (Success view domain envVars message)) ->
  (domain = None <->
   Validated.domainName v = None \/ Validated.domainName v = Some "") /\
  (envVars = None <->
   Validated.envVars v = None \/ Validated.envVars v = Some []).
Proof.
  intros Hp Hres.
  destruct (POST_ends is_url world (inr body)) as (calls & response & Hrun & Hends).
  unfold result in Hres. rewrite Hrun in Hres. simpl in Hres.
  injection Hres as Hres.
  destruct Hends as [| | | |b v' i d dr er Hr Hp' _ _ Hdom Henv];
    try (by apply RouteTheorems.handleError_not_Success in Hres).
  injection Hr as <-. rewrite Hp in Hp'. injection Hp' as <-.
  unfold finalResponse in Hres.
  destruct (deploymentView d) as [e|view'];
    [by apply RouteTheorems.handleError_not_Success in Hres|].
  injection Hres as _ _ <- <- _.
  split; [by eapply run_addDomain_result|by eapply run_addEnvVars_result].
Qed.

Lemma optional_steps_reported_iff_requested_witness :
  (Some (DomainResult.mk "widget.example.com" "added" true None) = None <->
   Some "widget.example.com" = None \/ Some "widget.example.com" = Some "") /\
  (@None EnvVarsResult.t = None <->
   Some (@nil EnvVar.t) = None \/ Some (@nil EnvVar.t) = Some []).
Proof.
  apply (optional_steps_reported_iff_requested Examples.urlTest Examples.healthy
           Examples.widgetWithDomain
           (Validated.mk "https://github.com/acme/widget" "alice" None
              (Some "widget.example.com") "widget-prod" "main" "production" (Some []))
           200 Examples.widgetView
           (Some (DomainResult.mk "widget.example.com" "added" true None)) None
           "Deployment created successfully!").
  - vm_compute. reflexivity.
  - vm_compute. reflexivity.
Defined.

(** In every run that issued the domain call, the create-deployment
    call had answered with a JSON value.  When the platform accepted the
    domain and the object of the deployment can be built from that
    value, the response is a success whose [domain] carries the name the
    platform answered with, status ["added"] and [added] true; when the
    object cannot be built, the response is the answer of the [catch]
    clause to the [TypeError], although the domain is attached. *)
Theorem accepted_domain_is_reported is_url (world : answers call) request
    idOrName name answered :
  In (existT _ (AddProjectDomain idOrName name)) (trace world (POST is_url request)) ->
  world _ (AddProjectDomain idOrName name) = inr answered ->
  exists req d envVarsResult,
    In (existT _ (CreateDeployment req)) (trace world (POST is_url request)) /\
    world _ (CreateDeployment req) = Ok (inr d) /\
    (forall view,
        deploymentView d = inr view ->
        result world (POST is_url request) =
          inr (mkResponse 200
                 (Success view
                    (Some (DomainResult.mk answered "added" true None))
                    envVarsResult
                    "Deployment created successfully!"))) /\
    (forall e,
        deploymentView d = inl e ->
        result world (POST is_url request) = inr (handleError e)).
Proof.
  intros Hin Hacc.
  destruct (POST_ends is_url world request) as (calls & response & Hrun & Hends).
  unfold trace in *. unfold result. rewrite Hrun in *. simpl in *.
  destruct Hends as [| | |b v i e _ _ _ _|b v i d dr er _ _ _ Hok Hdom Henv];
    try done.
  { destruct Hin as [Heq|[]]. by apply (f_equal domainArgs) in Heq. }
  destruct Hin as [Heq|Hin]; [by apply (f_equal domainArgs) in Heq|].
  apply in_app_or in Hin as [Hin|Hin].
  - apply RouteTheorems.In_domainCalls in Hin as (dn & Hdn & Ht & Heq).
    apply (f_equal domainArgs) in Heq. simpl in Heq. injection Heq as -> ->.
    rewrite (RouteTheorems.run_addDomain_called world v dn Hdn Ht), Hacc in Hdom.
    injection Hdom as <-.
    exists (deploymentRequest v i), d, er. split; [by left|]. split; [done|].
    unfold finalResponse. split; intros ? ->; done.
  - by apply RouteTheorems.In_envCalls in Hin.
Qed.

Lemma accepted_domain_is_reported_witness :
  exists req d envVarsResult,
    In (existT _ (CreateDeployment req))
       (trace Examples.healthy (POST Examples.urlTest (inr Examples.widgetWithDomain))) /\
    Examples.healthy _ (CreateDeployment req) = Ok (inr d) /\
    (forall view,
        deploymentView d = inr view ->
        result Examples.healthy (POST Examples.urlTest (inr Examples.widgetWithDomain)) =
          inr (mkResponse 200
                 (Success view
                    (Some (DomainResult.mk "widget.example.com" "added" true None))
                    envVarsResult
                    "Deployment created successfully!"))) /\
    (forall e,
        deploymentView d = inl e ->
        result Examples.healthy (POST Examples.urlTest (inr Examples.widgetWithDomain)) =
          inr (handleError e)).
Proof.
  apply (accepted_domain_is_reported Examples.urlTest Examples.healthy
           (inr Examples.widgetWithDomain) "widget-prod" "widget.example.com"
           "widget.example.com").
  - vm_compute. right. left. reflexivity.
  - reflexivity.
Defined.



(** The status of a failed create-deployment answer is never read: two
    platforms that answer with the same error bodies under different
    statuses lead to the same calls and the same response. *)
Theorem upstream_status_is_never_read is_url request
    (status status' : DeploymentRequest.t -> Z)
    (errorData : DeploymentRequest.t -> string + json) addDomain createEnv :
  run (Examples.platform (fun r => NotOk (status r) (errorData r)) addDomain createEnv)
      (POST is_url request) =
  run (Examples.platform (fun r => NotOk (status' r) (errorData r)) addDomain createEnv)
      (POST is_url request).
Proof.
  unfold POST, mbind, io_bind, mret, io_ret.
  rewrite !IoFacts.run_try_catch.
  destruct request as [m|body]; [done|]. simpl.
  rewrite !IoFacts.run_bind.
  destruct (parse (deploymentSchema is_url) body) as [e|v]; [done|]. simpl.
  rewrite !IoFacts.run_bind.
  destruct (extractGitHubInfo (Validated.repositoryUrl v)) as [e|i]; [done|]. simpl.
  rewrite !IoFacts.run_bind. simpl.
  by destruct (errorData (deploymentRequest v i)).
Qed.

(** What decides is the text of the error body: when the create-deployment
    call answers with an error whose JSON text holds [forbidden] or
    [Not authorized], whatever its status, the response has status 403
    and the message about the token, and no other call is issued. *)
Theorem forbidden_text_is_answered_403 is_url (world : answers call) request req
    status errorData :
  In (existT _ (CreateDeployment req)) (trace world (POST is_url request)) ->
  world _ (CreateDeployment req) = NotOk status (inr errorData) ->
  Js.includes "forbidden" (stringify errorData)
    || Js.includes "Not authorized" (stringify errorData) = true ->
  run world (POST is_url request) =
  ([existT _ (CreateDeployment req)],
   inr (mkResponse 403 (Failure "Vercel authentication failed" tokenMessage))).
Proof.
  intros Hin Hans Htext.
  rewrite (RouteTheorems.failed_create_ends_run is_url world request req
             (ErrorObject None (stringify errorData)) Hin);
    [|by rewrite Hans].
  by rewrite (RouteTheorems.forbidden_text_answers_403 _ Htext).
Qed.

Lemma forbidden_text_is_answered_403_witness :
  run MoreSpec.forbidden (POST Examples.urlTest (inr Examples.widgetRequest)) =
  ([existT _ (CreateDeployment
                (DeploymentRequest.mk "widget-prod" "production"
                   (GitSource.mk "github" "widget" "main" "acme") None))],
   inr (mkResponse 403 (Failure "Vercel authentication failed" tokenMessage))).
Proof.
  apply (forbidden_text_is_answered_403 Examples.urlTest MoreSpec.forbidden
           (inr Examples.widgetRequest) _ 403 MoreSpec.forbiddenBody).
  - vm_compute. left. reflexivity.
  - reflexivity.
  - vm_compute. reflexivity.
Defined.

(** [extractGitHubInfo] throws exactly when the pattern accepts no
    suffix of the URL; otherwise the URL ends with
    [github.com/<org>/<segment>], both parts non-empty and without
    ["/"], and the repository is the segment without its first [.git]. *)
Theorem extractGitHubInfo_decomposes url :
  (extractGitHubInfo url = inl (ErrorObject None "Invalid GitHub repository URL") <->
   forall before after,
     url = before +:+ after -> Regex.matches githubPattern after = false) /\
  (forall info,
      extractGitHubInfo url = inr info ->
      exists before segment,
        url = before +:+ "github.com/" +:+ org info +:+ "/" +:+ segment /\
        org info <> "" /\ segment <> "" /\
        Chars.allChars Regex.not_slash (org info) = true /\
        Chars.allChars Regex.not_slash segment = true /\
        repo info = Js.replace ".git" "" segment).
Proof.
  unfold extractGitHubInfo. split.
  - rewrite <- ExtractFacts.matchGithub_None.
    destruct (matchGithub url) as [[o r]|]; split; done.
  - intros info. destruct (matchGithub url) as [[o r]|] eqn:Hm; [|done].
    intros [= <-]. simpl.
    apply ExtractFacts.matchGithub_Some in Hm as (before & -> & ? & ? & ? & ?).
    by exists before, r.
Qed.

End RouteExtras.

(** ** More on the form: the list of variables, the button, the outcomes *)
Module FormExtras.
Import Io Form FormView FormSpec FormFacts MoreSpec.

(** Editing never adds an entry to the errors and never changes one:
    the new value is stored without being validated. *)
Theorem edit_never_adds_an_error field v st k message :
  errors (handleInputChange field v st) !! k = Some message ->
  errors st !! k = Some message.
Proof.
  unfold handleInputChange. simpl.
  destruct (errors st !! fieldKey field) as [m|]; [|done].
  destruct (Js.truthy m); [|done]. simpl.
  by intros [_ ?]%lookup_delete_Some.
Qed.

Lemma edit_never_adds_an_error_witness :
  errors noBranchState !! "branch" = Some "Branch is required".
Proof.
  apply (edit_never_adds_an_error repositoryUrl "not a url" noBranchState "branch"
           "Branch is required").
  vm_compute. reflexivity.
Defined.

Lemma filteri_above {A} index k (l : list A) :
  index < k -> filteri (fun i => negb (Nat.eqb i index)) k l = l.
Proof.
  revert k. induction l as [|x l IH]; intros k Hk; simpl; [done|].
  destruct (Nat.eqb_spec k index); [lia|]. simpl. rewrite IH by lia. done.
Qed.

Lemma filteri_remove {A} index k (l : list A) :
  k <= index ->
  filteri (fun i => negb (Nat.eqb i index)) k l =
  take (index - k) l ++ drop (S (index - k)) l.
Proof.
  revert k. induction l as [|x l IH]; intros k Hk; simpl.
  - by rewrite take_nil.
  - destruct (Nat.eqb_spec k index) as [->|Hne]; simpl.
    + rewrite Nat.sub_diag. simpl. rewrite drop_0. apply filteri_above. lia.
    + rewrite IH by lia.
      replace (index - k) with (S (index - S k)) by lia. done.
Qed.

(** [removeEnvVar] drops the entry at the index and keeps the others in
    order; an index beyond the list changes nothing. *)
Theorem removeEnvVar_drops_one_entry index st :
  formData (removeEnvVar index st) =
    withEnvVars (formData st)
      (take index (FormData.envVars (formData st))
       ++ drop (S index) (FormData.envVars (formData st))) /\
  (length (FormData.envVars (formData st)) <= index ->
   removeEnvVar index st = st).
Proof.
  assert (formData (removeEnvVar index st) =
          withEnvVars (formData st)
            (take index (FormData.envVars (formData st))
             ++ drop (S index) (FormData.envVars (formData st)))) as H.
  { unfold removeEnvVar, withEnvVars. simpl.
    rewrite filteri_remove by lia. by rewrite Nat.sub_0_r. }
  split; [done|]. intros Hlen.
  destruct st as [f e s ss sm dr]. unfold removeEnvVar, setFormData in *. simpl in *.
  rewrite H. unfold withEnvVars.
  rewrite take_ge, drop_ge, app_nil_r by lia. by destruct f.
Qed.

(** [updateEnvVar] sets the named property of the entry at the index
    and leaves every other entry, and the length of the list, as they
    were; an index beyond the list changes nothing. *)
Theorem updateEnvVar_changes_one_entry index field v st :
  (forall j,
      FormData.envVars (formData (updateEnvVar index field v st)) !! j =
      if Nat.eqb j index
      then setEnvField field v <$> FormData.envVars (formData st) !! j
      else FormData.envVars (formData st) !! j) /\
  length (FormData.envVars (formData (updateEnvVar index field v st))) =
    length (FormData.envVars (formData st)) /\
  formData (updateEnvVar index field v st) =
    withEnvVars (formData st)
      (FormData.envVars (formData (updateEnvVar index field v st))).
Proof.
  unfold updateEnvVar, withEnvVars. simpl. split; [|split; [|done]].
  - intros j. rewrite list_lookup_imap.
    destruct (Nat.eqb j index); [done|].
    by destruct (FormData.envVars (formData st) !! j).
  - apply length_imap.
Qed.

(** Removing the row that [addEnvVar] has just added gives back the
    state from before. *)
Theorem add_then_remove_is_identity st :
  removeEnvVar (length (FormData.envVars (formData st))) (addEnvVar st) = st.
Proof.
  destruct st as [f e s ss sm dr]. destruct f as [u n p d pn b t l].
  unfold removeEnvVar, addEnvVar, setFormData. simpl.
  rewrite filteri_remove by lia. rewrite Nat.sub_0_r.
  rewrite take_app_length, drop_ge, app_nil_r; [done|].
  rewrite length_app. simpl. lia.
Qed.

Lemma blank_empty : blank "" = true.
Proof. done. Qed.

(** The row that [addEnvVar] adds is empty, so right after it the
    validator flags [envVars] and a submission issues no call. *)
Theorem added_row_blocks_submission (world : answers call) st :
  newErrors (formData (addEnvVar st)) !! "envVars" =
    Some "All environment variables must have both key and value" /\
  trace world (handleSubmit (addEnvVar st)) = [].
Proof.
  assert (newErrors (formData (addEnvVar st)) !! "envVars" =
          Some "All environment variables must have both key and value") as H.
  { etransitivity; [exact (lookup_newErrors (formData (addEnvVar st)) EnvVars)|].
    unfold ruleError, addEnvVar. simpl.
    rewrite List.filter_app. simpl. rewrite length_app. simpl.
    by rewrite Nat.add_1_r. }
  split; [done|].
  unfold trace, handleSubmit, validateForm.
  destruct (Nat.eqb_spec (size (newErrors (formData (addEnvVar st)))) 0) as [Hz|Hnz].
  - apply map_size_empty_iff in Hz. by rewrite Hz in H.
  - done.
Qed.

Lemma domainChar_not_dot c : domainChar c = true -> Ascii.eqb c "." = false.
Proof. destruct c as [[] [] [] [] [] [] [] []]; by vm_compute. Qed.

Lemma domainChars_no_dot d :
  Chars.allChars domainChar d = true -> Js.includes "." d = false.
Proof.
  induction d as [|c d IH]; [done|]. cbn [Chars.allChars Js.includes].
  intros [Hc Hd]%andb_true_iff.
  by rewrite JsFacts.prefix_char, (domainChar_not_dot c Hc), IH.
Qed.

(** A domain name that holds a dot is always flagged: the pattern knows
    letters, digits and hyphens only. *)
Theorem dotted_domain_is_flagged f :
  Js.includes "." (FormData.domainName f) = true ->
  newErrors f !! "domainName" = Some "Invalid domain format (e.g., mydomain.com)".
Proof.
  intros Hdot. etransitivity; [exact (lookup_newErrors f DomainName)|].
  unfold ruleError.
  destruct (FormData.domainName f) as [|c d] eqn:Hd; [done|].
  destruct (Regex.matches domainPattern (String c d)) eqn:Hm; [|done].
  apply domainPattern_shape in Hm as (c' & rest & [= <- <-] & Hc & Hrest).
  assert (Chars.allChars domainChar (String c d) = true) as Hall.
  { simpl. by rewrite (alnum_domainChar c Hc), Hrest. }
  apply domainChars_no_dot in Hall. congruence.
Qed.

Lemma dotted_domain_is_flagged_witness :
  newErrors dottedDomainForm !! "domainName" =
    Some "Invalid domain format (e.g., mydomain.com)".
Proof. apply (dotted_domain_is_flagged dottedDomainForm). vm_compute. reflexivity. Defined.

(** A form that the validator passes has its submit button enabled
    whenever no submission is under way. *)
Theorem valid_form_enables_submit st :
  newErrors (formData st) = ∅ -> isSubmitting st = false ->
  submitDisabled st = false.
Proof.
  intros He Hs. unfold submitDisabled, isFormValid. rewrite Hs.
  pose proof (SchemaTheorems.no_errors_holds _ RepositoryUrl He) as Hu.
  pose proof (SchemaTheorems.no_errors_holds _ UserName He) as [Hn _].
  pose proof (SchemaTheorems.no_errors_holds _ ProjectName He) as Hp.
  pose proof (SchemaTheorems.no_errors_holds _ Branch He) as Hb.
  simpl in *.
  apply repositoryShape_not_blank, blank_false_iff in Hu.
  apply projectNameShape_not_blank, blank_false_iff in Hp.
  apply SchemaTheorems.trim_nonempty, JsFacts.truthy_iff in Hu.
  apply SchemaTheorems.trim_nonempty, JsFacts.truthy_iff in Hn.
  apply SchemaTheorems.trim_nonempty, JsFacts.truthy_iff in Hp.
  apply SchemaTheorems.trim_nonempty, JsFacts.truthy_iff in Hb.
  by rewrite Hu, Hn, Hp, Hb.
Qed.

Lemma valid_form_enables_submit_witness : submitDisabled widgetState = false.
Proof.
  apply (valid_form_enables_submit widgetState).
  - vm_compute. reflexivity.
  - reflexivity.
Defined.

(** *** The outcomes of a submission *)

Lemma validateForm_valid st :
  newErrors (formData st) = ∅ ->
  validateForm st = (setErrors (fun _ => ∅) st, true).
Proof. intros He. unfold validateForm. by rewrite He. Qed.

(** Whatever the answer, a submission of a valid form ends with the form
    data as typed, no submission under way and an empty status line.  The
    status is [success] exactly when the body of the response is a
    success and the markup of its dialog is computed without a throw;
    the deployment is stored whenever the body is a success, also when
    the status ends as [error]. *)
Theorem submission_settles (world : answers call) st :
  newErrors (formData st) = ∅ ->
  exists st',
    result world (handleSubmit st) = inr st' /\
    formData st' = formData st /\
    isSubmitting st' = false /\
    statusMessage st' = "" /\
    (submitStatus st' = success \/ submitStatus st' = error) /\
    (submitStatus st' = success <->
     exists d dom ev m,
       world _ (Fetch "/api/deploy" "POST" (formData st)) =
         Some (Route.Success d dom ev m) /\
       successHtml d dom ev = true) /\
    (forall d,
        deploymentResult st' = Some d <->
        exists dom ev m,
          world _ (Fetch "/api/deploy" "POST" (formData st)) =
            Some (Route.Success d dom ev m)).
Proof.
  intros He. unfold result, handleSubmit. rewrite (validateForm_valid st He). simpl.
  destruct (world _ _) as [[d dom ev m|e details|e m]|] eqn:Hw; simpl.
  - destruct (successHtml d dom ev) eqn:Hh; simpl;
      (eexists; split; [reflexivity|]); simpl; repeat split; eauto; try done.
    + intros _. by exists d, dom, ev, m.
    + by intros [= ->]; eauto.
    + by intros (? & ? & ? & [= ->]).
    + intros (? & ? & ? & ? & [= <- <- <- <-] & Hh'). congruence.
    + by intros [= ->]; eauto.
    + by intros (? & ? & ? & [= ->]).
  - eexists. split; [reflexivity|]. simpl. repeat split; eauto; try done.
    + by intros (? & ? & ? & ? & ? & ?).
    + by intros (? & ? & ? & ?).
  - unfold failureDialog.
    repeat match goal with |- context [if ?b then _ else _] => destruct b end;
      simpl; (eexists; split; [reflexivity|]); simpl; repeat split; eauto; try done;
      try (by intros (? & ? & ? & ? & ? & ?)); by intros (? & ? & ? & ?).
  - eexists. split; [reflexivity|]. simpl. repeat split; eauto; try done.
    + by intros (? & ? & ? & ? & ? & ?).
    + by intros (? & ? & ? & ?).
Qed.

Lemma submission_settles_witness :
  exists st',
    result (browser None) (handleSubmit widgetState) = inr st' /\
    formData st' = formData widgetState /\
    isSubmitting st' = false /\
    statusMessage st' = "" /\
    (submitStatus st' = success \/ submitStatus st' = error) /\
    (submitStatus st' = success <->
     exists d dom ev m,
       browser None _ (Fetch "/api/deploy" "POST" (formData widgetState)) =
         Some (Route.Success d dom ev m) /\
       successHtml d dom ev = true) /\
    (forall d,
        deploymentResult st' = Some d <->
        exists dom ev m,
          browser None _ (Fetch "/api/deploy" "POST" (formData widgetState)) =
            Some (Route.Success d dom ev m)).
Proof. apply (submission_settles (browser None) widgetState). vm_compute. reflexivity. Defined.

(** What the form does with a success.  When the markup of the dialog is
    computed without a throw, the form stores the deployment, shows the
    success dialog and sets one timer of ten seconds; when the timer
    fires, the form is back in its initial state.  When the computation
    throws, the throw lands in the [catch] clause: the form shows the
    dialog of the network error and ends in status [error], with the
    deployment stored and no timer to clear it. *)
Theorem success_is_shown_then_reset (world : answers call) st d dom ev m :
  newErrors (formData st) = ∅ ->
  world _ (Fetch "/api/deploy" "POST" (formData st)) = Some (Route.Success d dom ev m) ->
  if successHtml d dom ev
  then exists st',
         run world (handleSubmit st) =
           ([existT _ (Fetch "/api/deploy" "POST" (formData st));
             existT _ (SwalFire "success" "Deployment Created!" None);
             existT _ (SetTimeout 10000)],
            inr st') /\
         deploymentResult st' = Some d /\
         submitStatus st' = success /\
         resetAfterSuccess st' = initialState
  else run world (handleSubmit st) =
         ([existT _ (Fetch "/api/deploy" "POST" (formData st));
           existT _ (SwalFire "error" "Network Error"
                       (Some "Please check your connection and try again."))],
          inr (mkState (formData st) ∅ false error "" (Some d))).
Proof.
  intros He Hw. unfold handleSubmit. rewrite (validateForm_valid st He). simpl.
  rewrite Hw. simpl. destruct (successHtml d dom ev); simpl.
  - eexists. split; [reflexivity|]. done.
  - done.
Qed.

Lemma success_is_shown_then_reset_witness :
  (exists st',
     run (browser (Some (Route.Success Examples.widgetView None None
                           "Deployment created successfully!")))
         (handleSubmit widgetState) =
       ([existT _ (Fetch "/api/deploy" "POST" (formData widgetState));
         existT _ (SwalFire "success" "Deployment Created!" None);
         existT _ (SetTimeout 10000)],
        inr st') /\
     deploymentResult st' = Some Examples.widgetView /\
     submitStatus st' = success /\
     resetAfterSuccess st' = initialState) /\
  run (browser (Some (Route.Success Examples.widgetView None
                        (Some (Route.EnvVarsResult.mk true 2 None None))
                        "Deployment created successfully!")))
      (handleSubmit widgetState) =
    ([existT _ (Fetch "/api/deploy" "POST" (formData widgetState));
      existT _ (SwalFire "error" "Network Error"
                  (Some "Please check your connection and try again."))],
     inr (mkState (formData widgetState) ∅ false error "" (Some Examples.widgetView))).
Proof.
  split.
  - apply (success_is_shown_then_reset _ widgetState Examples.widgetView None None
             "Deployment created successfully!").
    + vm_compute. reflexivity.
    + reflexivity.
  - apply (success_is_shown_then_reset _ widgetState Examples.widgetView None
             (Some (Route.EnvVarsResult.mk true 2 None None))
             "Deployment created successfully!").
    + vm_compute. reflexivity.
    + reflexivity.
Defined.


Lemma fieldErrors_snoc details detail :
  fieldErrors (details ++ [detail]) = <[fst detail := snd detail]> (fieldErrors details).
Proof. unfold fieldErrors. by rewrite foldl_app. Qed.

Lemma fieldErrors_lookup details k : fieldErrors details !! k = lastDetail k details.
Proof.
  unfold lastDetail.
  induction details as [|detail details IH] using rev_ind; [done|].
  rewrite fieldErrors_snoc, rev_app_distr. simpl.
  destruct (String.eqb_spec (fst detail) k) as [<-|Hne].
  - by rewrite lookup_insert_eq.
  - by rewrite lookup_insert_ne.
Qed.

(** When the response carries field details, they replace the errors of
    the form, the last detail of a field winning, and no dialog is
    shown. *)
Theorem server_details_replace_errors (world : answers call) st e details :
  newErrors (formData st) = ∅ ->
  world _ (Fetch "/api/deploy" "POST" (formData st)) =
    Some (Route.ValidationFailed e details) ->
  exists st',
    run world (handleSubmit st) =
      ([existT _ (Fetch "/api/deploy" "POST" (formData st))], inr st') /\
    (forall k, errors st' !! k = lastDetail k details) /\
    submitStatus st' = error.
Proof.
  intros He Hw. unfold handleSubmit. rewrite (validateForm_valid st He). simpl.
  rewrite Hw. simpl. eexists. split; [reflexivity|]. split; [|done].
  intros k. simpl. apply fieldErrors_lookup.
Qed.

Lemma server_details_replace_errors_witness :
  exists st',
    run (browser (Some (Route.ValidationFailed "Validation failed"
                          [("branch", "Too short"); ("branch", "Required")])))
        (handleSubmit widgetState) =
      ([existT _ (Fetch "/api/deploy" "POST" (formData widgetState))], inr st') /\
    (forall k, errors st' !! k =
               lastDetail k [("branch", "Too short"); ("branch", "Required")]) /\
    submitStatus st' = error.
Proof.
  apply (server_details_replace_errors _ widgetState "Validation failed").
  - vm_compute. reflexivity.
  - reflexivity.
Defined.

(** When the response is a failure without details, exactly one dialog
    is shown, with one of the four titles; its text is [error] of the
    body when that is not empty, else [message], else a fixed text.  No
    timer is set and the errors of the form stay empty. *)
Theorem failure_shows_one_dialog (world : answers call) st err message :
  newErrors (formData st) = ∅ ->
  world _ (Fetch "/api/deploy" "POST" (formData st)) = Some (Route.Failure err message) ->
  exists icon title st',
    run world (handleSubmit st) =
      ([existT _ (Fetch "/api/deploy" "POST" (formData st));
        existT _ (SwalFire icon title (Some (failureText err message)))],
       inr st') /\
    In (icon, title) [("warning", "Authentication Error"); ("info", "Repository Error");
                      ("info", "Project Configuration Error");
                      ("error", "Deployment Failed")] /\
    errors st' = ∅ /\ submitStatus st' = error /\ deploymentResult st' = None.
Proof.
  intros He Hw. unfold handleSubmit. rewrite (validateForm_valid st He). simpl.
  rewrite Hw. simpl. unfold failureDialog. fold (failureText err message).
  repeat match goal with |- context [if ?b then _ else _] => destruct b end;
    simpl; do 3 eexists; (split; [reflexivity|]); simpl; split; try done;
    repeat (first [left; reflexivity | right]).
Qed.

Lemma failure_shows_one_dialog_witness :
  exists icon title st',
    run (browser (Some (Route.Failure "" "Repository not found. Check the URL.")))
        (handleSubmit widgetState) =
      ([existT _ (Fetch "/api/deploy" "POST" (formData widgetState));
        existT _ (SwalFire icon title
                    (Some (failureText "" "Repository not found. Check the URL.")))],
       inr st') /\
    In (icon, title) [("warning", "Authentication Error"); ("info", "Repository Error");
                      ("info", "Project Configuration Error");
                      ("error", "Deployment Failed")] /\
    errors st' = ∅ /\ submitStatus st' = error /\ deploymentResult st' = None.
Proof.
  apply (failure_shows_one_dialog _ widgetState).
  - vm_compute. reflexivity.
  - reflexivity.
Defined.

(** When [fetch] or the reading of the body throws, the dialog is the
    one of the network error and the status is [error]; [isSubmitting]
    is reset all the same. *)
Theorem network_error_is_reported (world : answers call) st :
  newErrors (formData st) = ∅ ->
  world _ (Fetch "/api/deploy" "POST" (formData st)) = None ->
  run world (handleSubmit st) =
    ([existT _ (Fetch "/api/deploy" "POST" (formData st));
      existT _ (SwalFire "error" "Network Error"
                  (Some "Please check your connection and try again."))],
     inr (mkState (formData st) ∅ false error "" None)).
Proof.
  intros He Hw. unfold handleSubmit. rewrite (validateForm_valid st He). simpl.
  by rewrite Hw.
Qed.

Lemma network_error_is_reported_witness :
  run (browser None) (handleSubmit widgetState) =
    ([existT _ (Fetch "/api/deploy" "POST" (formData widgetState));
      existT _ (SwalFire "error" "Network Error"
                  (Some "Please check your connection and try again."))],
     inr (mkState (formData widgetState) ∅ false error "" None)).
Proof.
  apply (network_error_is_reported (browser None) widgetState).
  - vm_compute. reflexivity.
  - reflexivity.
Defined.

End FormExtras.

(** ** The form and the route together *)
Module EndToEnd.
Import Json Io Route RouteSpec RouteFacts SchemaSpec MoreSpec.

#[local] Arguments handleError : simpl never.
#[local] Arguments deploymentView : simpl never.

(** What the route makes of the body of a form that the validator of the
    form passes. *)
Lemma valid_form_parsed is_url f :
  Form.newErrors f = ∅ ->
  is_url (Form.FormData.repositoryUrl f) = true ->
  parse (deploymentSchema is_url) (requestBody f) = inr (validatedForm f) /\
  exists owner segment,
    Form.FormData.repositoryUrl f = "https://github.com/" +:+ owner +:+ "/" +:+ segment /\
    extractGitHubInfo (Validated.repositoryUrl (validatedForm f)) =
      inr (mkInfo owner (Js.replace ".git" "" segment)) /\
    deploymentRequest (validatedForm f) (mkInfo owner (Js.replace ".git" "" segment)) =
      formRequest f owner segment.
Proof.
  intros He Hu. split.
  - by apply SchemaFacts.parse_accepted, SchemaTheorems.client_valid_accepted.
  - pose proof (SchemaTheorems.no_errors_holds _ FormSpec.RepositoryUrl He)
      as (owner & segment & Hurl & Ho & Hs & Hos & Hss).
    exists owner, segment. split; [done|]. split.
    + unfold extractGitHubInfo. simpl. rewrite Hurl.
      by rewrite ExtractFacts.matchGithub_https.
    + done.
Qed.




(** A form that the validator of the form passes, and whose URL the
    schema takes for a URL, is never rejected by the route before the
    platform is asked: the first call creates a deployment of the typed
    project, target and branch, from the owner and the repository of the
    URL, with the typed domain as alias. *)
Theorem valid_form_reaches_the_platform is_url (platform : answers call) f :
  Form.newErrors f = ∅ ->
  is_url (Form.FormData.repositoryUrl f) = true ->
  exists owner segment rest,
    Form.FormData.repositoryUrl f = "https://github.com/" +:+ owner +:+ "/" +:+ segment /\
    trace platform (POST is_url (inr (requestBody f))) =
      existT _ (CreateDeployment (formRequest f owner segment)) :: rest.
Proof.
  intros He Hu.
  destruct (valid_form_parsed is_url f He Hu) as (Hp & owner & segment & Hurl & Hx & Hr).
  exists owner, segment.
  destruct (POST_ends is_url platform (inr (requestBody f))) as (calls & response & Hrun & Hends).
  unfold trace. rewrite Hrun. simpl.
  inversion Hends as [m Hq|b e Hq Hp'|b v e Hq Hp' Hx'|b v info e Hq Hp' Hx' Hc
                     |b v info d dr er Hq Hp' Hx' Hc Hd He']; subst;
    try discriminate; injection Hq as <-; rewrite Hp in Hp'; try discriminate;
    injection Hp' as <-; rewrite Hx in Hx'; try discriminate; injection Hx' as <-;
    rewrite Hr; by eauto.
Qed.

Lemma valid_form_reaches_the_platform_witness :
  exists owner segment rest,
    Form.FormData.repositoryUrl FormSpec.widgetForm =
      "https://github.com/" +:+ owner +:+ "/" +:+ segment /\
    trace Examples.healthy (POST Examples.urlTest (inr (requestBody FormSpec.widgetForm))) =
      existT _ (CreateDeployment (formRequest FormSpec.widgetForm owner segment)) :: rest.
Proof.
  apply (valid_form_reaches_the_platform Examples.urlTest Examples.healthy
           FormSpec.widgetForm).
  - vm_compute. reflexivity.
  - reflexivity.
Defined.




Lemma handleError_status_cases status m :
  handleError (ErrorObject status m) = classifyMessage (ErrorObject status m) \/
  (status = Some 401%Z /\
   body (handleError (ErrorObject status m)) =
     Failure "Authentication failed"
       "Invalid Vercel token. Check your VERCEL_TOKEN environment variable.") \/
  (status = Some 403%Z /\
   body (handleError (ErrorObject status m)) = Failure "Access denied" tokenMessage) \/
  (status = Some 404%Z /\ httpStatus (handleError (ErrorObject status m)) = 404%Z).
Proof.
  unfold handleError. cbn [statusOf].
  destruct status as [[|p|p]|]; try (by left).
  do 9 (try (destruct p as [p|p|]; try (by left))); try (by left).
  all: try (right; left; by split).
  all: try (right; right; left; by split).
  all: try (right; right; right; by split).
Qed.

(** The dialog of the authentication error is not the one that answers a
    response of status 401 or 403: the form goes by the [error] of the
    body, which names neither the token nor its validity, and shows the
    general failure dialog with that text. *)
Theorem auth_failure_shows_general_dialog e :
  httpStatus (handleError e) = 401%Z \/ httpStatus (handleError e) = 403%Z ->
  exists err message,
    body (handleError e) = Failure err message /\
    Form.failureDialog err message =
      await (Form.SwalFire "error" "Deployment Failed" (Some err)).
Proof.
  intros Hs.
  assert (forall e', httpStatus (classifyMessage e') = 401%Z \/
                     httpStatus (classifyMessage e') = 403%Z ->
                     body (classifyMessage e') =
                       Failure "Vercel authentication failed" tokenMessage) as Hc.
  { intros e'. unfold classifyMessage, errorResponse.
    destruct (messageOf e') as [m'|]; [|by intros [|]].
    repeat match goal with |- context [if ?b then _ else _] => destruct b end;
      simpl; by intros [|]. }
  destruct e as [issues|status m|t].
  - by destruct Hs.
  - destruct (handleError_status_cases status m) as [H|[[_ H]|[[_ H]|[_ H]]]].
    + rewrite H in *. rewrite (Hc _ Hs). by do 2 eexists.
    + rewrite H. by do 2 eexists.
    + rewrite H. by do 2 eexists.
    + rewrite H in Hs. by destruct Hs.
  - change (handleError (NonError t)) with (classifyMessage (NonError t)) in *.
    rewrite (Hc _ Hs). by do 2 eexists.
Qed.

Lemma auth_failure_shows_general_dialog_witness :
  exists err message,
    body (handleError (ErrorObject None "Not authorized")) = Failure err message /\
    Form.failureDialog err message =
      await (Form.SwalFire "error" "Deployment Failed" (Some err)).
Proof.
  apply (auth_failure_shows_general_dialog (ErrorObject None "Not authorized")).
  right. vm_compute. reflexivity.
Defined.

End EndToEnd.
